(** * rag_demo: the request-orchestration pipeline

    A shallow embedding of the nodes of the retrieval-augmented question
    answering graph ([src/nodes/*.py], [src/state.py], [src/config.py],
    [src/agent.py]) and the properties of its specification.

    Python values that come out of [json.loads] are dynamically typed; they
    are modelled by the type [json].  Calls to the language model, to the
    retrieval backends and to the clock are inputs of the node functions;
    writes to the log files and model invocations are recorded as events. *)

From Stdlib Require Import ZArith QArith List Sorted Permutation Lia Bool Ascii String.
From stdpp Require Import gmap strings list sorting pretty.

Set Warnings "-register-all".

Local Open Scope string_scope.
Local Open Scope Z_scope.
Local Open Scope list_scope.

(** ** Python values *)

(** Values produced by [json.loads] (floats are left out: no branch of the
    pipeline distinguishes them from integers other than by formatting). *)
Inductive json : Type :=
| JNull
| JBool (b : bool)
| JInt (n : Z)
| JStr (s : string)
| JArr (items : list json)
| JObj (fields : list (string * json)).

(** An exception: [type(e).__name__] and [str(e)]. *)
Record exn : Type := Exn { exn_type : string; exn_msg : string }.

Inductive result (A : Type) : Type :=
| Ok (a : A)
| Raise (e : exn).
Arguments Ok {A} a.
Arguments Raise {A} e.

Definition bind {A B : Type} (r : result A) (k : A -> result B) : result B :=
  match r with
  | Ok a => k a
  | Raise e => Raise e
  end.

Notation "'let*' x ':=' r 'in' k" := (bind r (fun x => k))
  (at level 10, x pattern, r at level 100, k at level 200).

(** The newline character. *)
Definition nl : string := String "010"%char EmptyString.

(** [sep.join(parts)]. *)
Fixpoint join (sep : string) (parts : list string) : string :=
  match parts with
  | [] => ""
  | [p] => p
  | p :: rest => p +:+ sep +:+ join sep rest
  end.

(** The one-character strings of a string, as iteration yields them. *)
Fixpoint chars (s : string) : list json :=
  match s with
  | EmptyString => []
  | String c rest => JStr (String c EmptyString) :: chars rest
  end.

(** [type(v).__name__]. *)
Definition type_name (v : json) : string :=
  match v with
  | JNull => "NoneType"
  | JBool _ => "bool"
  | JInt _ => "int"
  | JStr _ => "str"
  | JArr _ => "list"
  | JObj _ => "dict"
  end.

(** The value a dictionary, given by its items, holds under [key]. *)
Fixpoint dict_lookup (fields : list (string * json)) (key : string) : option json :=
  match fields with
  | [] => None
  | (k, v) :: rest => if String.eqb k key then Some v else dict_lookup rest key
  end.

(** [d.get(key, default)]. *)
Definition dict_get (fields : list (string * json)) (key : string) (default : json) : json :=
  match dict_lookup fields key with
  | Some v => v
  | None => default
  end.

(** [v.get(key, default)]: only dictionaries have the method. *)
Definition py_get (v : json) (key : string) (default : json) : result json :=
  match v with
  | JObj fields => Ok (dict_get fields key default)
  | _ => Raise (Exn "AttributeError"
                  ("'" +:+ type_name v +:+ "' object has no attribute 'get'"))
  end.

(** Truth value of [v] in [if v:]. *)
Definition truthy (v : json) : bool :=
  match v with
  | JNull => false
  | JBool b => b
  | JInt n => negb (n =? 0)
  | JStr s => negb (String.eqb s "")
  | JArr items => match items with [] => false | _ => true end
  | JObj fields => match fields with [] => false | _ => true end
  end.

(** [iter(v)]: lists yield their items, strings their characters,
    dictionaries their keys; anything else is not iterable. *)
Definition py_iter (v : json) : result (list json) :=
  match v with
  | JArr items => Ok items
  | JStr s => Ok (chars s)
  | JObj fields => Ok (map (fun kv => JStr (fst kv)) fields)
  | _ => Raise (Exn "TypeError" ("'" +:+ type_name v +:+ "' object is not iterable"))
  end.

(** [target += suffix] with a string on the right: strings concatenate, a
    list is extended in place by the characters, nothing else supports it. *)
Definition py_iadd (target : json) (suffix : string) : result json :=
  match target with
  | JStr s => Ok (JStr (s +:+ suffix))
  | JArr items => Ok (JArr (items ++ chars suffix))
  | _ => Raise (Exn "TypeError"
                  ("unsupported operand type(s) for +=: '" +:+ type_name target
                   +:+ "' and 'str'"))
  end.

(** What the interpreter and the libraries provide and the repository does
    not define: [hash], [str.strip], [str.lower], [str()] of a value that is
    not a string, the exception raised by subscripting a value that does
    not support the subscript, and the text of a message-validation error. *)
Class PyEnv : Type := {
  py_hash : string -> Z;
  str_strip : string -> string;
  str_lower : string -> string;
  str_of : json -> string;
  subscript_error : json -> exn;
  validation_msg : json -> string
}.

(** [f"{v}"]. *)
Definition fmt {env : PyEnv} (v : json) : string :=
  match v with
  | JStr s => s
  | _ => str_of v
  end.

(** Python floats, as far as [fuse_docs] uses them: [0.0], [+],
    [1.0 / n] for an integer [n], and [<]. *)
Class PyFloat : Type := {
  float : Type;
  float_zero : float;
  float_add : float -> float -> float;
  float_recip : Z -> float;
  float_lt : float -> float -> bool
}.

(** ** [sorted] *)

(** [sorted(l, key=key, reverse=reverse)]: a stable sort that compares keys
    with [<] only; with [reverse] the list is reversed, sorted and reversed
    again, which keeps equal elements in their original order. *)
Section Sorted.
Context {A K : Type} (lt : K -> K -> bool) (key : A -> K).

Fixpoint insert_sorted (x : A) (l : list A) : list A :=
  match l with
  | [] => [x]
  | y :: rest => if lt (key y) (key x) then y :: insert_sorted x rest else x :: y :: rest
  end.

Definition sort_stable (l : list A) : list A := foldr insert_sorted [] l.

Definition sorted (reverse : bool) (l : list A) : list A :=
  if reverse then rev (sort_stable (rev l)) else sort_stable l.

End Sorted.

(** ** [config.py] *)

Definition TOP_K_FUSION : nat := 15.
Definition TOP_K_FINAL : nat := 5.

(** ** [state.py] *)

(** A retrieved chunk: the text and the [chunk_id] entry of its metadata
    (absent for a chunk that the ingestion script did not label). *)
Record Document : Type := Doc { page_content : string; chunk_id : option string }.

Inductive Role : Type := Human | AI.
Record Message : Type := Msg { role : Role; content : json }.

Definition docs_reducer (left : list Document) (right : option (list Document)) : list Document :=
  match right with
  | None => []
  | Some r => left ++ r
  end.

Record RAGState : Type := State {
  messages : list Message;
  question : option json;
  rewritten_queries : option json;
  docs : option (list Document);
  context : option (list Document);
  reranked_context : option (list Document);
  cache_hit : option bool
}.

(** One entry of the dictionary a node returns. *)
Inductive Assign : Type :=
| SetQuestion (q : json)
| AddMessages (ms : list Message)
| SetCacheHit (b : bool)
| SetRewrittenQueries (qs : json)
| SetDocs (ds : option (list Document))
| SetContext (ds : list Document)
| SetRerankedContext (ds : list Document).

Definition Update : Type := list Assign.

(** The graph merges an entry into the state: [messages] and [docs] go
    through their reducers, every other key is overwritten. *)
Definition apply_assign (st : RAGState) (a : Assign) : RAGState :=
  match a with
  | SetQuestion q =>
      State (messages st) (Some q) (rewritten_queries st) (docs st) (context st)
            (reranked_context st) (cache_hit st)
  | AddMessages ms =>
      State (messages st ++ ms) (question st) (rewritten_queries st) (docs st) (context st)
            (reranked_context st) (cache_hit st)
  | SetCacheHit b =>
      State (messages st) (question st) (rewritten_queries st) (docs st) (context st)
            (reranked_context st) (Some b)
  | SetRewrittenQueries qs =>
      State (messages st) (question st) (Some qs) (docs st) (context st)
            (reranked_context st) (cache_hit st)
  | SetDocs ds =>
      State (messages st) (question st) (rewritten_queries st)
            (Some (docs_reducer (default [] (docs st)) ds)) (context st)
            (reranked_context st) (cache_hit st)
  | SetContext ds =>
      State (messages st) (question st) (rewritten_queries st) (docs st) (Some ds)
            (reranked_context st) (cache_hit st)
  | SetRerankedContext ds =>
      State (messages st) (question st) (rewritten_queries st) (docs st) (context st)
            (Some ds) (cache_hit st)
  end.

Definition apply_update (st : RAGState) (u : Update) : RAGState :=
  fold_left apply_assign u st.

(** [state[key]] raises [KeyError] on a key that was never written. *)
Definition state_key {A : Type} (field : option A) (key : string) : result A :=
  match field with
  | Some v => Ok v
  | None => Raise (Exn "KeyError" ("'" +:+ key +:+ "'"))
  end.

(** ** [nodes/fusion.py] *)

Definition doc_key : Type := (string + Z)%type.

(** [doc.metadata.get("chunk_id", hash(doc.page_content))]. *)
Definition doc_id {env : PyEnv} (doc : Document) : doc_key :=
  match chunk_id doc with
  | Some c => inl c
  | None => inr (py_hash (page_content doc))
  end.

Section Fusion.
Context {env : PyEnv} {fp : PyFloat}.

(** [rrf_scores[key]] of a [defaultdict(float)]. *)
Definition score_of (rrf_scores : gmap doc_key float) (key : doc_key) : float :=
  default float_zero (rrf_scores !! key).

(** The body of the loop over [enumerate(all_docs)]; [doc_map] keeps the
    insertion order of its keys. *)
Definition fuse_step (k : Z) (acc : gmap doc_key float * list (doc_key * Document))
    (idx : nat) (doc : Document) : gmap doc_key float * list (doc_key * Document) :=
  let '(rrf_scores, doc_map) := acc in
  let id := doc_id doc in
  let rank := (Z.of_nat idx mod Z.of_nat TOP_K_FINAL) + 1 in
  let rrf_scores' :=
    <[id := float_add (score_of rrf_scores id) (float_recip (k + rank))]> rrf_scores in
  let doc_map' :=
    if decide (id ∈ doc_map.*1) then doc_map else doc_map ++ [(id, doc)] in
  (rrf_scores', doc_map').

Fixpoint fuse_loop (k : Z) (idx : nat) (all_docs : list Document)
    (acc : gmap doc_key float * list (doc_key * Document))
    : gmap doc_key float * list (doc_key * Document) :=
  match all_docs with
  | [] => acc
  | doc :: rest => fuse_loop k (S idx) rest (fuse_step k acc idx doc)
  end.

Definition fuse_docs_k (state : RAGState) (k : Z) : Update :=
  let all_docs := default [] (docs state) in
  let '(rrf_scores, doc_map) := fuse_loop k 0 all_docs (∅, []) in
  let context :=
    sorted float_lt (fun d => score_of rrf_scores (doc_id d)) true (doc_map.*2) in
  [SetContext (take TOP_K_FUSION context)].

(** The graph calls the node with the state only: [k] is its default, 60. *)
Definition fuse_docs (state : RAGState) : Update := fuse_docs_k state 60.

End Fusion.

(** ** [nodes/reranker.py] *)

(** [l[i]]: a negative index counts from the end of the list. *)
Definition py_index {A : Type} (l : list A) (i : Z) : result A :=
  let n := Z.of_nat (length l) in
  let pos := if i <? 0 then i + n else i in
  if (0 <=? pos) && (pos <? n) then
    match l !! Z.to_nat pos with
    | Some x => Ok x
    | None => Raise (Exn "IndexError" "list index out of range")
    end
  else Raise (Exn "IndexError" "list index out of range").

(** [[docs[i] for i in selected_ids if i < len(docs)]]. *)
Fixpoint select_docs (docs : list Document) (selected_ids : list Z) : result (list Document) :=
  match selected_ids with
  | [] => Ok []
  | i :: rest =>
      if i <? Z.of_nat (length docs) then
        let* d := py_index docs i in
        let* ds := select_docs docs rest in
        Ok (d :: ds)
      else select_docs docs rest
  end.

(** The body of the [try] block, given what the structured model call
    produced ([response.selected_ids], or the exception it raised). *)
Definition rerank_attempt (docs : list Document) (response : result (list Z))
    : result (list Document) :=
  let* all_ids := response in
  let selected_ids := take TOP_K_FINAL all_ids in
  let* reranked_docs := select_docs docs selected_ids in
  match reranked_docs with
  | [] => Ok (take TOP_K_FINAL docs)
  | _ => Ok reranked_docs
  end.

(** The prompt (the chunks rendered with their index and a preview) is the
    argument of the model call and has no other use; [response] is the
    outcome of that call. *)
Definition rerank_docs (state : RAGState) (response : result (list Z)) : result Update :=
  let* _ := state_key (question state) "question" in
  let* docs := state_key (context state) "context" in
  let reranked_docs :=
    match rerank_attempt docs response with
    | Ok reranked => reranked
    | Raise _ => take TOP_K_FINAL docs
    end in
  Ok [SetRerankedContext reranked_docs].

(** ** [nodes/rewriter.py] and [nodes/retrievers.py] *)

(** The outcome of a JSON-mode model call followed by
    [json.loads(response.content)]. *)
Inductive Reply : Type :=
| CallFails (e : exn)
| NotJson (e : exn)
| Json (v : json).

Definition reply_json (reply : Reply) : result json :=
  match reply with
  | CallFails e => Raise e
  | NotJson e => Raise e
  | Json v => Ok v
  end.

Definition rewrite_query (state : RAGState) (reply : Reply) : result Update :=
  let* question := state_key (question state) "question" in
  let* result := reply_json reply in
  let* queries := py_get result "queries" (JArr []) in
  Ok [SetQuestion question; SetRewrittenQueries queries; SetDocs None].

(** The retrieval backends of the document index. *)
Class Index : Type := {
  similarity_search : json -> nat -> result (list Document);
  lexical_search : json -> nat -> result (list Document)
}.

Inductive Node : Type := retrieve_vector_node | retrieve_bm25_node.

(** [Send(node, {"question": query})]. *)
Record Send : Type := MkSend { send_node : Node; send_question : json }.

Definition send_state (s : Send) : RAGState :=
  State [] (Some (send_question s)) None None None None None.

Definition retrieve_vector {index : Index} (state : RAGState) : result Update :=
  let* query := state_key (question state) "question" in
  let* docs := similarity_search query TOP_K_FINAL in
  Ok [SetDocs (Some docs)].

Definition retrieve_bm25 {index : Index} (state : RAGState) : result Update :=
  let* query := state_key (question state) "question" in
  let* docs := lexical_search query TOP_K_FINAL in
  Ok [SetDocs (Some docs)].

Definition run_send {index : Index} (s : Send) : result Update :=
  match send_node s with
  | retrieve_vector_node => retrieve_vector (send_state s)
  | retrieve_bm25_node => retrieve_bm25 (send_state s)
  end.

(** The double quote character. *)
Definition dq : string := String "034"%char EmptyString.

(** [left + [item]]. *)
Definition py_add_list (left : json) (item : json) : result (list json) :=
  match left with
  | JArr items => Ok (items ++ [item])
  | JStr _ =>
      Raise (Exn "TypeError"
               ("can only concatenate str (not " +:+ dq +:+ "list" +:+ dq +:+ ") to str"))
  | _ =>
      Raise (Exn "TypeError"
               ("unsupported operand type(s) for +: '" +:+ type_name left +:+ "' and 'list'"))
  end.

Definition send_all_queries (state : RAGState) : result (list Send) :=
  let rewritten := default (JArr []) (rewritten_queries state) in
  let* question := state_key (question state) "question" in
  let* queries := py_add_list rewritten question in
  Ok (flat_map (fun query => [MkSend retrieve_vector_node query;
                               MkSend retrieve_bm25_node query]) queries).

(** ** Messages and log files *)

(** The content of a message must be a string or a list of strings and
    dictionaries; the constructor rejects anything else. *)
Definition valid_content (v : json) : bool :=
  match v with
  | JStr _ => true
  | JArr items =>
      forallb (fun item => match item with JStr _ | JObj _ => true | _ => false end) items
  | _ => false
  end.

Definition AIMessage {env : PyEnv} (content : json) : result Message :=
  if valid_content content then Ok (Msg AI content)
  else Raise (Exn "ValidationError" (validation_msg content)).

(** ["\n\nSources:\n"]. *)
Definition sources_header : string := nl +:+ nl +:+ "Sources:" +:+ nl.

(** What reading a log file line by line yields.  A line is given as
    [json.loads(line.strip())] sees it: it raises [JSONDecodeError], or it
    returns a value.  [Undecodable] stands where the iteration over the
    file itself raises [UnicodeDecodeError], because bytes of the file are
    not valid UTF-8: the decoder works on chunks of the file, so this is at
    or before the line that holds the bytes, and what the file holds from
    there on is never read.  A file that cannot be opened reads as one
    that starts with [Undecodable]. *)
Inductive LogLine : Type :=
| Unparsable
| Parsed (v : json)
| Undecodable.

(** The files of the [logs] directory, by name, each with what reading it
    yields. *)
Abbreviation LogDir := (list (string * list LogLine)).

(** [prefix_YYYYMMDD.jsonl], the file a logger set up on day [today] writes. *)
Definition log_file (log_prefix today : string) : string :=
  log_prefix +:+ "_" +:+ today +:+ ".jsonl".

Definition ends_with (suffix name : string) : bool :=
  let n := String.length name in
  let m := String.length suffix in
  (m <=? n)%nat && String.eqb (substring (n - m) m name) suffix.

(** [log_dir.glob("qa_log_*.jsonl")]. *)
Definition glob_qa_log (dir : LogDir) : LogDir :=
  filter (fun f => String.prefix "qa_log_" (fst f) && ends_with ".jsonl" (fst f)) dir.

(** What a node does besides returning: it invokes the generation model,
    or a logging handler appends one record to a file. *)
Record Prompt : Type := MkPrompt { prompt_question : json; prompt_context : string }.

Inductive Event : Type :=
| LlmInvoke (prompt : Prompt)
| LogWrite (file : string) (record : json).

(** A handler opened in append mode adds the line at the end of its file,
    and creates the file when the directory does not hold it. *)
Definition append_line (file : string) (line : LogLine) (dir : LogDir) : LogDir :=
  if existsb (fun f => String.eqb (fst f) file) dir then
    map (fun f => if String.eqb (fst f) file then (fst f, snd f ++ [line]) else f) dir
  else dir ++ [(file, [line])].

Definition apply_event (dir : LogDir) (ev : Event) : LogDir :=
  match ev with
  | LlmInvoke _ => dir
  | LogWrite file record => append_line file (Parsed record) dir
  end.

Definition apply_events (dir : LogDir) (evs : list Event) : LogDir :=
  fold_left apply_event evs dir.

(** ** [nodes/cache.py] *)

Section Cache.
Context {env : PyEnv}.

(** [v["text"]]. *)
Definition py_getitem_text (v : json) : result json :=
  match v with
  | JObj fields =>
      match dict_lookup fields "text" with
      | Some text => Ok text
      | None => Raise (Exn "KeyError" "'text'")
      end
  | _ => Raise (subscript_error v)
  end.

(** The question is the content of the last message, or the text of its
    first block when the content is a list. *)
Definition last_question (state : RAGState) : result json :=
  match last (messages state) with
  | None => Raise (Exn "IndexError" "list index out of range")
  | Some m =>
      match content m with
      | JArr [] => Raise (Exn "IndexError" "list index out of range")
      | JArr (block :: _) => py_getitem_text block
      | c => Ok c
      end
  end.

(** [v.strip().lower()]. *)
Definition strip_lower (v : json) : result string :=
  match v with
  | JStr s => Ok (str_lower (str_strip s))
  | _ => Raise (Exn "AttributeError"
                  ("'" +:+ type_name v +:+ "' object has no attribute 'strip'"))
  end.

(** ["[Cached Response]\n\n" + v]. *)
Definition cached_prefix (v : json) : result json :=
  match v with
  | JStr s => Ok (JStr ("[Cached Response]" +:+ nl +:+ nl +:+ s))
  | _ => Raise (Exn "TypeError"
                  ("can only concatenate str (not " +:+ dq +:+ type_name v +:+ dq
                   +:+ ") to str"))
  end.

(** The body of the loop over the lines of one file, after [json.loads]:
    [Ok None] goes on to the next line, [Ok (Some u)] returns [u], and an
    exception leaves the file. *)
Definition check_entry (question : json) (log_entry : json) : result (option Update) :=
  let* logged_question := py_get log_entry "question" (JStr "") in
  let* logged := strip_lower logged_question in
  let* asked := strip_lower question in
  if String.eqb logged asked then
    let* cached_answer := py_get log_entry "answer" (JStr "") in
    let* cached_citations := py_get log_entry "citations" (JArr []) in
    let* answer_text :=
      (if truthy cached_citations then
         let* cites := py_iter cached_citations in
         py_iadd cached_answer (sources_header +:+ join (";" +:+ nl) (map fmt cites))
       else Ok cached_answer) in
    let* answer_text := cached_prefix answer_text in
    let* ai_message := AIMessage answer_text in
    Ok (Some [SetQuestion question; AddMessages [ai_message]; SetCacheHit true])
  else Ok None.

(** One file: a line that is not JSON is skipped; any other exception,
    of the body or of the iteration over the file, is caught outside the
    loop over the lines, which ends the file. *)
Fixpoint scan_lines (question : json) (lines : list LogLine) : option Update :=
  match lines with
  | [] => None
  | Unparsable :: rest => scan_lines question rest
  | Parsed log_entry :: rest =>
      match check_entry question log_entry with
      | Ok (Some u) => Some u
      | Ok None => scan_lines question rest
      | Raise _ => None
      end
  | Undecodable :: _ => None
  end.

Fixpoint scan_files (question : json) (files : LogDir) : option Update :=
  match files with
  | [] => None
  | (_, lines) :: rest =>
      match scan_lines question lines with
      | Some u => Some u
      | None => scan_files question rest
      end
  end.

(** [question[:50]], evaluated for the message printed on a miss: strings
    and lists can be sliced. *)
Definition preview (question : json) : result unit :=
  match question with
  | JStr _ | JArr _ => Ok tt
  | _ => Raise (subscript_error question)
  end.

(** [log_dir] is [None] when the directory does not exist. *)
Definition check_cache (state : RAGState) (log_dir : option LogDir) : result Update :=
  let* question := last_question state in
  match log_dir with
  | None => Ok [SetQuestion question]
  | Some dir =>
      let qa_log_files := sorted String.ltb fst true (glob_qa_log dir) in
      match scan_files question qa_log_files with
      | Some u => Ok u
      | None =>
          let* _ := preview question in
          Ok [SetQuestion question; SetCacheHit false]
      end
  end.

Definition route_from_cache (state : RAGState) : string :=
  if default false (cache_hit state) then "__end__" else "rewrite_query".

End Cache.

(** ** [nodes/generator.py] *)

Section Generator.
Context {env : PyEnv}.

(** The date the loggers were set up on (it names their files) and the
    time stamp the formatter gives a record. *)
Record Clock : Type := MkClock { today : string; now : string }.

(** [doc.metadata.get("chunk_id", "Unknown")]. *)
Definition source_of (doc : Document) : string := default "Unknown" (chunk_id doc).

Fixpoint numbered_context (docs : list Document) : string :=
  match docs with
  | [] => ""
  | doc :: rest =>
      "[Source: " +:+ source_of doc +:+ "]" +:+ nl +:+ str_strip (page_content doc)
      +:+ nl +:+ nl +:+ "---" +:+ nl +:+ nl +:+ numbered_context rest
  end.

(** The record the formatter writes for [qa_logger.info]. *)
Definition qa_record (clock : Clock) (state : RAGState) (question answer citations : json)
    (docs : list Document) : json :=
  JObj [("timestamp", JStr (now clock));
        ("question", question);
        ("rewritten_queries", default (JArr []) (rewritten_queries state));
        ("answer", answer);
        ("citations", citations);
        ("reranked_context",
          JArr (map (fun doc => JObj [("chunk_id", JStr (source_of doc));
                                      ("content", JStr (page_content doc))]) docs));
        ("message", JStr "Q&A session completed")].

(** The record the formatter writes for [error_logger.error]. *)
Definition error_record (clock : Clock) (question : json) (e : exn) : json :=
  JObj [("timestamp", JStr (now clock));
        ("error_type", JStr (exn_type e));
        ("error_message", JStr (exn_msg e));
        ("question", question);
        ("message", JStr ("Answer generation failed: " +:+ exn_msg e))].

(** The [try] block up to the log call: the message to return and the
    [answer] and [citations] to log.  [answer_text] is the same object as
    [answer], so a list answer is logged as [+=] left it. *)
Definition generate_attempt (reply : Reply) : result (Message * json * json) :=
  let* result := reply_json reply in
  let* answer := py_get result "answer" (JStr "") in
  let* citations := py_get result "citations" (JArr []) in
  let* answer_text :=
    (if truthy citations then
       let* cites := py_iter citations in
       py_iadd answer (sources_header +:+ join nl (map fmt cites))
     else Ok answer) in
  let* ai_message := AIMessage answer_text in
  let logged_answer := match answer with JArr _ => answer_text | _ => answer end in
  Ok (ai_message, logged_answer, citations).

Definition generate_answer (clock : Clock) (state : RAGState) (reply : Reply)
    : result (Update * list Event) :=
  let* question := state_key (question state) "question" in
  let* docs := state_key (reranked_context state) "reranked_context" in
  match docs with
  | [] => Ok ([AddMessages [Msg AI (JStr "I don't know.")]], [])
  | _ =>
      let prompt := MkPrompt question (numbered_context docs) in
      match generate_attempt reply with
      | Ok (ai_message, answer, citations) =>
          Ok ([AddMessages [ai_message]],
              [LlmInvoke prompt;
               LogWrite (log_file "qa_log" (today clock))
                        (qa_record clock state question answer citations docs)])
      | Raise e =>
          Ok ([AddMessages [Msg AI (JStr "I don't know. (Error during answer generation)")]],
              [LlmInvoke prompt;
               LogWrite (log_file "error_log" (today clock)) (error_record clock question e)])
      end
  end.

End Generator.

(** ** [agent.py] *)

(** What the outside world answers during one run of the graph. *)
Record Oracles : Type := MkOracles {
  rewrite_reply : Reply;
  rerank_response : result (list Z);
  generate_reply : Reply;
  clock : Clock
}.

Section Agent.
Context {env : PyEnv} {fp : PyFloat} {index : Index}.

(** The retrieval step: every [Send] runs its node on its own state, and
    the graph merges the results into [docs] once all have returned. *)
Fixpoint run_sends (state : RAGState) (sends : list Send) : result RAGState :=
  match sends with
  | [] => Ok state
  | s :: rest =>
      let* u := run_send s in
      run_sends (apply_update state u) rest
  end.

Definition initial_state (input : list Message) : RAGState :=
  State input None None None None None None.

Definition agent (log_dir : option LogDir) (o : Oracles) (input : list Message)
    : result (RAGState * list Event) :=
  let state := initial_state input in
  let* u := check_cache state log_dir in
  let state := apply_update state u in
  if String.eqb (route_from_cache state) "__end__" then Ok (state, [])
  else
    let* u := rewrite_query state (rewrite_reply o) in
    let state := apply_update state u in
    let* sends := send_all_queries state in
    let* state := run_sends state sends in
    let state := apply_update state (fuse_docs state) in
    let* u := rerank_docs state (rerank_response o) in
    let state := apply_update state u in
    let* (u, evs) := generate_answer (clock o) state (generate_reply o) in
    Ok (apply_update state u, evs).

End Agent.

(** ** The specification's words for rank fusion *)

Section FusionSpec.
Context {env : PyEnv} {fp : PyFloat}.

(** [rank = (idx mod F) + 1] with [F = 5]. *)
Definition rrf_rank (idx : nat) : Z := Z.of_nat (idx mod 5) + 1.

(** The flat indices, from [idx] on, at which [key] occurs. *)
Fixpoint occurrences_from (idx : nat) (key : doc_key) (all_docs : list Document) : list nat :=
  match all_docs with
  | [] => []
  | doc :: rest =>
      if decide (doc_id doc = key) then idx :: occurrences_from (S idx) key rest
      else occurrences_from (S idx) key rest
  end.

(** [1 / (k + rank)] with [k = 60], summed over every occurrence of the key,
    in the order of the list. *)
Definition rrf_score (all_docs : list Document) (key : doc_key) : float :=
  foldl float_add float_zero
    (map (fun idx => float_recip (60 + rrf_rank idx)) (occurrences_from 0 key all_docs)).

(** The distinct chunks: the first chunk seen for each key, in that order. *)
Fixpoint first_seen (all_docs : list Document) : list Document :=
  match all_docs with
  | [] => []
  | doc :: rest => doc :: filter (fun d => doc_id d <> doc_id doc) (first_seen rest)
  end.

(** Two scores neither of which is below the other. *)
Definition tied (a b : float) : bool := negb (float_lt a b) && negb (float_lt b a).

End FusionSpec.

(** ** The specification's words for reranking and dispatch *)

(** The selection names no position of a list of [n] chunks twice, among
    the indices the node keeps (a negative index names a position from the
    end). *)
Definition selects_no_position_twice (n : nat) (response : result (list Z)) : Prop :=
  match response with
  | Raise _ => True
  | Ok ids =>
      NoDup ((fun i => i `mod` Z.of_nat n)
               <$> filter (fun i => i < Z.of_nat n) (take TOP_K_FINAL ids))
  end.

(** The backend call a [Send] leads to. *)
Definition backend_call {index : Index} (s : Send) (k : nat) : result (list Document) :=
  match send_node s with
  | retrieve_vector_node => similarity_search (send_question s) k
  | retrieve_bm25_node => lexical_search (send_question s) k
  end.

(** ** The specification's words for the cache *)

Section CacheSpec.
Context {env : PyEnv} {fp : PyFloat} {index : Index}.

(** The logged question of a line equals the asked one after trimming
    and lowering the case of both. *)
Definition logged_match (q : string) (line : LogLine) : bool :=
  match line with
  | Parsed (JObj fields) =>
      match dict_get fields "question" (JStr "") with
      | JStr logged => String.eqb (str_lower (str_strip logged)) (str_lower (str_strip q))
      | _ => false
      end
  | _ => false
  end.

(** The logged answer behind the literal prefix, followed, when there are
    citations, by the sources block with one citation per line. *)
Definition cached_text (answer : string) (citations : list string) : string :=
  match citations with
  | [] => "[Cached Response]" +:+ nl +:+ nl +:+ answer
  | _ => "[Cached Response]" +:+ nl +:+ nl +:+ answer
         +:+ sources_header +:+ join (";" +:+ nl) citations
  end.

(** What a cache hit returns. *)
Definition hit_update (q : string) (text : string) : Update :=
  [SetQuestion (JStr q); AddMessages [Msg AI (JStr text)]; SetCacheHit true].

(** A line of an audit log: a corrupt line, or a record whose question and
    answer are strings and whose citations are a list. *)
Definition is_record (line : LogLine) : Prop :=
  match line with
  | Unparsable => True
  | Parsed (JObj fields) =>
      (exists s, dict_get fields "question" (JStr "") = JStr s) /\
      (exists a, dict_get fields "answer" (JStr "") = JStr a) /\
      (exists cs, dict_get fields "citations" (JArr []) = JArr cs)
  | Parsed _ => False
  | Undecodable => False
  end.

(** A line the lookup can compare with a question: a corrupt line, or an
    object whose question is a string. *)
Definition has_question (line : LogLine) : Prop :=
  match line with
  | Unparsable => True
  | Parsed (JObj fields) => exists s, dict_get fields "question" (JStr "") = JStr s
  | Parsed _ => False
  | Undecodable => False
  end.

Definition well_formed (dir : LogDir) : Prop :=
  forall file, file ∈ glob_qa_log dir -> Forall is_record (snd file).

(** The partitions in the order the lookup reads them, newest first. *)
Definition partitions (dir : LogDir) : LogDir :=
  sorted String.ltb fst true (glob_qa_log dir).

Definition lookup_cache (question : json) (dir : LogDir) : option Update :=
  scan_files question (partitions dir).





(** A request: the messages it comes with and what the outside world
    answers while it is served. *)
Record Request : Type := MkRequest { req_input : list Message; req_oracles : Oracles }.

(** The logs after a request has been served. *)
Definition serve (dir : LogDir) (r : Request) : LogDir :=
  match agent (Some dir) (req_oracles r) (req_input r) with
  | Ok (_, evs) => apply_events dir evs
  | Raise _ => dir
  end.

Definition serve_all (dir : LogDir) (rs : list Request) : LogDir := fold_left serve rs dir.

(** The generation model answers with the types it is told to: if its
    output is a JSON object, [answer] is a string and [citations] a list
    (or they are left out). *)
Definition typed_reply (reply : Reply) : Prop :=
  match reply with
  | Json (JObj fields) =>
      (exists a, dict_get fields "answer" (JStr "") = JStr a) /\
      (exists cs, dict_get fields "citations" (JArr []) = JArr cs)
  | _ => True
  end.

(** The request asks a question in text and meets a model that answers
    with the types it is told to. *)
Definition text_request (r : Request) : Prop :=
  (exists q, last_question (initial_state (req_input r)) = Ok (JStr q)) /\
  typed_reply (generate_reply (req_oracles r)).

(** The JSON shape the generation prompt requires. *)
Definition required_shape (v : json) : bool :=
  match v with
  | JObj fields =>
      match dict_lookup fields "answer", dict_lookup fields "citations" with
      | Some (JStr _), Some (JArr cs) =>
          forallb (fun c => match c with JStr _ => true | _ => false end) cs
      | _, _ => false
      end
  | _ => false
  end.

(** The citations a reply's [citations] value lists under "Sources:": the
    items of a list, the characters of a string, the keys of an object.
    Numbers, booleans and [null] list nothing. *)
Definition listed_citations (citations : json) : option (list json) :=
  match citations with
  | JArr cs => Some cs
  | JStr s => Some (chars s)
  | JObj kvs => Some (map (fun kv => JStr (fst kv)) kvs)
  | _ => None
  end.

(** The content of the answer message that a JSON object makes, if it
    makes one.  [answer] stands for the empty string and [citations] for
    the empty list where the object lacks them.  Without citations (none,
    or a value that counts as false) the content is the answer as it is.
    With citations, they must be listable and the answer a string or a
    list, to which the "Sources:" block is added (to a list, character by
    character).  The content must be text, or a list of texts and
    objects. *)
Definition message_content (fields : list (string * json)) : option json :=
  let answer := dict_get fields "answer" (JStr "") in
  let citations := dict_get fields "citations" (JArr []) in
  let content :=
    if truthy citations then
      match listed_citations citations, answer with
      | Some cites, JStr a => Some (JStr (a +:+ sources_header +:+ join nl (map fmt cites)))
      | Some cites, JArr items =>
          Some (JArr (items ++ chars (sources_header +:+ join nl (map fmt cites))))
      | _, _ => None
      end
    else Some answer in
  match content with
  | Some c => if valid_content c then Some c else None
  | None => None
  end.

(** The replies of the generation model that count as a failure: the call
    raises, the output is not JSON, the JSON is not an object, or it is an
    object that makes no message content. *)
Definition generation_fails (reply : Reply) : Prop :=
  match reply with
  | CallFails _ | NotJson _ => True
  | Json (JObj fields) => message_content fields = None
  | Json _ => True
  end.

End CacheSpec.

(** ** Sample environments

    An interpreter for ASCII text and exact rational arithmetic in the
    place of floats, to run the definitions on concrete inputs. *)

Definition ascii_is_space (c : ascii) : bool :=
  let n := nat_of_ascii c in
  ((9 <=? n) && (n <=? 13) || (n =? 32) || (28 <=? n) && (n <=? 31))%nat.

Definition ascii_lower (c : ascii) : ascii :=
  let n := nat_of_ascii c in
  if ((65 <=? n) && (n <=? 90))%nat then ascii_of_nat (n + 32) else c.

Fixpoint string_map (f : ascii -> ascii) (s : string) : string :=
  match s with
  | EmptyString => EmptyString
  | String c rest => String (f c) (string_map f rest)
  end.

Fixpoint lstrip (s : string) : string :=
  match s with
  | EmptyString => EmptyString
  | String c rest => if ascii_is_space c then lstrip rest else s
  end.

Fixpoint rstrip (s : string) : string :=
  match s with
  | EmptyString => EmptyString
  | String c rest =>
      match rstrip rest with
      | EmptyString => if ascii_is_space c then EmptyString else String c EmptyString
      | rest' => String c rest'
      end
  end.

Fixpoint string_sum (s : string) : Z :=
  match s with
  | EmptyString => 0
  | String c rest => Z.of_nat (nat_of_ascii c) + 31 * string_sum rest
  end.

Definition ascii_env : PyEnv := {|
  py_hash := string_sum;
  str_strip := fun s => rstrip (lstrip s);
  str_lower := string_map ascii_lower;
  str_of := fun v => "<" +:+ type_name v +:+ ">";
  subscript_error := fun v =>
    Exn "TypeError" ("'" +:+ type_name v +:+ "' object is not subscriptable");
  validation_msg := fun v => "Input should be a valid string"
|}.

Definition Q_lt (a b : Q) : bool := negb (Qle_bool b a).

Definition Q_float : PyFloat := {|
  float := Q;
  float_zero := 0%Q;
  float_add := Qplus;
  float_recip := fun n => Qinv (inject_Z n);
  float_lt := Q_lt
|}.

(** ** Sample inputs *)

Definition doc_a : Document := Doc "The model achieves 92% accuracy." (Some "paper.pdf, page 2, chunk 7").
Definition doc_b : Document := Doc "Training used 8 GPUs." (Some "paper.pdf, page 3, chunk 1").
Definition doc_c : Document := Doc "An unlabelled chunk." None.

Definition sample_raw_docs : list Document := [doc_b; doc_a; doc_c; doc_b; doc_a; doc_a].

Definition sample_fusion_state : RAGState :=
  State [] (Some (JStr "What accuracy did the model achieve?")) None
        (Some sample_raw_docs) None None None.

Definition doc_d : Document := Doc "Related work." (Some "paper.pdf, page 4, chunk 0").
Definition doc_e : Document := Doc "Acknowledgements." (Some "paper.pdf, page 9, chunk 2").
Definition doc_f : Document := Doc "Appendix: hyperparameters." (Some "paper.pdf, page 11, chunk 5").

Definition sample_question : json := JStr "What accuracy did the model achieve?".

(** A state as the rerank node finds it: the question and the fused list. *)
Definition fused_state (fused : list Document) : RAGState :=
  State [] (Some sample_question) None None (Some fused) None None.

Definition six_docs : list Document := [doc_a; doc_b; doc_c; doc_d; doc_e; doc_f].

(** A state as the dispatcher finds it after the rewrite node. *)
Definition rewritten_state (q : json) (queries : json) : RAGState :=
  State [] (Some q) (Some queries) (Some []) None None None.

Definition sample_index : Index := {|
  similarity_search := fun _ k => Ok (take k six_docs);
  lexical_search := fun _ k => Ok (take k (rev six_docs))
|}.

Definition human (text : string) : Message := Msg Human (JStr text).

Definition sample_clock : Clock := MkClock "20240301" "2024-03-01T12:00:00".

Definition sample_fields (q a : string) (cites : list json) : list (string * json) :=
  [("timestamp", JStr "2024-02-27T09:30:00"); ("question", JStr q);
   ("rewritten_queries", JArr []); ("answer", JStr a);
   ("citations", JArr cites); ("reranked_context", JArr []);
   ("message", JStr "Q&A session completed")].

Definition sample_record (q a : string) (cites : list json) : LogLine :=
  Parsed (JObj (sample_fields q a cites)).

Definition sample_logs : LogDir :=
  [("error_log_20240227.jsonl", [Parsed (JInt 7)]);
   ("qa_log_20240226.jsonl",
     [sample_record "what accuracy did the model achieve?" "About 90%." []]);
   ("qa_log_20240227.jsonl",
     [Unparsable;
      sample_record "How many GPUs?" "Eight." [JStr "paper.pdf, page 3, chunk 1"];
      sample_record "  What accuracy did the model achieve? " "92%."
        [JStr "paper.pdf, page 2, chunk 7"; JStr "paper.pdf, page 3, chunk 1"]])].



Definition sample_logs_no_citations : LogDir :=
  [("qa_log_20240227.jsonl", [sample_record "Who wrote it?" "The authors." []])].

Definition sample_oracles (answer : string) (cites : list json) : Oracles :=
  MkOracles
    (Json (JObj [("queries", JArr [JStr "authors of the paper"; JStr "Who wrote the paper?";
                                   JStr "paper author list"])]))
    (Ok [0; 2])
    (Json (JObj [("answer", JStr answer); ("citations", JArr cites)]))
    sample_clock.

Definition sample_request_authors : Request :=
  MkRequest [human "Who are the authors?"]
            (sample_oracles "Smith and Jones." [JStr "paper.pdf, page 2, chunk 7"]).

Definition sample_request_gpus : Request :=
  MkRequest [human "how many gpus?"] (sample_oracles "Sixteen." []).



(** ** [nodes/reranker.py]: the prompt *)

Section RerankPrompt.
Context {env : PyEnv}.

Definition TABLE_KEYWORDS : list string :=
  ["table"; "figure"; "parameter"; "coefficient"; "matrix"; "value"].
Definition LIST_KEYWORDS : list string :=
  ["author"; "reference"; "step"; "equation"; "formula"].
Definition CODE_KEYWORDS : list string :=
  ["def "; "class "; "function"; "import"; "return"].

(** [needle in hay]. *)
Fixpoint str_in (needle hay : string) : bool :=
  String.prefix needle hay ||
  match hay with
  | EmptyString => false
  | String _ rest => str_in needle rest
  end.

(** [text.replace("\n", " ")]. *)
Fixpoint replace_newlines (text : string) : string :=
  match text with
  | EmptyString => EmptyString
  | String c rest =>
      String (if Ascii.eqb c "010" then " "%char else c) (replace_newlines rest)
  end.

(** [max_chars], [head_size] and [tail_size]; [max_chars] is [None] for
    [float("inf")]. *)
Record Limits : Type := MkLimits { max_chars : option nat; head_size : nat; tail_size : nat }.

(** The branches that choose the limits from the kind of content. *)
Definition content_limits (text : string) : Limits :=
  let text_lower := str_lower text in
  if existsb (fun keyword => str_in keyword text_lower) TABLE_KEYWORDS then
    MkLimits (Some 1200%nat) 600 600
  else if existsb (fun keyword => str_in keyword text_lower) LIST_KEYWORDS then
    MkLimits (Some 1000%nat) 500 500
  else if existsb (fun keyword => str_in keyword text_lower) CODE_KEYWORDS then
    MkLimits (Some 1000%nat) 500 500
  else if (String.length text <? 600)%nat then
    MkLimits None 0 0
  else
    MkLimits (Some 800%nat) 400 400.

(** [text[:n]]. *)
Definition str_head (n : nat) (text : string) : string := substring 0 n text.

(** [text[-n:]]; [text[-0:]] is the whole text. *)
Definition str_tail (n : nat) (text : string) : string :=
  match n with
  | O => text
  | _ => substring (String.length text - n) n text
  end.

(** The text a chunk is shown with: newlines replaced, and the middle
    dropped when the text is longer than its limit. *)
Definition chunk_preview (page_content : string) : string :=
  let text := replace_newlines page_content in
  let limits := content_limits text in
  match max_chars limits with
  | Some limit =>
      if (limit <? String.length text)%nat then
        str_head (head_size limits) text +:+ " ... " +:+ str_tail (tail_size limits) text
      else text
  | None => text
  end.

(** The loop over [enumerate(docs)] that builds [chunks_text]. *)
Fixpoint chunks_text_from (i : nat) (docs : list Document) : string :=
  match docs with
  | [] => ""
  | doc :: rest =>
      "[" +:+ pretty i +:+ "] " +:+ chunk_preview (page_content doc) +:+ nl +:+ nl
      +:+ chunks_text_from (S i) rest
  end.

(** [RERANK_PROMPT.format(top_k=..., question=..., chunks=...)], by the
    values that fill the template. *)
Record RerankPrompt : Type :=
  MkRerankPrompt { rerank_top_k : nat; rerank_question : json; rerank_chunks : string }.

Definition rerank_prompt (state : RAGState) : result RerankPrompt :=
  let* question := state_key (question state) "question" in
  let* docs := state_key (context state) "context" in
  Ok (MkRerankPrompt TOP_K_FINAL question (chunks_text_from 0 docs)).

End RerankPrompt.

Fixpoint str_repeat (n : nat) (s : string) : string :=
  match n with
  | O => EmptyString
  | S n' => s +:+ str_repeat n' s
  end.

(** A text of 1300 characters without any of the keywords. *)
Definition sample_long_text : string := str_repeat 130 "0123456789".

(** An index that holds no document. *)
Definition empty_index : Index := {|
  similarity_search := fun _ _ => Ok [];
  lexical_search := fun _ _ => Ok []
|}.

(** The outside world of a run whose rewrite model is out of reach. *)
Definition sample_oracles_rewrite_down : Oracles :=
  MkOracles (CallFails (Exn "APIConnectionError" "Connection error."))
            (Ok [0; 2])
            (Json (JObj [("answer", JStr "Smith and Jones."); ("citations", JArr [])]))
            sample_clock.

(** The outside world of a run whose generation model does not answer in
    JSON. *)
Definition sample_oracles_generation_down : Oracles :=
  MkOracles
    (Json (JObj [("queries", JArr [JStr "authors of the paper"])]))
    (Ok [0; 2])
    (NotJson (Exn "JSONDecodeError" "Expecting value: line 1 column 1 (char 0)"))
    sample_clock.

(** ** [config.py]: the directories *)

(** A path below the project root, by its components. *)
Abbreviation Path := (list string).

Definition DATA_DIR : Path := ["data"].
Definition RAW_PDF_DIR : Path := DATA_DIR ++ ["raw"].
Definition VECTOR_STORE_DIR : Path := DATA_DIR ++ ["vector_store"].
Definition CHROMA_STORE_DIR : Path := VECTOR_STORE_DIR ++ ["chroma"].

(** What the file system holds at a path. *)
Inductive Kind : Type := IsFile | IsDir.

#[global] Instance Kind_eq_dec : EqDecision Kind.
Proof. solve_decision. Defined.

(** The files and directories below the project root. *)
Abbreviation FS := (gmap (list string) Kind).

(** ** [scripts/cleanup.py] *)

Module Cleanup.

Definition LOGS_DIR : Path := ["logs"].
Definition BM25_FILE : Path := VECTOR_STORE_DIR ++ ["bm25_retriever.pkl"].
Definition BUILD_CACHE_FILE : Path := VECTOR_STORE_DIR ++ [".build_cache.json"].

(** [shutil.rmtree(path)]: the directory goes with everything below it. *)
Definition rmtree (path : Path) (fs : FS) : FS :=
  filter (fun entry => ~ path `prefix_of` entry.1) fs.

(** [path.unlink()]. *)
Definition unlink (path : Path) (fs : FS) : FS := delete path fs.

Definition remove_directory (path : Path) (fs : FS) : FS * bool :=
  match fs !! path with
  | Some IsDir => (rmtree path fs, true)
  | _ => (fs, false)
  end.

Definition remove_file (path : Path) (fs : FS) : FS * bool :=
  match fs !! path with
  | Some IsFile => (unlink path fs, true)
  | _ => (fs, false)
  end.

(** How the script ends: [sys.exit(0)] after an answer that is not a yes,
    or the summary with the number of items removed. *)
Inductive Exit : Type :=
| Cancelled
| Done (removed_count : nat).

(** [response] is what [input] returns. *)
Definition main {env : PyEnv} (input : string) (fs : FS) : FS * Exit :=
  let response := str_lower (str_strip input) in
  if bool_decide (response ∈ ["y"; "yes"]) then
    let removed_count := 0%nat in
    let '(fs, removed) := remove_directory LOGS_DIR fs in
    let removed_count := if removed then S removed_count else removed_count in
    let '(fs, removed) := remove_directory CHROMA_STORE_DIR fs in
    let removed_count := if removed then S removed_count else removed_count in
    let '(fs, removed) := remove_file BM25_FILE fs in
    let removed_count := if removed then S removed_count else removed_count in
    let '(fs, removed) := remove_file BUILD_CACHE_FILE fs in
    let removed_count := if removed then S removed_count else removed_count in
    (fs, Done removed_count)
  else (fs, Cancelled).

(** The four things the script is there to remove, with the kind it
    expects of each. *)
Definition targets : list (Path * Kind) :=
  [(LOGS_DIR, IsDir); (CHROMA_STORE_DIR, IsDir); (BM25_FILE, IsFile);
   (BUILD_CACHE_FILE, IsFile)].

End Cleanup.

(** A project after a build and a day of questions. *)
Definition sample_fs : FS :=
  list_to_map
    [(["data"], IsDir); (["data"; "raw"], IsDir); (["data"; "raw"; "paper.pdf"], IsFile);
     (["data"; "vector_store"], IsDir);
     (["data"; "vector_store"; "chroma"], IsDir);
     (["data"; "vector_store"; "chroma"; "chroma.sqlite3"], IsFile);
     (["data"; "vector_store"; "bm25_retriever.pkl"], IsFile);
     (["logs"], IsDir); (["logs"; "qa_log_20240301.jsonl"], IsFile);
     (["src"], IsDir); (["src"; "agent.py"], IsFile)].

(** ** [config.py]: the models *)




(** ** [utils/models.py] *)






(** ** [utils/vectorstore.py] *)

Section Embeddings.
Context {env : PyEnv} {Vector : Type}.

(** [model.encode] on a list of texts and on one text. *)
Variable encode : list string -> list Vector.
Variable encode_one : string -> Vector.

(** [E5MultilingualEmbeddings.embed_documents]: [if t.strip()] keeps the
    texts that are not blank. *)
Definition embed_documents (texts : list string) : list Vector :=
  encode (map (fun t => "passage: " +:+ t)
              (List.filter (fun t => truthy (JStr (str_strip t))) texts)).

Definition embed_query (text : string) : Vector := encode_one ("query: " +:+ text).

End Embeddings.

(** [load_bm25_retriever]; [unpickle] is what [pickle.load] makes of the
    file. *)
Definition load_bm25_retriever {Retriever : Type} (fs : FS) (unpickle : result Retriever)
    : result Retriever :=
  let bm25_path := VECTOR_STORE_DIR ++ ["bm25_retriever.pkl"] in
  match fs !! bm25_path with
  | None =>
      Raise (Exn "FileNotFoundError"
               ("BM25 retriever not found at " +:+ join "/" bm25_path +:+ "." +:+ nl
                +:+ "Please run: uv run python scripts/build_vectorstore.py"))
  | Some IsDir =>
      Raise (Exn "IsADirectoryError"
               ("[Errno 21] Is a directory: '" +:+ join "/" bm25_path +:+ "'"))
  | Some IsFile => unpickle
  end.


(** ** [scripts/build_vectorstore.py] *)

Module BuildVectorstore.


Section Labels.

(** [Path(source).name]. *)
Variable path_name : string -> string.




End Labels.

(** What [load_build_cache] finds at the cache path: no file, or a file
    that [open] and [json.load] turn into a value, or into an exception
    ([JSONDecodeError] for text that is not JSON, [UnicodeDecodeError] for
    bytes that are not UTF-8, ...). *)
Inductive CacheFile : Type :=
| Missing
| LoadRaises (e : exn)
| Loaded (v : json).

(** [except (json.JSONDecodeError, KeyError)]: the classes are told by
    their names, as no exception of [open] or [json.load] is of a subclass
    of the two. *)
Definition caught (e : exn) : bool :=
  String.eqb (exn_type e) "JSONDecodeError" || String.eqb (exn_type e) "KeyError".

(** [load_build_cache]: [None] for a missing file and for an exception
    the handler catches; any other exception leaves the function. *)
Definition load_build_cache (cache_file : CacheFile) : result (option json) :=
  match cache_file with
  | Missing => Ok None
  | LoadRaises e => if caught e then Ok None else Raise e
  | Loaded v => Ok (Some v)
  end.

(** [cache.get("fingerprint") if cache else None]; [JNull] stands for
    [None]. *)
Definition stored_fingerprint (cache : option json) : result json :=
  match cache with
  | None => Ok JNull
  | Some v => if truthy v then py_get v "fingerprint" JNull else Ok JNull
  end.

(** [stored_fp == current_fp], where [current_fp] is a string. *)
Definition eq_str (v : json) (s : string) : bool :=
  match v with
  | JStr t => String.eqb t s
  | _ => false
  end.

(** What [save_fingerprint] dumps; a file entry comes with its name, size
    and modification time. *)
Definition cache_data (fingerprint created_at : string) (files : list (string * json * json))
    (total_pages total_chunks : nat) : json :=
  JObj [("fingerprint", JStr fingerprint);
        ("created_at", JStr created_at);
        ("files", JArr (map (fun f => JObj [("name", JStr f.1.1); ("size", f.1.2);
                                           ("modified", f.2)]) files));
        ("total_files", JInt (Z.of_nat (length files)));
        ("total_pages", JInt (Z.of_nat total_pages));
        ("total_chunks", JInt (Z.of_nat total_chunks))].

(** How far [main] gets before it builds anything. *)
Inductive Step : Type :=
| ExitNoDirectory
| ExitNoPdfs
| ExitUnchanged
| Rebuild.

(** [main] up to the build: [raw_dir] lists the names in [data/raw], or
    is [None] when the directory is missing; [current_fp] is what
    [pdf_fingerprint] returns. *)
Definition main (raw_dir : option (list string)) (current_fp : string)
    (cache_file : CacheFile) : result Step :=
  match raw_dir with
  | None => Ok ExitNoDirectory
  | Some names =>
      let pdf_files := List.filter (ends_with ".pdf") names in
      match pdf_files with
      | [] => Ok ExitNoPdfs
      | _ =>
          let* cache := load_build_cache cache_file in
          let* stored_fp := stored_fingerprint cache in
          if eq_str stored_fp current_fp then Ok ExitUnchanged else Ok Rebuild
      end
  end.

End BuildVectorstore.

(** ** [nodes/generator.py]: the loggers *)

(** A logger of the [logging] module: its level and its handlers, each
    given by the file it appends to. *)
Record Logger : Type := MkLogger { logger_level : nat; logger_handlers : list string }.

Definition INFO : nat := 20.
Definition ERROR : nat := 40.

(** What [setup_logger] reads and writes: the loggers the process has
    asked for so far, by name, and the [logs] directory ([None] when it
    does not exist). *)
Record LogWorld : Type := MkLogWorld {
  loggers : gmap string Logger;
  logs : option LogDir
}.

(** [logging.getLogger(name)]: the logger of that name, made on first use
    with no level and no handler. *)
Definition getLogger (name : string) (registry : gmap string Logger) : Logger :=
  default (MkLogger 0 []) (registry !! name).

(** Opening a file in append mode creates it when it is not there. *)
Definition open_append (file : string) (dir : LogDir) : LogDir :=
  if existsb (fun f => String.eqb (fst f) file) dir then dir else dir ++ [(file, [])].

(** [today] is [datetime.now().strftime("%Y%m%d")]; the result is the
    world after the call and the name of the logger returned. *)
Definition setup_logger (today name log_prefix : string) (level : nat) (w : LogWorld)
    : LogWorld * string :=
  let log_file := log_file log_prefix today in
  let logger_name := name +:+ "_" +:+ today in
  let logger := MkLogger level (logger_handlers (getLogger logger_name (loggers w))) in
  match logger_handlers logger with
  | _ :: _ => (MkLogWorld (<[logger_name := logger]> (loggers w)) (logs w), logger_name)
  | [] =>
      let log_dir := default [] (logs w) in
      let log_dir := open_append log_file log_dir in
      (MkLogWorld (<[logger_name := MkLogger level [log_file]]> (loggers w)) (Some log_dir),
       logger_name)
  end.

(** The module-level initialisation: [qa_logger] and [error_logger]. *)
Definition init_loggers (today : string) (w : LogWorld) : LogWorld * (string * string) :=
  let '(w, qa_logger) := setup_logger today "qa_logger" "qa_log" INFO w in
  let '(w, error_logger) := setup_logger today "error_logger" "error_log" ERROR w in
  (w, (qa_logger, error_logger)).

(** ** One answer per question *)

Section OneAnswer.
Context {env : PyEnv}.

(** The lines of the partitions that answer a question. *)
Definition matches (q : string) (dir : LogDir) : list LogLine :=
  List.filter (logged_match q) (concat (map snd (glob_qa_log dir))).

(** No two files of the directory have the same name, and no question is
    answered by more than one record. *)
Definition one_answer_per_question (dir : LogDir) : Prop :=
  NoDup (map fst dir) /\ forall q, (length (matches q dir) <= 1)%nat.

End OneAnswer.

(** * Properties *)

(** ** Stable sorting *)

Section SortedFacts.
Context {A K : Type} (lt : K -> K -> bool) (key : A -> K).
Hypothesis lt_asym : forall a b, lt a b = true -> lt b a = false.
Hypothesis lt_negtrans : forall a b c, lt a b = false -> lt b c = false -> lt a c = false.

Lemma insert_sorted_perm (x : A) (l : list A) : insert_sorted lt key x l ≡ₚ x :: l.
Proof.
  induction l as [|y l IH]; simpl; [done|].
  destruct (lt (key y) (key x)); [|done].
  rewrite IH. apply Permutation_swap.
Qed.

Lemma sort_stable_perm (l : list A) : sort_stable lt key l ≡ₚ l.
Proof.
  induction l as [|x l IH]; simpl; [done|].
  rewrite insert_sorted_perm. by rewrite IH.
Qed.

(** No element is followed by one with a smaller key. *)
Lemma insert_sorted_ascending (x : A) (l : list A) :
  StronglySorted (fun a b => lt (key b) (key a) = false) l ->
  StronglySorted (fun a b => lt (key b) (key a) = false) (insert_sorted lt key x l).
Proof.
  induction 1 as [|y l Hl IH Hy]; simpl.
  - repeat constructor.
  - destruct (lt (key y) (key x)) eqn:Hyx.
    + constructor; [done|].
      rewrite insert_sorted_perm. constructor; [by apply lt_asym | done].
    + constructor; [by constructor|].
      constructor; [done|].
      eapply Forall_impl; [exact Hy|]. simpl. intros z Hz. by eapply lt_negtrans.
Qed.

Lemma sort_stable_ascending (l : list A) :
  StronglySorted (fun a b => lt (key b) (key a) = false) (sort_stable lt key l).
Proof.
  induction l as [|x l IH]; simpl; [constructor|]. by apply insert_sorted_ascending.
Qed.

Lemma insert_sorted_filter (P : A -> Prop) `{!forall x, Decision (P x)} (x : A) (l : list A) :
  (forall a b, P a -> P b -> lt (key a) (key b) = false) ->
  filter P (insert_sorted lt key x l) = filter P (x :: l).
Proof.
  intros HP. induction l as [|y l IH]; simpl; [done|].
  destruct (lt (key y) (key x)) eqn:Hyx; [|done].
  rewrite (filter_cons _ y), IH, !filter_cons.
  destruct (decide (P y)) as [Py|]; [|done].
  destruct (decide (P x)) as [Px|]; [|done].
  rewrite (HP y x Py Px) in Hyx. done.
Qed.

Lemma sort_stable_filter (P : A -> Prop) `{!forall x, Decision (P x)} (l : list A) :
  (forall a b, P a -> P b -> lt (key a) (key b) = false) ->
  filter P (sort_stable lt key l) = filter P l.
Proof.
  intros HP. induction l as [|x l IH]; simpl; [done|].
  rewrite insert_sorted_filter by done. by rewrite !filter_cons, IH.
Qed.

Lemma StronglySorted_rev (R : A -> A -> Prop) (l : list A) :
  StronglySorted R l -> StronglySorted (fun a b => R b a) (rev l).
Proof.
  induction 1 as [|x l Hl IH Hx]; simpl; [constructor|].
  apply StronglySorted_app_2; [|done|repeat constructor].
  intros a b Ha Hb. apply list_elem_of_singleton in Hb as ->.
  rewrite Forall_forall in Hx. apply Hx. apply list_elem_of_In, in_rev.
  by apply list_elem_of_In.
Qed.

Lemma filter_rev (P : A -> Prop) `{!forall x, Decision (P x)} (l : list A) :
  filter P (rev l) = rev (filter P l).
Proof.
  induction l as [|x l IH]; simpl; [done|].
  rewrite filter_app, IH, filter_cons. destruct (decide (P x)); simpl.
  - by rewrite filter_cons_True, filter_nil by done.
  - by rewrite filter_cons_False, filter_nil, app_nil_r by done.
Qed.

(** [sorted(..., reverse=True)] permutes its argument, puts no element
    before one with a greater key, and keeps elements with tied keys in
    the order they came in. *)
Lemma sorted_reverse_perm (l : list A) : sorted lt key true l ≡ₚ l.
Proof.
  unfold sorted. rewrite <- Permutation_rev, sort_stable_perm. symmetry. apply Permutation_rev.
Qed.

Lemma sorted_reverse_descending (l : list A) :
  StronglySorted (fun a b => lt (key a) (key b) = false) (sorted lt key true l).
Proof.
  unfold sorted. apply (StronglySorted_rev (fun a b => lt (key b) (key a) = false)).
  apply sort_stable_ascending.
Qed.

Lemma sorted_reverse_stable (P : A -> Prop) `{!forall x, Decision (P x)} (l : list A) :
  (forall a b, P a -> P b -> lt (key a) (key b) = false) ->
  filter P (sorted lt key true l) = filter P l.
Proof.
  intros HP. unfold sorted.
  rewrite filter_rev, sort_stable_filter, filter_rev by done. apply rev_involutive.
Qed.

End SortedFacts.

Lemma sorted_ext {A K : Type} (lt : K -> K -> bool) (key1 key2 : A -> K) (b : bool)
    (l : list A) :
  (forall x, key1 x = key2 x) -> sorted lt key1 b l = sorted lt key2 b l.
Proof.
  intros Hk.
  assert (Hins : forall x l', insert_sorted lt key1 x l' = insert_sorted lt key2 x l').
  { intros x l'. induction l' as [|y l' IH]; simpl; [done|]. by rewrite !Hk, IH. }
  assert (Hsort : forall l', sort_stable lt key1 l' = sort_stable lt key2 l').
  { induction l' as [|x l' IH]; simpl; [done|]. by rewrite IH, Hins. }
  unfold sorted. by rewrite !Hsort.
Qed.

(** ** Rank fusion *)

Section FusionFacts.
Context {env : PyEnv} {fp : PyFloat}.

Lemma rrf_rank_code (idx : nat) :
  Z.of_nat idx mod Z.of_nat TOP_K_FINAL + 1 = rrf_rank idx.
Proof. unfold rrf_rank, TOP_K_FINAL. by rewrite Nat2Z.inj_mod. Qed.

(** The loop leaves in [rrf_scores] the sum of the contributions of the
    occurrences of each key, added in the order of the list. *)
Lemma fuse_loop_scores (idx : nat) (all_docs : list Document)
    (acc : gmap doc_key float * list (doc_key * Document)) (key : doc_key) :
  score_of (fuse_loop 60 idx all_docs acc).1 key =
  foldl float_add (score_of acc.1 key)
    (map (fun i => float_recip (60 + rrf_rank i)) (occurrences_from idx key all_docs)).
Proof.
  revert idx acc. induction all_docs as [|doc rest IH]; intros idx [scores doc_map]; [done|].
  simpl fuse_loop. rewrite IH. simpl. rewrite rrf_rank_code.
  unfold score_of at 1.
  destruct (decide (doc_id doc = key)) as [->|Hne]; simpl.
  - by rewrite lookup_insert_eq.
  - by rewrite lookup_insert_ne.
Qed.

(** The loop appends to [doc_map] the first chunk of every key that is not
    in it yet. *)
Lemma fuse_loop_doc_map (idx : nat) (all_docs : list Document)
    (acc : gmap doc_key float * list (doc_key * Document)) :
  (fuse_loop 60 idx all_docs acc).2 =
  acc.2 ++ map (fun d => (doc_id d, d))
             (filter (fun d => doc_id d ∉ acc.2.*1) (first_seen all_docs)).
Proof.
  revert idx acc. induction all_docs as [|doc rest IH]; intros idx [scores doc_map].
  - simpl. by rewrite app_nil_r.
  - simpl fuse_loop. rewrite IH. simpl.
    destruct (decide (doc_id doc ∈ doc_map.*1)) as [Hin|Hnin]; simpl.
    + rewrite filter_cons_False by (intros Hn; by apply Hn).
      rewrite list_filter_filter. f_equal. f_equal.
      apply list_filter_iff. intros d. split; [|tauto].
      intros Hd. split; [done|]. intros Heq. apply Hd. by rewrite Heq.
    + rewrite filter_cons_True by done. simpl.
      rewrite <- app_assoc. simpl. f_equal. f_equal. f_equal.
      rewrite list_filter_filter. apply list_filter_iff. intros d.
      rewrite fmap_app, not_elem_of_app. simpl. rewrite list_elem_of_singleton. tauto.
Qed.

Lemma fuse_loop_values (all_docs : list Document) :
  (fuse_loop 60 0 all_docs (∅, [])).2.*2 = first_seen all_docs.
Proof.
  rewrite fuse_loop_doc_map. simpl.
  induction (first_seen all_docs) as [|d l IH]; [done|].
  rewrite filter_cons_True by apply not_elem_of_nil. simpl. f_equal. exact IH.
Qed.

Lemma fuse_loop_score (all_docs : list Document) (key : doc_key) :
  score_of (fuse_loop 60 0 all_docs (∅, [])).1 key = rrf_score all_docs key.
Proof. by rewrite fuse_loop_scores. Qed.

(** What [fuse_docs] returns, in the specification's words. *)
Lemma fuse_docs_eq (state : RAGState) :
  fuse_docs state =
  [SetContext (take 15 (sorted float_lt
                          (fun d => rrf_score (default [] (docs state)) (doc_id d)) true
                          (first_seen (default [] (docs state)))))].
Proof.
  unfold fuse_docs, fuse_docs_k.
  pose proof (fuse_loop_values (default [] (docs state))) as Hv.
  pose proof (fuse_loop_score (default [] (docs state))) as Hs.
  destruct (fuse_loop 60 0 (default [] (docs state)) (∅, [])) as [scores doc_map].
  simpl in Hv, Hs. rewrite Hv. unfold TOP_K_FUSION. do 3 f_equal.
  apply sorted_ext. intros d. apply Hs.
Qed.

End FusionFacts.

Lemma Q_lt_asym (a b : Q) : Q_lt a b = true -> Q_lt b a = false.
Proof.
  unfold Q_lt. rewrite negb_true_iff, negb_false_iff. intros Hba.
  apply Qle_bool_iff. destruct (Qlt_le_dec a b) as [Hlt|Hle].
  - by apply Qlt_le_weak.
  - apply Qle_bool_iff in Hle. congruence.
Qed.

Lemma Q_lt_negtrans (a b c : Q) : Q_lt a b = false -> Q_lt b c = false -> Q_lt a c = false.
Proof.
  unfold Q_lt. rewrite !negb_false_iff, !Qle_bool_iff. intros Hba Hcb.
  by apply Qle_trans with b.
Qed.

Lemma filter_fmap_list {A B : Type} (f : A -> B) (P : B -> Prop)
    `{!forall y, Decision (P y)} (l : list A) :
  filter P (f <$> l) = f <$> filter (fun x => P (f x)) l.
Proof.
  induction l as [|x l IH]; [done|]. cbn [fmap list_fmap]. rewrite !filter_cons.
  destruct (decide (P (f x))); cbn [fmap list_fmap]; by rewrite <- IH.
Qed.

(** The occurrences of a key are the flat indices whose chunk has it. *)
Lemma occurrences_from_seq {env : PyEnv} (start : nat) (key : doc_key)
    (all_docs : list Document) :
  occurrences_from start key all_docs
  = (fun idx => (start + idx)%nat)
      <$> filter (fun idx => doc_id <$> all_docs !! idx = Some key) (seq 0 (length all_docs)).
Proof.
  revert start. induction all_docs as [|doc rest IH]; intros start; [done|].
  cbn [occurrences_from length seq]. rewrite IH, filter_cons.
  rewrite <- (fmap_S_seq 0), filter_fmap_list.
  assert (Htail : (fun idx => (S start + idx)%nat)
                    <$> filter (fun idx => doc_id <$> rest !! idx = Some key)
                          (seq 0 (length rest))
                  = (fun idx => (start + idx)%nat)
                      <$> (S <$> filter (fun idx => doc_id <$> (doc :: rest) !! S idx = Some key)
                                   (seq 0 (length rest)))).
  { rewrite <- list_fmap_compose. apply list_fmap_ext. intros i x _. simpl. lia. }
  rewrite Htail. simpl.
  destruct (decide (doc_id doc = key)) as [->|Hne].
  - rewrite decide_True by done. simpl. by rewrite Nat.add_0_r.
  - rewrite decide_False by (by intros [= ?]). done.
Qed.

(** C1. For every list of raw candidates, [fuse_docs] gives the occurrence
    at flat index [idx] the rank [(idx mod 5) + 1], adds [1 / (60 + rank)]
    to the score of its key over every occurrence of the key (the
    [chunk_id], or the hash of the content when there is none), and
    returns the first 15 of the distinct chunks (the first chunk seen for
    each key) in descending order of score, chunks with tied scores in
    first-seen order.  The comparison of floats is only assumed to be a
    strict weak order. *)
Theorem fuse_docs_rrf {env : PyEnv} {fp : PyFloat}
    (lt_asym : forall a b, float_lt a b = true -> float_lt b a = false)
    (lt_negtrans : forall a b c,
        float_lt a b = false -> float_lt b c = false -> float_lt a c = false)
    (state : RAGState) :
  let all_docs := default [] (docs state) in
  let score := fun d => rrf_score all_docs (doc_id d) in
  (forall d c, chunk_id d = Some c -> doc_id d = inl c) /\
  (forall d, chunk_id d = None -> doc_id d = inr (py_hash (page_content d))) /\
  (forall key,
     rrf_score all_docs key
     = foldl float_add float_zero
         (map (fun idx => float_recip (60 + (Z.of_nat (idx mod 5) + 1)))
              (filter (fun idx => doc_id <$> all_docs !! idx = Some key)
                      (seq 0 (length all_docs))))) /\
  exists ranked,
    fuse_docs state = [SetContext (take 15 ranked)] /\
    ranked ≡ₚ first_seen all_docs /\
    StronglySorted (fun a b => float_lt (score a) (score b) = false) ranked /\
    forall s, filter (fun d => tied s (score d)) ranked
              = filter (fun d => tied s (score d)) (first_seen all_docs).
Proof.
  intros all_docs score.
  split; [intros d c Hc; unfold doc_id; by rewrite Hc|].
  split; [intros d Hc; unfold doc_id; by rewrite Hc|].
  split.
  { intros key. unfold rrf_score, rrf_rank. rewrite occurrences_from_seq. do 2 f_equal.
    etrans; [|apply list_fmap_id]. by apply list_fmap_ext. }
  exists (sorted float_lt score true (first_seen all_docs)).
  split; [apply fuse_docs_eq|].
  split; [apply sorted_reverse_perm|].
  split; [by apply sorted_reverse_descending|].
  intros s. apply sorted_reverse_stable.
  intros a b Ha Hb. unfold tied in Ha, Hb.
  apply andb_prop_elim in Ha as [_ Ha]. apply andb_prop_elim in Hb as [Hb _].
  apply negb_prop_elim, Is_true_false in Ha. apply negb_prop_elim, Is_true_false in Hb.
  by eapply lt_negtrans.
Qed.

Lemma fuse_docs_rrf_witness :
  fuse_docs (env := ascii_env) (fp := Q_float) sample_fusion_state
  = [SetContext [doc_a; doc_b; doc_c]] /\
  doc_id (env := ascii_env) doc_a = inl "paper.pdf, page 2, chunk 7" /\
  doc_id (env := ascii_env) doc_c = inr (string_sum "An unlabelled chunk.") /\
  Qeq (rrf_score (env := ascii_env) (fp := Q_float) sample_raw_docs
         (inl "paper.pdf, page 2, chunk 7"))
      ((1 # 62) + (1 # 65) + (1 # 61))%Q /\
  (forall d c, chunk_id d = Some c -> doc_id (env := ascii_env) d = inl c) /\
  (forall d, chunk_id d = None ->
             doc_id (env := ascii_env) d = inr (py_hash (PyEnv := ascii_env) (page_content d))) /\
  (forall key,
     rrf_score (env := ascii_env) (fp := Q_float) sample_raw_docs key
     = foldl (float_add (PyFloat := Q_float)) (float_zero (PyFloat := Q_float))
         (map (fun idx => float_recip (PyFloat := Q_float) (60 + (Z.of_nat (idx mod 5) + 1)))
              (filter (fun idx => doc_id (env := ascii_env) <$> sample_raw_docs !! idx = Some key)
                      (seq 0 (length sample_raw_docs))))) /\
  exists ranked,
    fuse_docs (env := ascii_env) (fp := Q_float) sample_fusion_state
      = [SetContext (take 15 ranked)] /\
    ranked ≡ₚ first_seen (env := ascii_env) sample_raw_docs /\
    StronglySorted
      (fun a b => Q_lt (rrf_score (env := ascii_env) (fp := Q_float) sample_raw_docs
                          (doc_id (env := ascii_env) a))
                       (rrf_score (env := ascii_env) (fp := Q_float) sample_raw_docs
                          (doc_id (env := ascii_env) b)) = false) ranked /\
    forall s, filter (fun d => tied (fp := Q_float) s
                                 (rrf_score (env := ascii_env) (fp := Q_float) sample_raw_docs
                                    (doc_id (env := ascii_env) d))) ranked
              = filter (fun d => tied (fp := Q_float) s
                                   (rrf_score (env := ascii_env) (fp := Q_float) sample_raw_docs
                                      (doc_id (env := ascii_env) d)))
                  (first_seen (env := ascii_env) sample_raw_docs).
Proof.
  split; [vm_compute; reflexivity|]. split; [reflexivity|]. split; [reflexivity|].
  split; [vm_compute; reflexivity|].
  exact (fuse_docs_rrf (env := ascii_env) (fp := Q_float) Q_lt_asym Q_lt_negtrans
           sample_fusion_state).
Defined.

(** ** Reranking *)

Lemma py_index_inv {A : Type} (l : list A) (i : Z) (x : A) :
  py_index l i = Ok x ->
  - Z.of_nat (length l) <= i < Z.of_nat (length l) /\
  l !! Z.to_nat (i `mod` Z.of_nat (length l)) = Some x.
Proof.
  unfold py_index. intros Hx.
  destruct (i <? 0) eqn:Hneg; [apply Z.ltb_lt in Hneg | apply Z.ltb_ge in Hneg].
  - destruct ((0 <=? i + Z.of_nat (length l)) && (i + Z.of_nat (length l) <? Z.of_nat (length l)))
      eqn:Hrange; [|done].
    apply andb_true_iff in Hrange as [Hlo Hhi]. apply Z.leb_le in Hlo.
    destruct (l !! Z.to_nat (i + Z.of_nat (length l))) as [y|] eqn:Hy; [|done].
    split; [lia|].
    replace (i `mod` Z.of_nat (length l)) with (i + Z.of_nat (length l)); [congruence|].
    apply Z.mod_unique with (-1); lia.
  - destruct ((0 <=? i) && (i <? Z.of_nat (length l))) eqn:Hrange; [|done].
    apply andb_true_iff in Hrange as [_ Hhi]. apply Z.ltb_lt in Hhi.
    destruct (l !! Z.to_nat i) as [y|] eqn:Hy; [|done].
    split; [lia|]. rewrite Z.mod_small by lia. congruence.
Qed.

Lemma py_index_ok {A : Type} (l : list A) (i : Z) :
  - Z.of_nat (length l) <= i < Z.of_nat (length l) ->
  exists x, py_index l i = Ok x.
Proof.
  intros Hi. unfold py_index.
  destruct (i <? 0) eqn:Hneg; [apply Z.ltb_lt in Hneg | apply Z.ltb_ge in Hneg].
  - replace ((0 <=? i + Z.of_nat (length l)) && (i + Z.of_nat (length l) <? Z.of_nat (length l)))
      with true by (symmetry; apply andb_true_iff; split; [apply Z.leb_le|apply Z.ltb_lt]; lia).
    destruct (lookup_lt_is_Some_2 l (Z.to_nat (i + Z.of_nat (length l)))) as [x Hx]; [lia|].
    rewrite Hx. by exists x.
  - replace ((0 <=? i) && (i <? Z.of_nat (length l)))
      with true by (symmetry; apply andb_true_iff; split; [apply Z.leb_le|apply Z.ltb_lt]; lia).
    destruct (lookup_lt_is_Some_2 l (Z.to_nat i)) as [x Hx]; [lia|].
    rewrite Hx. by exists x.
Qed.

(** The indices that survive [if i < len(docs)]. *)
Lemma select_docs_none (docs : list Document) (ids : list Z) :
  filter (fun i => i < Z.of_nat (length docs)) ids = [] ->
  select_docs docs ids = Ok [].
Proof.
  induction ids as [|i ids IH]; [done|].
  rewrite filter_cons. destruct (decide (i < Z.of_nat (length docs))) as [|Hge]; [done|].
  intros Hnil. simpl. apply Z.ltb_nlt in Hge. rewrite Hge. by apply IH.
Qed.

(** A selection that is read without an [IndexError] yields one chunk for
    each index that survives the filter, the chunk at that position. *)
Lemma select_docs_inv (docs : list Document) (ids : list Z) (ds : list Document) :
  select_docs docs ids = Ok ds ->
  Forall2 (fun i d => - Z.of_nat (length docs) <= i /\
                      docs !! Z.to_nat (i `mod` Z.of_nat (length docs)) = Some d)
          (filter (fun i => i < Z.of_nat (length docs)) ids) ds.
Proof.
  revert ds. induction ids as [|i ids IH]; intros ds; simpl.
  - intros [= <-]. constructor.
  - rewrite filter_cons.
    destruct (decide (i < Z.of_nat (length docs))) as [Hlt|Hge].
    + apply Z.ltb_lt in Hlt as Hlt'. rewrite Hlt'.
      destruct (py_index docs i) as [d|] eqn:Hd; [|done]. simpl.
      destruct (select_docs docs ids) as [ds'|]; [|done]. simpl. intros [= <-].
      apply py_index_inv in Hd as [[Hlo _] Hd]. constructor; [done|by apply IH].
    + apply Z.ltb_nlt in Hge as Hge'. rewrite Hge'. apply IH.
Qed.

Lemma select_docs_ok (docs : list Document) (ids : list Z) :
  Forall (fun i => - Z.of_nat (length docs) <= i) ids ->
  exists ds, select_docs docs ids = Ok ds.
Proof.
  induction 1 as [|i ids Hi _ [ds IH]]; simpl; [by exists []|].
  destruct (i <? Z.of_nat (length docs)) eqn:Hlt; [|by exists ds].
  apply Z.ltb_lt in Hlt. destruct (py_index_ok docs i) as [d Hd]; [lia|].
  rewrite Hd, IH. simpl. by exists (d :: ds).
Qed.

(** Whatever the model answers, the node returns chunks of the fused list,
    at most five of them. *)
Lemma rerank_attempt_bound (docs : list Document) (response : result (list Z))
    (reranked : list Document) :
  rerank_attempt docs response = Ok reranked ->
  (length reranked <= 5)%nat /\ reranked ⊆ docs.
Proof.
  unfold rerank_attempt. destruct response as [ids|]; [|done]. simpl.
  destruct (select_docs docs (take TOP_K_FINAL ids)) as [ds|] eqn:Hds; [|done]. simpl.
  apply select_docs_inv in Hds.
  assert (Hlen : (length ds <= 5)%nat).
  { rewrite <- (Forall2_length _ _ _ Hds).
    etrans; [apply length_filter|]. rewrite length_take. unfold TOP_K_FINAL. lia. }
  assert (Hsub : ds ⊆ docs).
  { intros d Hd. apply list_elem_of_lookup in Hd as [j Hj].
    destruct (Forall2_lookup_r _ _ _ _ _ Hds Hj) as (i & _ & _ & Hi).
    by eapply list_elem_of_lookup_2. }
  destruct ds as [|d ds]; intros [= <-].
  - split; [rewrite length_take; unfold TOP_K_FINAL; lia|]. apply subseteq_take.
  - done.
Qed.

Lemma rerank_docs_eq (state : RAGState) (q : json) (docs : list Document)
    (response : result (list Z)) :
  question state = Some q -> context state = Some docs ->
  rerank_docs state response =
  Ok [SetRerankedContext (match rerank_attempt docs response with
                          | Ok reranked => reranked
                          | Raise _ => take TOP_K_FINAL docs
                          end)].
Proof. intros Hq Hc. unfold rerank_docs. by rewrite Hq, Hc. Qed.

Lemma fuse_docs_length {env : PyEnv} {fp : PyFloat} (state : RAGState) :
  exists fused, fuse_docs state = [SetContext fused] /\ (length fused <= 15)%nat.
Proof.
  rewrite fuse_docs_eq. eexists. split; [done|]. rewrite length_take. lia.
Qed.

Lemma rerank_no_repeat_length (docs reranked : list Document) (response : result (list Z)) :
  selects_no_position_twice (length docs) response ->
  rerank_attempt docs response = Ok reranked ->
  (length reranked <= length docs)%nat.
Proof.
  unfold rerank_attempt. destruct response as [ids|]; [|done]. simpl. intros Hnodup.
  destruct (select_docs docs (take TOP_K_FINAL ids)) as [ds|] eqn:Hds; [|done]. simpl.
  apply select_docs_inv in Hds.
  destruct ds as [|d ds]; intros [= <-].
  { rewrite length_take. lia. }
  set (valid := filter (fun i => i < Z.of_nat (length docs)) (take TOP_K_FINAL ids)) in *.
  rewrite <- (Forall2_length _ _ _ Hds).
  assert (Hpos : (0 < length docs)%nat).
  { inversion Hds as [|i d' is' ds' [_ Hi] _]; subst. apply lookup_lt_Some in Hi. lia. }
  rewrite <- (length_fmap (fun i => Z.to_nat (i `mod` Z.of_nat (length docs))) valid).
  transitivity (length (seq 0 (length docs))); [|by rewrite length_seq].
  apply submseteq_length, NoDup_submseteq.
  - rewrite (list_fmap_compose (fun i => i `mod` Z.of_nat (length docs)) Z.to_nat).
    apply NoDup_fmap_2_strong; [|done].
    intros x y Hx Hy Hxy.
    apply list_elem_of_fmap in Hx as [i [-> _]]. apply list_elem_of_fmap in Hy as [j [-> _]].
    pose proof (Z.mod_pos_bound i (Z.of_nat (length docs))).
    pose proof (Z.mod_pos_bound j (Z.of_nat (length docs))). lia.
  - intros p Hp. apply list_elem_of_fmap in Hp as [i [-> Hi]].
    apply list_elem_of_lookup in Hi as [k Hk].
    destruct (Forall2_lookup_l _ _ _ _ _ Hds Hk) as (d' & _ & _ & Hd').
    apply lookup_lt_Some in Hd'. apply elem_of_seq. lia.
Qed.

(** C2, as amended.  After the rerank stage [reranked_context] holds at
    most 5 chunks, all of them chunks of the fused context, and the fused
    context holds at most 15; [reranked_context] is no longer than the
    fused context whenever the selection names no position twice. *)
Theorem rerank_sizes {env : PyEnv} {fp : PyFloat} (state : RAGState) (q : json)
    (response : result (list Z)) :
  question state = Some q ->
  exists fused reranked,
    context (apply_update state (fuse_docs state)) = Some fused /\
    rerank_docs (apply_update state (fuse_docs state)) response
      = Ok [SetRerankedContext reranked] /\
    (length fused <= 15)%nat /\
    (length reranked <= 5)%nat /\
    reranked ⊆ fused /\
    (selects_no_position_twice (length fused) response ->
     (length reranked <= length fused)%nat).
Proof.
  intros Hq. destruct (fuse_docs_length state) as (fused & -> & Hlen).
  exists fused. eexists. split; [done|].
  split; [by apply rerank_docs_eq with q|].
  split; [done|].
  destruct (rerank_attempt fused response) as [reranked|] eqn:Hr.
  - destruct (rerank_attempt_bound _ _ _ Hr) as [H5 Hsub].
    repeat split; [done..|]. intros Hnodup. by eapply rerank_no_repeat_length.
  - repeat split.
    + rewrite length_take. unfold TOP_K_FINAL. lia.
    + apply subseteq_take.
    + intros _. rewrite length_take. lia.
Qed.

Lemma rerank_sizes_witness :
  exists fused reranked,
    context (apply_update sample_fusion_state
               (fuse_docs (env := ascii_env) (fp := Q_float) sample_fusion_state))
      = Some fused /\
    rerank_docs (apply_update sample_fusion_state
                   (fuse_docs (env := ascii_env) (fp := Q_float) sample_fusion_state))
                (Ok [2; 0]) = Ok [SetRerankedContext reranked] /\
    (length fused <= 15)%nat /\
    (length reranked <= 5)%nat /\
    reranked ⊆ fused /\
    (selects_no_position_twice (length fused) (Ok [2; 0]) ->
     (length reranked <= length fused)%nat).
Proof.
  apply (rerank_sizes (env := ascii_env) (fp := Q_float) sample_fusion_state
           sample_question (Ok [2; 0])).
  reflexivity.
Defined.

(** C2 as stated fails: the model may name a position twice, and the node
    then returns more chunks than the fused context holds. *)
Lemma rerank_longer_than_fused :
  exists (state : RAGState) (response : result (list Z)) (fused reranked : list Document),
    fuse_docs (env := ascii_env) (fp := Q_float) state = [SetContext fused] /\
    rerank_docs (apply_update state [SetContext fused]) response
      = Ok [SetRerankedContext reranked] /\
    (length fused < length reranked)%nat.
Proof.
  exists (State [] (Some sample_question) None (Some [doc_a]) None None None),
         (Ok [0; 0]), [doc_a], [doc_a; doc_a].
  repeat split. simpl. lia.
Qed.

(** C3.  If the rerank call raises, or no index among those the node reads
    (the first five returned; so also when no returned index at all) is
    below the number of candidates, [rerank_docs] returns the first five
    fused candidates, in fusion order. *)
Theorem rerank_fallback (state : RAGState) (q : json) (docs : list Document)
    (response : result (list Z)) :
  question state = Some q ->
  context state = Some docs ->
  (exists e, response = Raise e) \/
  (exists ids, response = Ok ids /\
     (filter (fun i => i < Z.of_nat (length docs)) ids = [] \/
      filter (fun i => i < Z.of_nat (length docs)) (take TOP_K_FINAL ids) = [])) ->
  rerank_docs state response = Ok [SetRerankedContext (take 5 docs)].
Proof.
  intros Hq Hc Hresp. rewrite (rerank_docs_eq state q docs) by done.
  destruct Hresp as [[e ->]|(ids & -> & Hnone)]; [done|].
  assert (Hnil : filter (fun i => i < Z.of_nat (length docs)) (take TOP_K_FINAL ids) = []).
  { destruct Hnone as [Hall|]; [|done].
    rewrite <- (take_drop TOP_K_FINAL ids), filter_app in Hall.
    by apply app_eq_nil in Hall as [? _]. }
  unfold rerank_attempt. simpl. by rewrite (select_docs_none _ _ Hnil).
Qed.

Lemma rerank_fallback_witness :
  rerank_docs (fused_state six_docs) (Ok [6; 9; 6])
  = Ok [SetRerankedContext (take 5 six_docs)] /\
  rerank_docs (fused_state six_docs) (Raise (Exn "TimeoutError" "timed out"))
  = Ok [SetRerankedContext (take 5 six_docs)].
Proof.
  split.
  - apply (rerank_fallback (fused_state six_docs) sample_question six_docs (Ok [6; 9; 6]));
      [reflexivity | reflexivity |].
    right. exists [6; 9; 6]. split; [reflexivity|]. left. reflexivity.
  - apply (rerank_fallback (fused_state six_docs) sample_question six_docs
             (Raise (Exn "TimeoutError" "timed out"))); [reflexivity | reflexivity |].
    left. by eexists.
Defined.

(** C10, as amended.  A negative index [i] with [-len(docs) <= i] among
    the first five returned is not discarded: the chunk at position
    [len(docs) + i] is in [reranked_context], provided none of the first
    five indices is below [-len(docs)]. *)
Theorem rerank_negative_index (state : RAGState) (q : json) (docs : list Document)
    (ids : list Z) (i : Z) :
  question state = Some q ->
  context state = Some docs ->
  i ∈ take TOP_K_FINAL ids ->
  - Z.of_nat (length docs) <= i < 0 ->
  Forall (fun j => - Z.of_nat (length docs) <= j) (take TOP_K_FINAL ids) ->
  exists d reranked,
    docs !! Z.to_nat (Z.of_nat (length docs) + i) = Some d /\
    rerank_docs state (Ok ids) = Ok [SetRerankedContext reranked] /\
    d ∈ reranked.
Proof.
  intros Hq Hc Hi Hrange Hall. rewrite (rerank_docs_eq state q docs) by done.
  unfold rerank_attempt. simpl.
  destruct (select_docs_ok docs _ Hall) as [ds Hds]. rewrite Hds. simpl.
  apply select_docs_inv in Hds.
  assert (Hvalid : i ∈ filter (fun j => j < Z.of_nat (length docs)) (take TOP_K_FINAL ids)).
  { apply list_elem_of_filter. split; [lia|done]. }
  apply list_elem_of_lookup in Hvalid as [k Hk].
  destruct (Forall2_lookup_l _ _ _ _ _ Hds Hk) as (d & Hd & _ & Hpos).
  replace (i `mod` Z.of_nat (length docs)) with (Z.of_nat (length docs) + i) in Hpos
    by (apply Z.mod_unique with (-1); lia).
  exists d. destruct ds as [|d' ds']; [by rewrite lookup_nil in Hd|].
  eexists. split; [done|]. split; [done|]. by eapply list_elem_of_lookup_2.
Qed.

Lemma rerank_negative_index_witness :
  exists d reranked,
    six_docs !! Z.to_nat (Z.of_nat (length six_docs) + -1) = Some d /\
    rerank_docs (fused_state six_docs) (Ok [0; -1; 7]) = Ok [SetRerankedContext reranked] /\
    d ∈ reranked.
Proof.
  apply (rerank_negative_index (fused_state six_docs) sample_question six_docs [0; -1; 7] (-1)).
  - reflexivity.
  - reflexivity.
  - simpl. set_solver.
  - simpl. lia.
  - simpl. repeat constructor; lia.
Defined.

(** C10 as stated fails: when another selected index is below
    [-len(docs)], reading it raises [IndexError], the node falls back to
    the first five candidates, and the chunk the negative index names is
    not among them. *)
Lemma rerank_negative_index_dropped :
  exists (docs : list Document) (ids : list Z) (i : Z) (d : Document)
         (reranked : list Document),
    i ∈ ids /\
    - Z.of_nat (length docs) <= i < 0 /\
    docs !! Z.to_nat (Z.of_nat (length docs) + i) = Some d /\
    rerank_docs (fused_state docs) (Ok ids) = Ok [SetRerankedContext reranked] /\
    d ∉ reranked.
Proof.
  exists six_docs, [-1; -7], (-1), doc_f, (take 5 six_docs).
  split; [set_solver|]. split; [simpl; lia|]. split; [reflexivity|].
  split; [reflexivity|].
  simpl. rewrite !not_elem_of_cons. repeat split; try discriminate. apply not_elem_of_nil.
Qed.

(** ** Retrieval dispatch *)

Lemma flat_map_pair_length {A B : Type} (f g : A -> B) (l : list A) :
  length (flat_map (fun x => [f x; g x]) l) = (2 * length l)%nat.
Proof. induction l as [|x l IH]; simpl; [done|]. rewrite IH. lia. Qed.

Lemma elem_of_flat_map_pair {A B : Type} (f g : A -> B) (l : list A) (y : B) :
  y ∈ flat_map (fun x => [f x; g x]) l <-> exists x, x ∈ l /\ (y = f x \/ y = g x).
Proof.
  rewrite list_elem_of_In, in_flat_map. split.
  - intros (x & Hx & Hy). exists x. rewrite list_elem_of_In. split; [done|].
    simpl in Hy. destruct Hy as [<-|[<-|[]]]; auto.
  - intros (x & Hx & Hy). exists x. rewrite <- list_elem_of_In. split; [done|].
    simpl. destruct Hy as [->| ->]; auto.
Qed.

(** C4, as amended.  The dispatched variants are the rewritten queries
    followed by the original question (as a set, their union with the
    question); each is sent to the dense and to the lexical backend, which
    is called with top-k 5; that makes [2 * (n + 1)] retrieval operations
    for [n] rewritten queries, at most 8 when there are at most 3. *)
Theorem dispatch_all_variants {index : Index} (state : RAGState) (q : json) (qs : list json) :
  question state = Some q ->
  default (JArr []) (rewritten_queries state) = JArr qs ->
  exists sends,
    send_all_queries state = Ok sends /\
    sends = flat_map (fun v => [MkSend retrieve_vector_node v; MkSend retrieve_bm25_node v])
                     (qs ++ [q]) /\
    (forall v, (v ∈ qs \/ v = q) <->
               MkSend retrieve_vector_node v ∈ sends /\ MkSend retrieve_bm25_node v ∈ sends) /\
    (forall s, s ∈ sends ->
               run_send s = let* docs := backend_call s 5 in Ok [SetDocs (Some docs)]) /\
    length sends = (2 * (length qs + 1))%nat /\
    ((length qs <= 3)%nat -> (length sends <= 8)%nat).
Proof.
  intros Hq Hr. eexists. unfold send_all_queries. rewrite Hq, Hr. simpl.
  split; [done|]. split; [done|].
  assert (Hlen : length (flat_map (fun v => [MkSend retrieve_vector_node v;
                                             MkSend retrieve_bm25_node v]) (qs ++ [q]))
                 = (2 * (length qs + 1))%nat).
  { rewrite flat_map_pair_length, length_app. simpl. lia. }
  split; [|split; [|split; [done|lia]]].
  - intros v. rewrite !elem_of_flat_map_pair. split.
    + intros Hv. assert (v ∈ qs ++ [q]) by (rewrite elem_of_app, list_elem_of_singleton; tauto).
      split; exists v; auto.
    + intros [(x & Hx & [[= ->]|[=]]) _].
      rewrite elem_of_app, list_elem_of_singleton in Hx. tauto.
  - intros s Hs. apply elem_of_flat_map_pair in Hs as (v & _ & [-> | ->]); reflexivity.
Qed.

Lemma dispatch_all_variants_witness :
  exists sends,
    send_all_queries (rewritten_state (JStr "q") (JArr [JStr "q1"; JStr "q2"; JStr "q3"]))
      = Ok sends /\
    sends = flat_map (fun v => [MkSend retrieve_vector_node v; MkSend retrieve_bm25_node v])
                     ([JStr "q1"; JStr "q2"; JStr "q3"] ++ [JStr "q"]) /\
    (forall v, (v ∈ [JStr "q1"; JStr "q2"; JStr "q3"] \/ v = JStr "q") <->
               MkSend retrieve_vector_node v ∈ sends /\ MkSend retrieve_bm25_node v ∈ sends) /\
    (forall s, s ∈ sends ->
               run_send (index := sample_index) s
               = let* docs := backend_call (index := sample_index) s 5 in
                 Ok [SetDocs (Some docs)]) /\
    length sends = (2 * (length [JStr "q1"; JStr "q2"; JStr "q3"] + 1))%nat /\
    ((length [JStr "q1"; JStr "q2"; JStr "q3"] <= 3)%nat -> (length sends <= 8)%nat).
Proof.
  apply (dispatch_all_variants (index := sample_index)
           (rewritten_state (JStr "q") (JArr [JStr "q1"; JStr "q2"; JStr "q3"]))
           (JStr "q") [JStr "q1"; JStr "q2"; JStr "q3"]); reflexivity.
Defined.

(** C4 as stated fails: nothing bounds the number of queries the rewrite
    model returns, and every one of them is dispatched. *)
Lemma dispatch_more_than_eight :
  exists (state : RAGState) (reply : Reply) (u : Update) (sends : list Send),
    rewrite_query state reply = Ok u /\
    send_all_queries (apply_update state u) = Ok sends /\
    (8 < length sends)%nat.
Proof.
  exists (State [] (Some (JStr "q")) None None None None None),
         (Json (JObj [("queries", JArr [JStr "q1"; JStr "q2"; JStr "q3"; JStr "q4"])])).
  eexists. eexists. split; [reflexivity|]. split; [reflexivity|]. simpl. lia.
Qed.

(** ** Cache lookup *)

Section CacheFacts.
Context {env : PyEnv}.

(** A line is a hit only if its logged question matches. *)
Lemma check_entry_hit_inv (q : string) (v : json) (u : Update) :
  check_entry (JStr q) v = Ok (Some u) ->
  logged_match q (Parsed v) = true /\ exists text, u = hit_update q text.
Proof.
  unfold check_entry, logged_match. destruct v as [| | | | |fields]; try done. simpl.
  destruct (dict_get fields "question" (JStr "")) as [| | |s| |]; try done. simpl.
  destruct (String.eqb (str_lower (str_strip s)) (str_lower (str_strip q))); [|done].
  destruct (if truthy (dict_get fields "citations" (JArr []))
            then let* cites := py_iter (dict_get fields "citations" (JArr [])) in
                 py_iadd (dict_get fields "answer" (JStr ""))
                   (sources_header +:+ join (";" +:+ nl) (map fmt cites))
            else Ok (dict_get fields "answer" (JStr ""))) as [text|]; [|done].
  simpl. destruct text as [| | |t| |]; try done. simpl.
  intros [= <-]. split; [done|]. by eexists.
Qed.

(** What the lookup does with a record. *)
Lemma check_entry_record (q : string) (fields : list (string * json)) (s a : string)
    (cs : list json) :
  dict_get fields "question" (JStr "") = JStr s ->
  dict_get fields "answer" (JStr "") = JStr a ->
  dict_get fields "citations" (JArr []) = JArr cs ->
  check_entry (JStr q) (JObj fields) =
  if String.eqb (str_lower (str_strip s)) (str_lower (str_strip q))
  then Ok (Some (hit_update q (cached_text a (map fmt cs))))
  else Ok None.
Proof.
  intros Hs Ha Hc. unfold check_entry. simpl. rewrite Hs, Ha, Hc. simpl.
  destruct (String.eqb (str_lower (str_strip s)) (str_lower (str_strip q))); [|done].
  destruct cs as [|c cs]; reflexivity.
Qed.


Lemma check_entry_no_match (q : string) (v : json) :
  logged_match q (Parsed v) = false ->
  check_entry (JStr q) v = Ok None \/ exists e, check_entry (JStr q) v = Raise e.
Proof.
  intros Hm. destruct (check_entry (JStr q) v) as [[u|]|e] eqn:Hc.
  - apply check_entry_hit_inv in Hc as [Hc _]. congruence.
  - by left.
  - right. by eexists.
Qed.

(** Questions that are equal after trimming and lowering find the same
    lines. *)
Lemma logged_match_norm (q1 q2 : string) (line : LogLine) :
  str_lower (str_strip q1) = str_lower (str_strip q2) ->
  logged_match q1 line = logged_match q2 line.
Proof. intros Hn. unfold logged_match. by rewrite Hn. Qed.

Lemma scan_lines_hit_inv (q : string) (lines : list LogLine) (u : Update) :
  scan_lines (JStr q) lines = Some u ->
  exists line text, line ∈ lines /\ logged_match q line = true /\ u = hit_update q text.
Proof.
  induction lines as [|[|v|] lines IH]; simpl; [done| | |done].
  - intros Hu. destruct (IH Hu) as (line & text & Hin & Hm & ->).
    exists line, text. split; [by right|done].
  - destruct (check_entry (JStr q) v) as [[u'|]|e] eqn:Hc; [| |done].
    + intros [= <-]. apply check_entry_hit_inv in Hc as [Hm [text ->]].
      exists (Parsed v), text. split; [by left|done].
    + intros Hu. destruct (IH Hu) as (line & text & Hin & Hm & ->).
      exists line, text. split; [by right|done].
Qed.

Lemma scan_lines_no_match (q : string) (lines : list LogLine) :
  (forall line, line ∈ lines -> logged_match q line = false) ->
  scan_lines (JStr q) lines = None.
Proof.
  intros Hno. destruct (scan_lines (JStr q) lines) as [u|] eqn:Hs; [|done].
  apply scan_lines_hit_inv in Hs as (line & _ & Hin & Hm & _).
  rewrite (Hno line Hin) in Hm. done.
Qed.



Lemma scan_lines_records_none (q : string) (lines : list LogLine) :
  Forall is_record lines ->
  scan_lines (JStr q) lines = None ->
  forall line, line ∈ lines -> logged_match q line = false.
Proof.
  induction 1 as [|[|v|] l1 Hrec _ IH]; simpl; intros Hs line Hin.
  - by apply elem_of_nil in Hin.
  - apply elem_of_cons in Hin as [->|Hin]; [done|by apply IH].
  - destruct v as [| | | | |fields]; try done.
    destruct Hrec as ([s Hs'] & [a Ha] & [cs Hc]) eqn:Hrec'.
    rewrite (check_entry_record q fields s a cs) in Hs by done.
    destruct (String.eqb (str_lower (str_strip s)) (str_lower (str_strip q))) eqn:Hm; [done|].
    apply elem_of_cons in Hin as [->|Hin]; [|by apply IH].
    simpl. by rewrite Hs'.
  - done.
Qed.


Lemma scan_files_hit_inv (q : string) (files : LogDir) (u : Update) :
  scan_files (JStr q) files = Some u ->
  exists file line text,
    file ∈ files /\ line ∈ snd file /\ logged_match q line = true /\ u = hit_update q text.
Proof.
  induction files as [|[name lines] files IH]; simpl; [done|].
  destruct (scan_lines (JStr q) lines) as [u'|] eqn:Hs.
  - intros [= <-]. apply scan_lines_hit_inv in Hs as (line & text & Hin & Hm & ->).
    exists (name, lines), line, text. split; [by left|done].
  - intros Hu. destruct (IH Hu) as (file & line & text & Hin & Hl & Hm & ->).
    exists file, line, text. split; [by right|done].
Qed.

Lemma scan_files_none (question : json) (files : LogDir) :
  scan_files question files = None <->
  Forall (fun file => scan_lines question (snd file) = None) files.
Proof.
  induction files as [|[name lines] files IH]; simpl.
  - split; [constructor|done].
  - destruct (scan_lines question lines) eqn:Hs.
    + split; [done|]. intros Hall. inversion Hall as [|? ? Hhd]; subst. simpl in Hhd. congruence.
    + rewrite IH. split; [by constructor|]. by inversion 1.
Qed.

Lemma scan_files_app (question : json) (files1 files2 : LogDir) :
  scan_files question (files1 ++ files2) =
  match scan_files question files1 with
  | Some u => Some u
  | None => scan_files question files2
  end.
Proof.
  induction files1 as [|[name lines] files1 IH]; simpl; [done|].
  by destruct (scan_lines question lines).
Qed.

End CacheFacts.

Section CacheLookup.
Context {env : PyEnv}.

Lemma is_record_has_question (line : LogLine) : is_record line -> has_question line.
Proof.
  destruct line as [|[| | | | |fields]|]; try done. by intros [Hs _].
Qed.

(** Lines that can be compared and do not match are passed over. *)
Lemma scan_lines_app_no_match (q : string) (l1 l2 : list LogLine) :
  Forall has_question l1 ->
  Forall (fun line => logged_match q line = false) l1 ->
  scan_lines (JStr q) (l1 ++ l2) = scan_lines (JStr q) l2.
Proof.
  induction 1 as [|[|v|] l1 Hq _ IH]; intros Hno; inversion Hno as [|? ? Hm Hno']; subst;
    simpl; [done|by apply IH| |done].
  destruct v as [| | | | |fields]; try done. destruct Hq as [s Hs].
  unfold check_entry. simpl. simpl in Hm. rewrite Hs in *. simpl. rewrite Hm. by apply IH.
Qed.


Lemma glob_qa_log_map (g : string * list LogLine -> string * list LogLine) (dir : LogDir) :
  (forall f, fst (g f) = fst f) ->
  glob_qa_log (map g dir) = map g (glob_qa_log dir).
Proof.
  intros Hg. unfold glob_qa_log. induction dir as [|f dir IH]; [done|].
  change (map g (f :: dir)) with (g f :: map g dir).
  rewrite !filter_cons, Hg, IH. by destruct (decide _).
Qed.


Lemma elem_of_partitions (file : string * list LogLine) (dir : LogDir) :
  file ∈ partitions dir <-> file ∈ glob_qa_log dir.
Proof. unfold partitions. by rewrite sorted_reverse_perm. Qed.


(** The lookup node, for a question in text. *)
Lemma check_cache_text (state : RAGState) (q : string) (dir : LogDir) :
  last_question state = Ok (JStr q) ->
  check_cache state (Some dir) =
  Ok (match lookup_cache (JStr q) dir with
      | Some u => u
      | None => [SetQuestion (JStr q); SetCacheHit false]
      end).
Proof.
  intros Hq. unfold check_cache, lookup_cache, partitions. rewrite Hq. simpl.
  by destruct (scan_files _ _).
Qed.




(** The first match in reading order is the hit. *)
Lemma scan_files_first_match (q : string) (files : LogDir) (before after : list LogLine)
    (fields : list (string * json)) (a : string) (cs : list json) :
  concat (map snd files) = before ++ Parsed (JObj fields) :: after ->
  Forall has_question before ->
  Forall (fun line => logged_match q line = false) before ->
  logged_match q (Parsed (JObj fields)) = true ->
  dict_get fields "answer" (JStr "") = JStr a ->
  dict_get fields "citations" (JArr []) = JArr cs ->
  scan_files (JStr q) files = Some (hit_update q (cached_text a (map fmt cs))).
Proof.
  intros Hcat Hhas Hno Hm Ha Hc.
  assert (Hhit : forall rest,
             scan_lines (JStr q) (Parsed (JObj fields) :: rest)
             = Some (hit_update q (cached_text a (map fmt cs)))).
  { intros rest. simpl. simpl in Hm.
    destruct (dict_get fields "question" (JStr "")) as [| | |s| |] eqn:Hs; try done.
    rewrite (check_entry_record q fields s a cs) by done. by rewrite Hm. }
  revert before Hcat Hhas Hno.
  induction files as [|[name lines] files IH]; intros before Hcat Hhas Hno; simpl in Hcat.
  - by destruct before.
  - simpl. apply app_eq_inv in Hcat as [(k & -> & Hk)|(k & -> & Hk)].
    + destruct k as [|line k].
      * rewrite app_nil_r. simpl in Hk.
        rewrite <- (app_nil_r before), scan_lines_app_no_match by done. simpl.
        apply (IH []); [done|constructor|constructor].
      * simpl in Hk. injection Hk as <- ->.
        by rewrite scan_lines_app_no_match, Hhit by done.
    + apply Forall_app in Hhas as [Hhas1 Hhas2]. apply Forall_app in Hno as [Hno1 Hno2].
      rewrite <- (app_nil_r lines), scan_lines_app_no_match by done. simpl.
      by apply (IH k).
Qed.

End CacheLookup.

(** C6, as amended.  When the first line in reading order (newest
    partition first) whose logged question matches the asked one is a
    record with a text answer and a list of citations, and the lines read
    before it are corrupt lines or objects with a text question,
    [check_cache] returns the logged answer behind the literal
    ["[Cached Response]"], followed, when the list of citations is not
    empty, by a ["Sources:"] block with one citation per line, and sets
    [cache_hit] to true. *)
Theorem cache_hit_format {env : PyEnv} (input : list Message) (q : string) (dir : LogDir)
    (before after : list LogLine) (fields : list (string * json)) (a : string)
    (cs : list json) :
  last_question (initial_state input) = Ok (JStr q) ->
  concat (map snd (partitions dir)) = before ++ Parsed (JObj fields) :: after ->
  Forall has_question before ->
  Forall (fun line => logged_match q line = false) before ->
  logged_match q (Parsed (JObj fields)) = true ->
  dict_get fields "answer" (JStr "") = JStr a ->
  dict_get fields "citations" (JArr []) = JArr cs ->
  check_cache (initial_state input) (Some dir)
  = Ok [SetQuestion (JStr q);
        AddMessages [Msg AI (JStr (cached_text a (map fmt cs)))];
        SetCacheHit true].
Proof.
  intros Hq Hcat Hhas Hno Hm Ha Hc. rewrite (check_cache_text _ q) by done.
  unfold lookup_cache. by rewrite (scan_files_first_match q _ before after fields a cs).
Qed.

Lemma cache_hit_format_witness :
  check_cache (env := ascii_env)
    (initial_state [human "what ACCURACY did the model achieve?  "]) (Some sample_logs)
  = Ok [SetQuestion (JStr "what ACCURACY did the model achieve?  ");
        AddMessages
          [Msg AI (JStr (cached_text "92%."
                           ["paper.pdf, page 2, chunk 7"; "paper.pdf, page 3, chunk 1"]))];
        SetCacheHit true].
Proof.
  apply (cache_hit_format (env := ascii_env)
           [human "what ACCURACY did the model achieve?  "]
           "what ACCURACY did the model achieve?  " sample_logs
           [Unparsable;
            sample_record "How many GPUs?" "Eight." [JStr "paper.pdf, page 3, chunk 1"]]
           [sample_record "what accuracy did the model achieve?" "About 90%." []]
           (sample_fields "  What accuracy did the model achieve? " "92%."
              [JStr "paper.pdf, page 2, chunk 7"; JStr "paper.pdf, page 3, chunk 1"])
           "92%." [JStr "paper.pdf, page 2, chunk 7"; JStr "paper.pdf, page 3, chunk 1"]).
  - reflexivity.
  - reflexivity.
  - repeat constructor. by eexists.
  - repeat constructor.
  - reflexivity.
  - reflexivity.
  - reflexivity.
Defined.

(** C6 as stated fails: for a record without citations the answer message
    has no ["Sources:"] block. *)
Lemma cache_hit_without_sources :
  exists (input : list Message) (q : string) (fields : list (string * json)) (text : string),
    last_question (env := ascii_env) (initial_state input) = Ok (JStr q) /\
    concat (map snd (partitions sample_logs_no_citations)) = [Parsed (JObj fields)] /\
    logged_match (env := ascii_env) q (Parsed (JObj fields)) = true /\
    check_cache (env := ascii_env) (initial_state input) (Some sample_logs_no_citations)
    = Ok [SetQuestion (JStr q); AddMessages [Msg AI (JStr text)]; SetCacheHit true] /\
    index 0 "Sources:" text = None.
Proof.
  exists [human "who wrote it?"], "who wrote it?".
  eexists. eexists. split; [reflexivity|]. split; [reflexivity|].
  split; [reflexivity|]. split; [reflexivity|]. reflexivity.
Qed.




(** ** Answer generation *)

(** C8.  With an empty reranked context [generate_answer] returns the
    message ["I don't know."] whatever the model would answer, and does
    nothing else: it does not invoke the model and writes no record. *)
Theorem generate_empty_context {env : PyEnv} (clock : Clock) (state : RAGState) (q : json)
    (reply : Reply) :
  question state = Some q ->
  reranked_context state = Some [] ->
  generate_answer clock state reply = Ok ([AddMessages [Msg AI (JStr "I don't know.")]], []).
Proof. intros Hq Hd. unfold generate_answer. by rewrite Hq, Hd. Qed.

Lemma generate_empty_context_witness :
  generate_answer (env := ascii_env) sample_clock
    (State [] (Some sample_question) None None (Some []) (Some []) None)
    (Json (JObj [("answer", JStr "92%."); ("citations", JArr [])]))
  = Ok ([AddMessages [Msg AI (JStr "I don't know.")]], []).
Proof.
  apply (generate_empty_context (env := ascii_env) sample_clock
           (State [] (Some sample_question) None None (Some []) (Some []) None)
           sample_question); reflexivity.
Defined.

Lemma generate_attempt_object {env : PyEnv} (fields : list (string * json)) :
  match message_content fields with
  | Some content =>
      generate_attempt (Json (JObj fields))
      = Ok (Msg AI content,
            match dict_get fields "answer" (JStr "") with
            | JArr _ => content
            | answer => answer
            end,
            dict_get fields "citations" (JArr []))
  | None => exists e, generate_attempt (Json (JObj fields)) = Raise e
  end.
Proof.
  unfold message_content, generate_attempt. cbn [reply_json py_get bind].
  generalize (dict_get fields "answer" (JStr "")) as answer.
  generalize (dict_get fields "citations" (JArr [])) as citations.
  intros citations answer.
  destruct (truthy citations) eqn:Htruthy.
  - destruct citations; cbn [listed_citations py_iter bind]; try by eexists.
    all: destruct answer; cbn [py_iadd bind]; try by eexists.
    all: unfold AIMessage;
      match goal with
      | |- context [valid_content ?c] => destruct (valid_content c)
      end; cbn [bind]; try done; by eexists.
  - cbn [bind]. unfold AIMessage. destruct (valid_content answer) eqn:Hvalid; cbn [bind].
    + by destruct answer.
    + by eexists.
Qed.

(** C9, as amended.  With a non-empty reranked context: if the model call
    raises, or its output is not JSON, or is JSON but not an object, or is
    an object that makes no message content, [generate_answer] returns the
    fallback text without raising, and the only record it writes is the
    error record (type and message of the exception, and the question), to
    the error log, which is not one of the partitions the cache reads.
    Every other object is not a failure, whatever keys it has: the message
    holds the content it makes, and the success record is written, with
    the reply's citations and, for a text answer, that answer.  An object
    that has neither key makes the empty text; an object whose answer is
    neither a text nor a list makes no content. *)
Theorem generate_failure {env : PyEnv} (clock : Clock) (state : RAGState) (q : json)
    (docs : list Document) :
  question state = Some q ->
  reranked_context state = Some docs ->
  docs <> [] ->
  (forall reply, generation_fails reply ->
     exists e,
       generate_answer clock state reply
       = Ok ([AddMessages [Msg AI (JStr "I don't know. (Error during answer generation)")]],
             [LlmInvoke (MkPrompt q (numbered_context docs));
              LogWrite (log_file "error_log" (today clock))
                (JObj [("timestamp", JStr (now clock));
                       ("error_type", JStr (exn_type e));
                       ("error_message", JStr (exn_msg e));
                       ("question", q);
                       ("message", JStr ("Answer generation failed: " +:+ exn_msg e))])]) /\
       (forall e', reply = CallFails e' \/ reply = NotJson e' -> e = e')) /\
  glob_qa_log [(log_file "error_log" (today clock), [])] = [] /\
  (forall e, generation_fails (CallFails e) /\ generation_fails (NotJson e)) /\
  (forall v, (forall fields, v <> JObj fields) -> generation_fails (Json v)) /\
  (forall fields content,
     message_content fields = Some content ->
     exists logged,
       generate_answer clock state (Json (JObj fields))
       = Ok ([AddMessages [Msg AI content]],
             [LlmInvoke (MkPrompt q (numbered_context docs));
              LogWrite (log_file "qa_log" (today clock))
                (qa_record clock state q logged
                   (dict_get fields "citations" (JArr [])) docs)]) /\
       (forall a, dict_get fields "answer" (JStr "") = JStr a -> logged = JStr a)) /\
  (forall fields,
     dict_lookup fields "answer" = None ->
     dict_lookup fields "citations" = None ->
     message_content fields = Some (JStr "")) /\
  (forall fields answer,
     dict_lookup fields "answer" = Some answer ->
     (forall a, answer <> JStr a) ->
     (forall items, answer <> JArr items) ->
     message_content fields = None).
Proof.
  intros Hq Hd Hne.
  assert (Hrun : forall reply,
            generate_answer clock state reply
            = match generate_attempt reply with
              | Ok (ai_message, answer, citations) =>
                  Ok ([AddMessages [ai_message]],
                      [LlmInvoke (MkPrompt q (numbered_context docs));
                       LogWrite (log_file "qa_log" (today clock))
                         (qa_record clock state q answer citations docs)])
              | Raise e =>
                  Ok ([AddMessages
                         [Msg AI (JStr "I don't know. (Error during answer generation)")]],
                      [LlmInvoke (MkPrompt q (numbered_context docs));
                       LogWrite (log_file "error_log" (today clock))
                         (error_record clock q e)])
              end).
  { intros reply. unfold generate_answer. rewrite Hq, Hd. cbn [state_key bind].
    by destruct docs. }
  split.
  { intros reply Hfail. rewrite Hrun.
    destruct reply as [e|e|v].
    - exists e. split; [done|]. by intros e' [[= ->]|[=]].
    - exists e. split; [done|]. by intros e' [[=]|[= ->]].
    - destruct v as [| | | | |fields];
        try (eexists; split; [reflexivity|]; by intros e' [[=]|[=]]).
      pose proof (generate_attempt_object fields) as Hobj.
      cbn [generation_fails] in Hfail. rewrite Hfail in Hobj.
      destruct Hobj as [e ->]. exists e. split; [done|]. by intros e' [[=]|[=]]. }
  split; [done|].
  split; [done|].
  split.
  { intros v Hv. destruct v as [| | | | |fields]; try done. by destruct (Hv fields). }
  split.
  { intros fields content Hcontent. rewrite Hrun.
    pose proof (generate_attempt_object fields) as Hobj. rewrite Hcontent in Hobj.
    rewrite Hobj. eexists. split; [reflexivity|].
    by intros a ->. }
  split.
  { intros fields Ha Hc. unfold message_content, dict_get. by rewrite Ha, Hc. }
  intros fields answer Ha Hstr Harr. unfold message_content. cbn zeta.
  unfold dict_get. rewrite Ha.
  destruct (truthy _).
  - destruct (listed_citations _); [|done].
    destruct answer; try done; [by destruct (Hstr s)|by destruct (Harr items)].
  - destruct answer; try done; [by destruct (Hstr s)|by destruct (Harr items)].
Qed.

Lemma generate_failure_witness :
  generate_answer (env := ascii_env) sample_clock
    (State [] (Some sample_question) None None None (Some [doc_a]) None)
    (Json (JObj [("answer", JInt 5)]))
  = Ok ([AddMessages [Msg AI (JStr "I don't know. (Error during answer generation)")]],
        [LlmInvoke (MkPrompt sample_question (numbered_context (env := ascii_env) [doc_a]));
         LogWrite "error_log_20240301.jsonl"
           (JObj [("timestamp", JStr "2024-03-01T12:00:00");
                  ("error_type", JStr "ValidationError");
                  ("error_message", JStr "Input should be a valid string");
                  ("question", sample_question);
                  ("message",
                    JStr "Answer generation failed: Input should be a valid string")])]) /\
  generate_answer (env := ascii_env) sample_clock
    (State [] (Some sample_question) None None None (Some [doc_a]) None)
    (Json (JObj [("answer", JStr "92%."); ("citations", JInt 7)]))
  = Ok ([AddMessages [Msg AI (JStr "I don't know. (Error during answer generation)")]],
        [LlmInvoke (MkPrompt sample_question (numbered_context (env := ascii_env) [doc_a]));
         LogWrite "error_log_20240301.jsonl"
           (JObj [("timestamp", JStr "2024-03-01T12:00:00");
                  ("error_type", JStr "TypeError");
                  ("error_message", JStr "'int' object is not iterable");
                  ("question", sample_question);
                  ("message",
                    JStr "Answer generation failed: 'int' object is not iterable")])]) /\
  message_content (env := ascii_env)
    [("answer", JStr "92%."); ("citations", JArr [JStr "paper.pdf, page 2, chunk 7"])]
  = Some (JStr "92%.

Sources:
paper.pdf, page 2, chunk 7") /\
  (forall reply, generation_fails (env := ascii_env) reply ->
     exists e,
       generate_answer (env := ascii_env) sample_clock
         (State [] (Some sample_question) None None None (Some [doc_a]) None) reply
       = Ok ([AddMessages [Msg AI (JStr "I don't know. (Error during answer generation)")]],
             [LlmInvoke (MkPrompt sample_question
                           (numbered_context (env := ascii_env) [doc_a]));
              LogWrite (log_file "error_log" (today sample_clock))
                (JObj [("timestamp", JStr (now sample_clock));
                       ("error_type", JStr (exn_type e));
                       ("error_message", JStr (exn_msg e));
                       ("question", sample_question);
                       ("message", JStr ("Answer generation failed: " +:+ exn_msg e))])]) /\
       (forall e', reply = CallFails e' \/ reply = NotJson e' -> e = e')) /\
  glob_qa_log [(log_file "error_log" (today sample_clock), [])] = [] /\
  (forall e, generation_fails (env := ascii_env) (CallFails e) /\
             generation_fails (env := ascii_env) (NotJson e)) /\
  (forall v, (forall fields, v <> JObj fields) -> generation_fails (env := ascii_env) (Json v)) /\
  (forall fields content,
     message_content (env := ascii_env) fields = Some content ->
     exists logged,
       generate_answer (env := ascii_env) sample_clock
         (State [] (Some sample_question) None None None (Some [doc_a]) None)
         (Json (JObj fields))
       = Ok ([AddMessages [Msg AI content]],
             [LlmInvoke (MkPrompt sample_question
                           (numbered_context (env := ascii_env) [doc_a]));
              LogWrite (log_file "qa_log" (today sample_clock))
                (qa_record sample_clock
                   (State [] (Some sample_question) None None None (Some [doc_a]) None)
                   sample_question logged
                   (dict_get fields "citations" (JArr [])) [doc_a])]) /\
       (forall a, dict_get fields "answer" (JStr "") = JStr a -> logged = JStr a)) /\
  (forall fields,
     dict_lookup fields "answer" = None ->
     dict_lookup fields "citations" = None ->
     message_content (env := ascii_env) fields = Some (JStr "")) /\
  (forall fields answer,
     dict_lookup fields "answer" = Some answer ->
     (forall a, answer <> JStr a) ->
     (forall items, answer <> JArr items) ->
     message_content (env := ascii_env) fields = None).
Proof.
  split; [reflexivity|]. split; [reflexivity|]. split; [reflexivity|].
  apply (generate_failure (env := ascii_env) sample_clock
           (State [] (Some sample_question) None None None (Some [doc_a]) None)
           sample_question [doc_a]).
  - reflexivity.
  - reflexivity.
  - discriminate.
Defined.

(** C9 as stated fails: an object that lacks the keys of the required
    shape is not treated as a failure.  The missing answer defaults to the
    empty string, which is returned, and a success record is written. *)
Lemma generate_accepts_other_shape :
  exists (state : RAGState) (docs : list Document) (v : json) (record : json),
    reranked_context state = Some docs /\
    docs <> [] /\
    required_shape v = false /\
    generate_answer (env := ascii_env) sample_clock state (Json v)
    = Ok ([AddMessages [Msg AI (JStr "")]],
          [LlmInvoke (MkPrompt sample_question (numbered_context (env := ascii_env) docs));
           LogWrite (log_file "qa_log" (today sample_clock)) record]).
Proof.
  exists (State [] (Some sample_question) None None None (Some [doc_a]) None), [doc_a],
         (JObj [("response", JStr "The model achieves 92% accuracy.")]).
  eexists. split; [reflexivity|]. split; [discriminate|]. split; reflexivity.
Qed.

(** ** The audit log as the cache's store *)

Lemma substring_append_suffix (s suffix : string) :
  substring (String.length s) (String.length suffix) (s +:+ suffix) = suffix.
Proof.
  induction s as [|c s IH].
  - change ("" +:+ suffix) with suffix. simpl String.length.
    induction suffix as [|c suffix IH]; simpl; [done|]. by rewrite IH.
  - change (String c s +:+ suffix) with (String c (s +:+ suffix)). simpl. exact IH.
Qed.

Lemma string_length_append (s1 s2 : string) :
  String.length (s1 +:+ s2) = (String.length s1 + String.length s2)%nat.
Proof.
  induction s1 as [|c s1 IH]; [done|].
  change (String c s1 +:+ s2) with (String c (s1 +:+ s2)). simpl. by rewrite IH.
Qed.

Lemma string_append_assoc (s1 s2 s3 : string) :
  (s1 +:+ s2) +:+ s3 = s1 +:+ (s2 +:+ s3).
Proof.
  induction s1 as [|c s1 IH]; [done|].
  change (String c s1 +:+ s2) with (String c (s1 +:+ s2)).
  change (String c (s1 +:+ s2) +:+ s3) with (String c ((s1 +:+ s2) +:+ s3)).
  by rewrite IH.
Qed.

Lemma ends_with_append (s suffix : string) : ends_with suffix (s +:+ suffix) = true.
Proof.
  unfold ends_with. cbv zeta. rewrite string_length_append.
  replace (String.length s + String.length suffix - String.length suffix)%nat
    with (String.length s) by lia.
  rewrite substring_append_suffix, String.eqb_refl, andb_true_r.
  apply Nat.leb_le. lia.
Qed.

(** The file of the audit logger is one of the partitions the lookup
    reads, whatever the day; the file of the error logger is not. *)
Lemma qa_log_file_globbed (day : string) (lines : list LogLine) :
  glob_qa_log [(log_file "qa_log" day, lines)] = [(log_file "qa_log" day, lines)].
Proof.
  unfold glob_qa_log. rewrite filter_cons_True; [done|]. simpl fst.
  apply Is_true_true, andb_true_iff. split; [by destruct day|].
  unfold log_file. rewrite <- !string_append_assoc. apply ends_with_append.
Qed.

Lemma error_log_file_not_globbed (day : string) (lines : list LogLine) :
  glob_qa_log [(log_file "error_log" day, lines)] = [].
Proof. done. Qed.

Section AppendFacts.
Context {env : PyEnv}.

Lemma insert_sorted_split {A K : Type} (lt : K -> K -> bool) (key : A -> K) (x : A)
    (l : list A) :
  exists l1 l2, l = l1 ++ l2 /\ insert_sorted lt key x l = l1 ++ x :: l2.
Proof.
  induction l as [|y l (l1 & l2 & -> & IH)]; simpl.
  - by exists [], [].
  - destruct (lt (key y) (key x)).
    + exists (y :: l1), l2. by rewrite IH.
    + by exists [], (y :: l1 ++ l2).
Qed.

(** A new element at the end of the list ends up somewhere in the sorted
    list, and the others stay as they were. *)
Lemma sorted_reverse_snoc {A K : Type} (lt : K -> K -> bool) (key : A -> K) (x : A)
    (l : list A) :
  exists l1 l2, sorted lt key true l = l1 ++ l2 /\
                sorted lt key true (l ++ [x]) = l1 ++ x :: l2.
Proof.
  unfold sorted. rewrite rev_app_distr. simpl.
  destruct (insert_sorted_split lt key x (sort_stable lt key (rev l))) as (s1 & s2 & Hs & ->).
  exists (rev s2), (rev s1). rewrite Hs, !rev_app_distr. simpl. by rewrite <- app_assoc.
Qed.

Lemma glob_qa_log_snoc (dir : LogDir) (file : string) (lines : list LogLine) :
  glob_qa_log (dir ++ [(file, lines)])
  = glob_qa_log dir ++ glob_qa_log [(file, lines)].
Proof. unfold glob_qa_log. by rewrite filter_app. Qed.

Lemma existsb_name_elem (file : string) (dir : LogDir) :
  existsb (fun f => String.eqb (fst f) file) dir = true ->
  exists lines, (file, lines) ∈ dir.
Proof.
  intros Hex. apply existsb_exists in Hex as ([name lines] & Hin & Heq).
  apply String.eqb_eq in Heq. simpl in Heq. subst. exists lines. by apply list_elem_of_In.
Qed.

(** Writing to a file that is not a partition changes no partition. *)
Lemma glob_append_other (file : string) (line : LogLine) (dir : LogDir) :
  glob_qa_log [(file, [])] = [] ->
  glob_qa_log (append_line file line dir) = glob_qa_log dir.
Proof.
  intros Hfile. unfold append_line.
  assert (Hno : ~ Is_true (String.prefix "qa_log_" file && ends_with ".jsonl" file)).
  { unfold glob_qa_log in Hfile. rewrite filter_cons in Hfile. simpl in Hfile.
    by destruct (decide _). }
  unfold glob_qa_log. destruct (existsb _ dir).
  - induction dir as [|[name lines] dir IH]; [done|]. simpl map.
    destruct (String.eqb name file) eqn:Heq.
    + apply String.eqb_eq in Heq. subst. simpl fst.
      by rewrite !filter_cons_False, IH by done.
    + by rewrite !filter_cons, IH.
  - rewrite filter_app, filter_cons_False, filter_nil by done. apply app_nil_r.
Qed.


Lemma well_formed_append_other (file : string) (line : LogLine) (dir : LogDir) :
  glob_qa_log [(file, [])] = [] ->
  well_formed dir -> well_formed (append_line file line dir).
Proof. intros Hfile Hwf. unfold well_formed. by rewrite glob_append_other. Qed.



Lemma well_formed_append (file : string) (line : LogLine) (dir : LogDir) :
  is_record line -> well_formed dir -> well_formed (append_line file line dir).
Proof.
  intros Hline Hwf. unfold well_formed, append_line. destruct (existsb _ dir).
  - rewrite glob_qa_log_map by (intros f; by destruct (String.eqb _ _)).
    intros f Hf. apply list_elem_of_fmap in Hf as (f' & -> & Hf').
    destruct (String.eqb _ _); simpl; [|by apply Hwf].
    apply Forall_app. split; [by apply Hwf|by constructor].
  - rewrite glob_qa_log_snoc. intros f Hf. apply elem_of_app in Hf as [Hf|Hf]; [by apply Hwf|].
    unfold glob_qa_log in Hf. apply list_elem_of_filter in Hf as [_ Hf].
    apply list_elem_of_singleton in Hf as ->. simpl. by constructor.
Qed.

(** Over records, a lookup misses exactly when no line matches. *)
Lemma lookup_none_records (q : string) (dir : LogDir) :
  well_formed dir ->
  lookup_cache (JStr q) dir = None ->
  forall file line, file ∈ glob_qa_log dir -> line ∈ snd file -> logged_match q line = false.
Proof.
  intros Hwf Hnone file line Hf Hl. unfold lookup_cache in Hnone.
  apply scan_files_none in Hnone. rewrite Forall_forall in Hnone.
  apply (scan_lines_records_none q (snd file)); [by apply Hwf| |done].
  by apply Hnone, elem_of_partitions.
Qed.

Lemma lookup_none_norm (q1 q2 : string) (dir : LogDir) :
  well_formed dir ->
  str_lower (str_strip q1) = str_lower (str_strip q2) ->
  lookup_cache (JStr q1) dir = None -> lookup_cache (JStr q2) dir = None.
Proof.
  intros Hwf Hn Hnone. unfold lookup_cache. apply scan_files_none, Forall_forall.
  intros file Hf. apply scan_lines_no_match. intros line Hl.
  rewrite <- (logged_match_norm q1 q2) by done.
  apply (lookup_none_records q1 dir Hwf Hnone file); [by apply elem_of_partitions|done].
Qed.

End AppendFacts.

Section ServeFacts.
Context {env : PyEnv} {fp : PyFloat} {index : Index}.

(** A model that answers with the types it is told to has its answer and
    citations logged as a string and a list. *)
Lemma generate_attempt_typed (reply : Reply) (m : Message) (a c : json) :
  typed_reply reply ->
  generate_attempt reply = Ok (m, a, c) ->
  exists a' cs, a = JStr a' /\ c = JArr cs.
Proof.
  destruct reply as [e|e|v]; try done. destruct v as [| | | | |fields]; try done.
  intros [[a' Ha] [cs Hc]]. unfold generate_attempt. simpl. rewrite Ha, Hc.
  destruct cs as [|c0 cs]; simpl; intros [= <- <- <-]; by eexists _, _.
Qed.

(** The three things [generate_answer] can do besides returning. *)
Lemma generate_answer_events (clock : Clock) (state : RAGState) (qj : json) (reply : Reply)
    (u : Update) (evs : list Event) :
  question state = Some qj ->
  generate_answer clock state reply = Ok (u, evs) ->
  evs = [] \/
  (exists p m a c docs,
      generate_attempt reply = Ok (m, a, c) /\
      evs = [LlmInvoke p;
             LogWrite (log_file "qa_log" (today clock))
                      (qa_record clock state qj a c docs)]) \/
  (exists p e,
      evs = [LlmInvoke p;
             LogWrite (log_file "error_log" (today clock)) (error_record clock qj e)]).
Proof.
  intros Hq. unfold generate_answer. rewrite Hq. simpl.
  destruct (reranked_context state) as [docs|]; [|done]. simpl.
  destruct docs as [|doc docs]; [intros [= <- <-]; by left|].
  destruct (generate_attempt reply) as [[[m a] c]|e] eqn:Hatt; intros [= <- <-]; right.
  - left. by eexists _, m, a, c, _.
  - right. by eexists _, e.
Qed.

Lemma run_sends_question (state state' : RAGState) (sends : list Send) :
  run_sends state sends = Ok state' -> question state' = question state.
Proof.
  revert state. induction sends as [|s sends IH]; intros state; simpl; [by intros [= <-]|].
  destruct (run_send s) as [u|] eqn:Hu; [|done]. simpl. intros Hrun.
  rewrite (IH _ Hrun). unfold run_send, retrieve_vector, retrieve_bm25 in Hu.
  destruct (send_node s); simpl in Hu.
  - destruct (similarity_search _ _); [|done]. simpl in Hu. by injection Hu as <-.
  - destruct (lexical_search _ _); [|done]. simpl in Hu. by injection Hu as <-.
Qed.

(** A hit ends the run: the answer comes from the log, nothing is
    written and no model is invoked. *)
Lemma agent_hit (dir : LogDir) (o : Oracles) (input : list Message) (q text : string) :
  last_question (initial_state input) = Ok (JStr q) ->
  lookup_cache (JStr q) dir = Some (hit_update q text) ->
  agent (Some dir) o input
  = Ok (State (input ++ [Msg AI (JStr text)]) (Some (JStr q)) None None None None (Some true),
        []).
Proof.
  intros Hq Hhit. unfold agent. rewrite (check_cache_text _ q) by done. by rewrite Hhit.
Qed.

(** After a miss the run writes at most one record: the audit record of
    the question, or an error record. *)
Lemma agent_miss_events (dir : LogDir) (o : Oracles) (input : list Message) (q : string)
    (state : RAGState) (evs : list Event) :
  last_question (initial_state input) = Ok (JStr q) ->
  lookup_cache (JStr q) dir = None ->
  agent (Some dir) o input = Ok (state, evs) ->
  evs = [] \/
  (exists p m a c state' docs,
      generate_attempt (generate_reply o) = Ok (m, a, c) /\
      evs = [LlmInvoke p;
             LogWrite (log_file "qa_log" (today (clock o)))
                      (qa_record (clock o) state' (JStr q) a c docs)]) \/
  (exists p e,
      evs = [LlmInvoke p;
             LogWrite (log_file "error_log" (today (clock o)))
                      (error_record (clock o) (JStr q) e)]).
Proof.
  intros Hq Hnone. unfold agent. rewrite (check_cache_text _ q) by done. rewrite Hnone.
  simpl. unfold rewrite_query. simpl.
  destruct (reply_json (rewrite_reply o)) as [result|]; [|done]. simpl.
  destruct (py_get result "queries" (JArr [])) as [queries|]; [|done]. simpl.
  destruct (send_all_queries _) as [sends|]; [|done]. simpl.
  destruct (run_sends _ sends) as [st3|] eqn:Hrun; [|done]. simpl.
  apply run_sends_question in Hrun. simpl in Hrun.
  rewrite fuse_docs_eq.
  set (fused := take 15 _).
  unfold rerank_docs. simpl. rewrite Hrun. simpl.
  set (reranked := match rerank_attempt fused (rerank_response o) with
                   | Ok r => r | Raise _ => take TOP_K_FINAL fused end).
  destruct (generate_answer _ _ _) as [[u evs']|] eqn:Hgen; [|done]. simpl.
  intros [= <- <-].
  apply (generate_answer_events _ _ (JStr q)) in Hgen; [|done].
  destruct Hgen as [->|[(p & m & a & c & docs & Hatt & ->)|(p & e & ->)]].
  - by left.
  - right. left. by eexists p, m, a, c, _, docs.
  - right. right. by eexists p, e.
Qed.

(** What serving a request does to the logs. *)
Lemma serve_cases (dir : LogDir) (r : Request) (q : string) :
  last_question (initial_state (req_input r)) = Ok (JStr q) ->
  typed_reply (generate_reply (req_oracles r)) ->
  serve dir r = dir \/
  (lookup_cache (JStr q) dir = None /\
   exists day record, serve dir r = append_line (log_file "error_log" day) (Parsed record) dir) \/
  (lookup_cache (JStr q) dir = None /\
   exists fields a cs,
     serve dir r
     = append_line (log_file "qa_log" (today (clock (req_oracles r)))) (Parsed (JObj fields)) dir /\
     dict_get fields "question" (JStr "") = JStr q /\
     dict_get fields "answer" (JStr "") = JStr a /\
     dict_get fields "citations" (JArr []) = JArr cs).
Proof.
  intros Hq Htyped. unfold serve.
  destruct (agent (Some dir) (req_oracles r) (req_input r)) as [[state evs]|] eqn:Hagent;
    [|by left].
  destruct (lookup_cache (JStr q) dir) as [u|] eqn:Hlook.
  - left. unfold lookup_cache in Hlook.
    apply scan_files_hit_inv in Hlook as Hu. destruct Hu as (_ & _ & text & _ & _ & _ & ->).
    rewrite (agent_hit dir _ _ q text) in Hagent by done. by injection Hagent as <- <-.
  - apply (agent_miss_events dir _ _ q) in Hagent; [|done..].
    destruct Hagent as [->|[(p & m & a & c & state' & docs & Hatt & ->)|(p & e & ->)]].
    + by left.
    + right. right. split; [done|].
      destruct (generate_attempt_typed _ _ _ _ Htyped Hatt) as (a' & cs & -> & ->).
      by eexists _, a', cs.
    + right. left. split; [done|]. by eexists _, _.
Qed.

Lemma serve_well_formed (dir : LogDir) (r : Request) :
  text_request r -> well_formed dir -> well_formed (serve dir r).
Proof.
  intros [[q Hq] Htyped] Hwf.
  destruct (serve_cases dir r q Hq Htyped)
    as [->|[(_ & day & record & ->)|(_ & fields & a & cs & -> & Hfq & Hfa & Hfc)]]; [done| |].
  - by apply well_formed_append_other.
  - apply well_formed_append; [|done]. simpl. split; [by eexists|]. split; by eexists.
Qed.




End ServeFacts.





(** ** Further properties *)

Section FusionExtras.
Context {env : PyEnv} {fp : PyFloat}.

(** An index is listed as an occurrence of a key exactly when the chunk
    at that index has the key. *)
Lemma elem_of_occurrences_from (start : nat) (key : doc_key) (all_docs : list Document)
    (i : nat) :
  i ∈ occurrences_from start key all_docs <->
  exists j d, i = (start + j)%nat /\ all_docs !! j = Some d /\ doc_id d = key.
Proof.
  revert start. induction all_docs as [|doc rest IH]; intros start; simpl.
  - split; [by intros ?%elem_of_nil|]. by intros (j & d & _ & ? & _).
  - destruct (decide (doc_id doc = key)) as [Hk|Hk].
    + rewrite elem_of_cons, IH. split.
      * intros [->|(j & d & -> & Hj & Hd)].
        -- exists 0%nat, doc. split; [lia|done].
        -- exists (S j), d. split; [lia|done].
      * intros (j & d & -> & Hj & Hd). destruct j as [|j].
        -- left. lia.
        -- right. exists j, d. split; [lia|done].
    + rewrite IH. split.
      * intros (j & d & -> & Hj & Hd). exists (S j), d. split; [lia|done].
      * intros (j & d & -> & Hj & Hd). destruct j as [|j].
        -- simpl in Hj. injection Hj as <-. done.
        -- exists j, d. split; [lia|done].
Qed.

Lemma first_seen_subseteq (all_docs : list Document) : first_seen all_docs ⊆ all_docs.
Proof.
  induction all_docs as [|doc rest IH]; simpl; [done|].
  intros d Hd. apply elem_of_cons in Hd as [->|Hd]; [by left|].
  right. apply IH. by apply list_elem_of_filter in Hd as [_ Hd].
Qed.

(** No two of the distinct chunks share a key. *)
Lemma first_seen_keys_NoDup (all_docs : list Document) :
  NoDup (doc_id <$> first_seen all_docs).
Proof.
  induction all_docs as [|doc rest IH]; simpl; [constructor|].
  constructor.
  - intros Hin. apply list_elem_of_fmap in Hin as (d & Heq & Hd).
    apply list_elem_of_filter in Hd as [Hne _]. by apply Hne.
  - eapply sublist_NoDup; [exact IH|]. apply fmap_sublist, sublist_filter.
Qed.

(** Every key of a raw candidate is the key of one of the distinct chunks. *)
Lemma first_seen_covers (all_docs : list Document) (d : Document) :
  d ∈ all_docs -> doc_id d ∈ doc_id <$> first_seen all_docs.
Proof.
  induction all_docs as [|doc rest IH]; simpl; [by intros ?%elem_of_nil|].
  intros Hd.
  destruct (decide (doc_id d = doc_id doc)) as [->|Hne]; [by left|].
  right. apply elem_of_cons in Hd as [->|Hd]; [done|].
  apply IH in Hd. apply list_elem_of_fmap in Hd as (d' & Heq & Hd').
  apply list_elem_of_fmap. exists d'. split; [done|].
  apply list_elem_of_filter. split; [congruence|done].
Qed.

End FusionExtras.

(** X1.  Deduplication: the fused context holds raw candidates only, and
    no two of its chunks have the same deduplication key. *)
Theorem fuse_docs_distinct_keys {env : PyEnv} {fp : PyFloat} (state : RAGState) :
  exists fused,
    fuse_docs state = [SetContext fused] /\
    NoDup (doc_id <$> fused) /\
    fused ⊆ default [] (docs state).
Proof.
  rewrite fuse_docs_eq. eexists. split; [done|]. split.
  - eapply sublist_NoDup; [|apply fmap_sublist, sublist_take].
    rewrite sorted_reverse_perm. apply first_seen_keys_NoDup.
  - intros d Hd. apply subseteq_take in Hd. rewrite sorted_reverse_perm in Hd.
    by apply first_seen_subseteq.
Qed.

(** X2.  The route after the lookup ends the run exactly when the lookup
    set [cache_hit] to true. *)
Theorem route_from_cache_end (state : RAGState) :
  route_from_cache state = "__end__" <-> cache_hit state = Some true.
Proof.
  unfold route_from_cache. destruct (cache_hit state) as [[|]|]; simpl; split; done.
Qed.

(** X3.  A rewrite that succeeds clears the raw candidates of an earlier
    round and keeps the question. *)
Theorem rewrite_query_clears_docs (state : RAGState) (reply : Reply) (u : Update) :
  rewrite_query state reply = Ok u ->
  docs (apply_update state u) = Some [] /\
  question (apply_update state u) = question state.
Proof.
  unfold rewrite_query. destruct (question state) as [q|] eqn:Hq; [|done]. simpl.
  destruct (reply_json reply) as [result|]; [|done]. simpl.
  destruct (py_get result "queries" (JArr [])) as [queries|]; [|done]. simpl.
  by intros [= <-].
Qed.

Lemma rewrite_query_clears_docs_witness :
  docs (apply_update sample_fusion_state
          [SetQuestion sample_question;
           SetRewrittenQueries (JArr [JStr "accuracy of the model"]);
           SetDocs None]) = Some [] /\
  question (apply_update sample_fusion_state
              [SetQuestion sample_question;
               SetRewrittenQueries (JArr [JStr "accuracy of the model"]);
               SetDocs None]) = question sample_fusion_state.
Proof.
  apply (rewrite_query_clears_docs sample_fusion_state
           (Json (JObj [("queries", JArr [JStr "accuracy of the model"])]))).
  reflexivity.
Defined.

(** ** The rerank prompt *)

Lemma replace_newlines_length (text : string) :
  String.length (replace_newlines text) = String.length text.
Proof. induction text as [|c text IH]; simpl; [done|]. by rewrite IH. Qed.

Lemma substring_length (n m : nat) (s : string) :
  String.length (substring n m s) = (m `min` (String.length s - n))%nat.
Proof.
  revert n m. induction s as [|c s IH]; intros [|n] [|m]; simpl; rewrite ?IH; try lia.
  destruct (String.length s - n)%nat; lia.
Qed.

Lemma str_head_length (n : nat) (s : string) :
  String.length (str_head n s) = (n `min` String.length s)%nat.
Proof. unfold str_head. rewrite substring_length. by rewrite Nat.sub_0_r. Qed.

Lemma str_tail_length (n : nat) (s : string) :
  (0 < n)%nat -> String.length (str_tail n s) = (n `min` String.length s)%nat.
Proof.
  intros Hn. unfold str_tail. destruct n as [|n]; [lia|].
  rewrite substring_length. lia.
Qed.

Section RerankPromptFacts.
Context {env : PyEnv}.

(** The limits are one of four, and a limit is the head and the tail
    together. *)
Lemma content_limits_cases (text : string) :
  (content_limits text = MkLimits None 0 0 /\ (String.length text < 600)%nat) \/
  content_limits text = MkLimits (Some 800%nat) 400 400 \/
  content_limits text = MkLimits (Some 1000%nat) 500 500 \/
  content_limits text = MkLimits (Some 1200%nat) 600 600.
Proof.
  unfold content_limits.
  destruct (existsb _ TABLE_KEYWORDS); [auto|].
  destruct (existsb _ LIST_KEYWORDS); [auto|].
  destruct (existsb _ CODE_KEYWORDS); [auto|].
  destruct (String.length text <? 600)%nat eqn:Hlen; [|auto].
  left. split; [done|]. by apply Nat.ltb_lt.
Qed.

(** What the preview is, by the limit [h + h] that applies. *)
Lemma chunk_preview_cases (page_content : string) :
  (chunk_preview page_content = replace_newlines page_content /\
   (String.length page_content <= 1200)%nat) \/
  exists h, (h = 400 \/ h = 500 \/ h = 600)%nat /\
            (h + h < String.length page_content)%nat /\
            chunk_preview page_content
            = str_head h (replace_newlines page_content) +:+ " ... "
              +:+ str_tail h (replace_newlines page_content).
Proof.
  unfold chunk_preview. cbv zeta.
  pose proof (replace_newlines_length page_content) as Hlen.
  destruct (content_limits_cases (replace_newlines page_content))
    as [[-> Hshort]|[-> | [-> | ->]]]; cbn [max_chars head_size tail_size].
  - left. split; [done|lia].
  - destruct (800 <? String.length (replace_newlines page_content))%nat eqn:Hc.
    + apply Nat.ltb_lt in Hc. right. exists 400%nat. split; [auto|]. split; [lia|done].
    + apply Nat.ltb_ge in Hc. left. split; [done|lia].
  - destruct (1000 <? String.length (replace_newlines page_content))%nat eqn:Hc.
    + apply Nat.ltb_lt in Hc. right. exists 500%nat. split; [auto|]. split; [lia|done].
    + apply Nat.ltb_ge in Hc. left. split; [done|lia].
  - destruct (1200 <? String.length (replace_newlines page_content))%nat eqn:Hc.
    + apply Nat.ltb_lt in Hc. right. exists 600%nat. split; [auto|]. split; [lia|done].
    + apply Nat.ltb_ge in Hc. left. split; [done|lia].
Qed.

End RerankPromptFacts.

Lemma list_ascii_of_string_append (s1 s2 : string) :
  list_ascii_of_string (s1 +:+ s2) = list_ascii_of_string s1 ++ list_ascii_of_string s2.
Proof.
  induction s1 as [|c s1 IH]; [done|].
  change (String c s1 +:+ s2) with (String c (s1 +:+ s2)). simpl. by rewrite IH.
Qed.

Lemma substring_chars (P : ascii -> Prop) (n m : nat) (s : string) :
  Forall P (list_ascii_of_string s) -> Forall P (list_ascii_of_string (substring n m s)).
Proof.
  revert n m. induction s as [|c s IH]; intros [|n] [|m] Hs; simpl;
    try done; try (by constructor); inversion Hs; subst;
    try (by apply IH); constructor; [done|by apply IH].
Qed.

Lemma replace_newlines_chars (text : string) :
  Forall (fun ch => ch <> "010"%char) (list_ascii_of_string (replace_newlines text)).
Proof.
  induction text as [|c text IH]; simpl; constructor; [|done].
  destruct (Ascii.eqb c "010") eqn:Hc; [done|]. by apply Ascii.eqb_neq.
Qed.

Lemma string_length_chars (s : string) :
  String.length s = length (list_ascii_of_string s).
Proof. induction s as [|c s IH]; simpl; [done|]. by rewrite IH. Qed.

(** X4.  The preview of a chunk in the rerank prompt has no newline, at
    most 1205 characters, and at most 4 characters more than the chunk. *)
Theorem chunk_preview_bounds {env : PyEnv} (page_content : string) :
  Forall (fun ch => ch <> "010"%char) (list_ascii_of_string (chunk_preview page_content)) /\
  (String.length (chunk_preview page_content) <= 1205)%nat /\
  (String.length (chunk_preview page_content) <= String.length page_content + 4)%nat.
Proof.
  pose proof (replace_newlines_length page_content) as Hlen.
  pose proof (replace_newlines_chars page_content) as Hchars.
  destruct (chunk_preview_cases page_content) as [[-> Hle]|(h & Hh & Hlong & ->)].
  - split; [done|]. lia.
  - split.
    + rewrite !list_ascii_of_string_append. rewrite !Forall_app.
      split; [by apply substring_chars|]. split; [by repeat constructor|].
      unfold str_tail. destruct h; [done|]. by apply substring_chars.
    + rewrite !string_length_append, str_head_length, str_tail_length by lia.
      change (String.length " ... ") with 5%nat. lia.
Qed.

(** X5.  A chunk of at most 800 characters is shown in full, whatever its
    content: only its newlines are replaced by spaces. *)
Theorem chunk_preview_short {env : PyEnv} (page_content : string) :
  (String.length page_content <= 800)%nat ->
  chunk_preview page_content = replace_newlines page_content.
Proof.
  intros Hlen. destruct (chunk_preview_cases page_content) as [[-> _]|(h & Hh & Hlong & _)];
    [done|lia].
Qed.

Lemma chunk_preview_short_witness :
  chunk_preview (env := ascii_env) (page_content doc_a) = replace_newlines (page_content doc_a).
Proof.
  apply (chunk_preview_short (env := ascii_env) (page_content doc_a)).
  apply Nat.leb_le. vm_compute. reflexivity.
Defined.

(** X6.  A chunk of more than 1200 characters is always cut: its preview
    is the first [h] and the last [h] characters around [" ... "], where
    [h] is 400, 500 or 600. *)
Theorem chunk_preview_long {env : PyEnv} (page_content : string) :
  (1200 < String.length page_content)%nat ->
  exists h,
    (h = 400 \/ h = 500 \/ h = 600)%nat /\
    chunk_preview page_content
    = str_head h (replace_newlines page_content) +:+ " ... "
      +:+ str_tail h (replace_newlines page_content) /\
    String.length (chunk_preview page_content) = (h + 5 + h)%nat.
Proof.
  intros Hlen. pose proof (replace_newlines_length page_content) as Hrep.
  destruct (chunk_preview_cases page_content) as [[_ Hle]|(h & Hh & Hlong & Heq)]; [lia|].
  exists h. split; [done|]. split; [done|]. rewrite Heq.
  rewrite !string_length_append, str_head_length, str_tail_length by lia.
  change (String.length " ... ") with 5%nat. lia.
Qed.

Lemma chunk_preview_long_witness :
  exists h,
    (h = 400 \/ h = 500 \/ h = 600)%nat /\
    chunk_preview (env := ascii_env) sample_long_text
    = str_head h (replace_newlines sample_long_text) +:+ " ... "
      +:+ str_tail h (replace_newlines sample_long_text) /\
    String.length (chunk_preview (env := ascii_env) sample_long_text) = (h + 5 + h)%nat.
Proof.
  apply (chunk_preview_long (env := ascii_env) sample_long_text).
  apply Nat.ltb_lt. vm_compute. reflexivity.
Defined.

(** ** The graph as a whole *)

Section AgentFacts.
Context {env : PyEnv} {fp : PyFloat} {index : Index}.

Lemma take_length_bound {A : Type} (n : nat) (l : list A) : (length (take n l) <= n)%nat.
Proof. rewrite length_take. lia. Qed.

Lemma concat_replicate_nil {A : Type} (n : nat) : concat (replicate n ([] : list A)) = [].
Proof. induction n as [|n IH]; [done|]. simpl. exact IH. Qed.

Lemma run_send_backend (s : Send) :
  run_send s = let* docs := backend_call s TOP_K_FINAL in Ok [SetDocs (Some docs)].
Proof. by destruct s as [[] query]. Qed.

(** The state with its raw candidates replaced. *)
Lemma run_sends_ok (state : RAGState) (raw : list Document) (sends : list Send)
    (dss : list (list Document)) :
  docs state = Some raw ->
  Forall2 (fun s ds => backend_call s TOP_K_FINAL = Ok ds) sends dss ->
  run_sends state sends
  = Ok (State (messages state) (question state) (rewritten_queries state)
              (Some (raw ++ concat dss)) (context state) (reranked_context state)
              (cache_hit state)).
Proof.
  intros Hraw Hall. revert state raw Hraw.
  induction Hall as [|s ds sends dss Hs Hall IH]; intros state raw Hraw; simpl.
  - rewrite app_nil_r, <- Hraw. by destruct state.
  - rewrite run_send_backend, Hs. simpl.
    rewrite (IH _ (raw ++ ds)); simpl; [|by rewrite Hraw].
    by rewrite app_assoc.
Qed.

Lemma run_sends_inv (state state' : RAGState) (sends : list Send) :
  run_sends state sends = Ok state' ->
  exists dss, Forall2 (fun s ds => backend_call s TOP_K_FINAL = Ok ds) sends dss.
Proof.
  revert state. induction sends as [|s sends IH]; intros state; simpl.
  - intros _. exists []. constructor.
  - rewrite run_send_backend. destruct (backend_call s TOP_K_FINAL) as [ds|] eqn:Hs; [|done].
    simpl. intros Hrun. destruct (IH _ Hrun) as [dss Hall]. exists (ds :: dss).
    by constructor.
Qed.

Lemma run_sends_raise (state : RAGState) (sends : list Send) (e : exn) :
  run_sends state sends = Raise e ->
  exists s, s ∈ sends /\ backend_call s TOP_K_FINAL = Raise e.
Proof.
  revert state. induction sends as [|s sends IH]; intros state; simpl; [done|].
  rewrite run_send_backend. destruct (backend_call s TOP_K_FINAL) as [ds|e'] eqn:Hs; simpl.
  - intros Hrun. destruct (IH _ Hrun) as (s' & Hin & Hs'). exists s'. split; [by right|done].
  - intros [= ->]. exists s. split; [by left|done].
Qed.

(** A line is a hit only for a question in text, and a hit has one shape. *)
Lemma check_entry_shape (question v : json) (u : Update) :
  check_entry question v = Ok (Some u) ->
  exists m, u = [SetQuestion question; AddMessages [m]; SetCacheHit true] /\ role m = AI.
Proof.
  unfold check_entry.
  destruct (py_get v "question" (JStr "")) as [lq|]; [|done]. simpl.
  destruct (strip_lower lq) as [logged|]; [|done]. simpl.
  destruct (strip_lower question) as [asked|]; [|done]. simpl.
  destruct (String.eqb logged asked); [|done].
  destruct (py_get v "answer" (JStr "")) as [a|]; [|done]. simpl.
  destruct (py_get v "citations" (JArr [])) as [c|]; [|done]. simpl.
  destruct (if truthy c then _ else _) as [text|]; [|done]. simpl.
  destruct (cached_prefix text) as [text'|]; [|done]. simpl.
  unfold AIMessage. destruct (valid_content text'); [|done]. simpl.
  intros [= <-]. by eexists.
Qed.

Lemma scan_lines_shape (question : json) (lines : list LogLine) (u : Update) :
  scan_lines question lines = Some u ->
  exists m, u = [SetQuestion question; AddMessages [m]; SetCacheHit true] /\ role m = AI.
Proof.
  induction lines as [|[|v|] lines IH]; simpl; [done|done| |done].
  destruct (check_entry question v) as [[u'|]|e] eqn:Hc; [|done|done].
  intros [= <-]. by apply (check_entry_shape question v).
Qed.

Lemma scan_files_shape (question : json) (files : LogDir) (u : Update) :
  scan_files question files = Some u ->
  exists m, u = [SetQuestion question; AddMessages [m]; SetCacheHit true] /\ role m = AI.
Proof.
  induction files as [|[name lines] files IH]; simpl; [done|].
  destruct (scan_lines question lines) as [u'|] eqn:Hs; [|done].
  intros [= <-]. by apply (scan_lines_shape question lines).
Qed.

(** The three things the lookup node can return. *)
Lemma check_cache_cases (state : RAGState) (log_dir : option LogDir) (u : Update) :
  check_cache state log_dir = Ok u ->
  exists q, last_question state = Ok q /\
    ((log_dir = None /\ u = [SetQuestion q]) \/
     (exists dir, log_dir = Some dir /\ u = [SetQuestion q; SetCacheHit false]) \/
     (exists dir m, log_dir = Some dir /\
        u = [SetQuestion q; AddMessages [m]; SetCacheHit true] /\ role m = AI)).
Proof.
  unfold check_cache. destruct (last_question state) as [q|]; [|done]. simpl.
  intros Hu. exists q. split; [done|]. destruct log_dir as [dir|].
  - destruct (scan_files q _) as [u'|] eqn:Hscan.
    + injection Hu as <-. right. right.
      destruct (scan_files_shape _ _ _ Hscan) as (m & -> & Hm). by exists dir, m.
    + destruct (preview q); [|done]. simpl in Hu. injection Hu as <-. right. left.
      by exists dir.
  - injection Hu as <-. by left.
Qed.

Lemma generate_answer_message (clock : Clock) (state : RAGState) (reply : Reply)
    (u : Update) (evs : list Event) :
  generate_answer clock state reply = Ok (u, evs) ->
  exists m, u = [AddMessages [m]] /\ role m = AI.
Proof.
  unfold generate_answer. destruct (question state) as [q|]; [|done]. simpl.
  destruct (reranked_context state) as [[|doc ds]|]; [| |done]; simpl.
  - intros [= <- <-]. by eexists.
  - destruct (generate_attempt reply) as [[[m a] c]|e] eqn:Hatt; intros [= <- <-];
      [|by eexists].
    exists m. split; [done|]. unfold generate_attempt in Hatt.
    destruct (reply_json reply) as [result|]; [|done]. simpl in Hatt.
    destruct (py_get result "answer" (JStr "")) as [a'|]; [|done]. simpl in Hatt.
    destruct (py_get result "citations" (JArr [])) as [c'|]; [|done]. simpl in Hatt.
    destruct (if truthy c' then _ else _) as [text|]; [|done]. simpl in Hatt.
    unfold AIMessage in Hatt. destruct (valid_content text); [|done]. simpl in Hatt.
    by injection Hatt as <- _ _.
Qed.

(** X7.  A run that was not served from the cache went through every
    node: its final state holds the question, one more message (from the
    assistant), and the three candidate lists, each drawn from the one
    before it and cut to its size. *)
Theorem agent_full_run_state (log_dir : option LogDir) (o : Oracles) (input : list Message)
    (state : RAGState) (evs : list Event) :
  agent log_dir o input = Ok (state, evs) ->
  cache_hit state <> Some true ->
  exists q queries m raw fused reranked,
    last_question (initial_state input) = Ok q /\
    question state = Some q /\
    rewritten_queries state = Some queries /\
    messages state = input ++ [m] /\ role m = AI /\
    docs state = Some raw /\
    context state = Some fused /\
    reranked_context state = Some reranked /\
    fused ⊆ raw /\ reranked ⊆ fused /\
    (length fused <= 15)%nat /\ (length reranked <= 5)%nat.
Proof.
  unfold agent. destruct (check_cache (initial_state input) log_dir) as [u0|] eqn:Hcheck; [|done].
  simpl. destruct (check_cache_cases _ _ _ Hcheck) as (q & Hq & Hcases).
  destruct Hcases as [[-> ->]|[(dir & -> & ->)|(dir & m & -> & -> & Hm)]]; simpl.
  3: { intros [= <- <-]. simpl. done. }
  all: unfold rewrite_query; simpl.
  all: destruct (reply_json (rewrite_reply o)) as [result|]; [|done]; simpl.
  all: destruct (py_get result "queries" (JArr [])) as [queries|]; [|done]; simpl.
  all: destruct (send_all_queries _) as [sends|]; [|done]; simpl.
  all: destruct (run_sends _ sends) as [st3|] eqn:Hrun; [|done]; simpl.
  all: destruct (run_sends_inv _ _ _ Hrun) as [dss Hall].
  all: rewrite (run_sends_ok _ [] _ dss) in Hrun by done; injection Hrun as <-; simpl.
  all: rewrite fuse_docs_eq; simpl.
  all: match goal with
       | |- context [take 15 (rev (sort_stable ?lt ?key (rev ?l)))] =>
           change (rev (sort_stable lt key (rev l))) with (sorted lt key true l);
           generalize (subseteq_take 15 (sorted lt key true l));
           generalize (take_length_bound 15 (sorted lt key true l));
           generalize (take 15 (sorted lt key true l)); intros fused Hlen Hsub;
           rewrite sorted_reverse_perm in Hsub;
           pose proof (first_seen_subseteq (concat dss)) as Hseen
       end.
  all: match goal with
       | |- context [Some (match rerank_attempt ?f ?r with
                           | Ok x => x | Raise _ => ?t end)] =>
           assert (Hreranked : match rerank_attempt f r with Ok x => x | Raise _ => t end ⊆ f /\
                               (length (match rerank_attempt f r with
                                        | Ok x => x | Raise _ => t end) <= 5)%nat)
             by (destruct (rerank_attempt f r) as [x|] eqn:Hatt;
                 [apply rerank_attempt_bound in Hatt; tauto
                 |split; [apply subseteq_take|rewrite length_take; unfold TOP_K_FINAL; lia]]);
           revert Hreranked;
           generalize (match rerank_attempt f r with Ok x => x | Raise _ => t end);
           intros reranked [Hrsub Hrlen]
       end.
  all: destruct (generate_answer _ _ _) as [[u evs']|] eqn:Hgen; [|done]; simpl.
  all: intros [= <- <-] _.
  all: destruct (generate_answer_message _ _ _ _ _ Hgen) as (m' & -> & Hm').
  all: eexists q, queries, m', (concat dss), _, _; simpl.
  all: repeat (split; [done|]).
  all: split; [by etrans|]; split; [done|]; split; [done|done].
Qed.

Lemma check_cache_miss_state (input : list Message) (log_dir : option LogDir) (u : Update) :
  check_cache (initial_state input) log_dir = Ok u ->
  cache_hit (apply_update (initial_state input) u) <> Some true ->
  exists q hit,
    last_question (initial_state input) = Ok q /\ hit <> Some true /\
    apply_update (initial_state input) u = State input (Some q) None None None None hit.
Proof.
  intros Hcheck Hmiss. destruct (check_cache_cases _ _ _ Hcheck) as (q & Hq & Hcases).
  destruct Hcases as [[-> ->]|[(dir & -> & ->)|(dir & m & -> & -> & Hm)]].
  - by exists q, None.
  - by exists q, (Some false).
  - by destruct Hmiss.
Qed.

(** The run after a miss, node by node. *)
Lemma agent_miss_eq (log_dir : option LogDir) (o : Oracles) (input : list Message)
    (u : Update) (q : json) (hit : option bool) :
  check_cache (initial_state input) log_dir = Ok u ->
  apply_update (initial_state input) u = State input (Some q) None None None None hit ->
  hit <> Some true ->
  agent log_dir o input =
  let* result := reply_json (rewrite_reply o) in
  let* queries := py_get result "queries" (JArr []) in
  let state1 := State input (Some q) (Some queries) (Some []) None None hit in
  let* sends := send_all_queries state1 in
  let* state2 := run_sends state1 sends in
  let state3 := apply_update state2 (fuse_docs state2) in
  let* u := rerank_docs state3 (rerank_response o) in
  let state4 := apply_update state3 u in
  let* (u, evs) := generate_answer (clock o) state4 (generate_reply o) in
  Ok (apply_update state4 u, evs).
Proof.
  intros Hcheck Hst Hmiss. unfold agent. rewrite Hcheck. cbn [bind]. rewrite Hst.
  assert (Hroute : (route_from_cache (State input (Some q) None None None None hit)
                    =? "__end__")%string = false) by (by destruct hit as [[|]|]).
  rewrite Hroute. unfold rewrite_query. cbn [question state_key bind].
  destruct (reply_json (rewrite_reply o)) as [result|]; [|done]. cbn [bind].
  destruct (py_get result "queries" (JArr [])) as [queries|]; [|done]. reflexivity.
Qed.

(** X8.  Retrieval adds the results of the backend calls to the raw
    candidates in the order the requests were sent and changes nothing
    else; it returns exactly when every backend call returns. *)
Theorem run_sends_merges (state : RAGState) (raw : list Document) (sends : list Send)
    (state' : RAGState) :
  docs state = Some raw ->
  run_sends state sends = Ok state' <->
  exists dss,
    Forall2 (fun s ds => backend_call s TOP_K_FINAL = Ok ds) sends dss /\
    state' = State (messages state) (question state) (rewritten_queries state)
                   (Some (raw ++ concat dss)) (context state) (reranked_context state)
                   (cache_hit state).
Proof.
  intros Hraw. split.
  - intros Hrun. destruct (run_sends_inv _ _ _ Hrun) as [dss Hall]. exists dss.
    split; [done|]. rewrite (run_sends_ok _ raw _ dss) in Hrun by done. by injection Hrun.
  - intros (dss & Hall & ->). by apply run_sends_ok.
Qed.

(** X9.  The rewrite node has no handler: after a miss, an exception of
    the rewrite model, or a reply that is not JSON, ends the run with
    that exception. *)
Theorem agent_rewrite_failure (log_dir : option LogDir) (o : Oracles) (input : list Message)
    (u : Update) (e : exn) :
  check_cache (initial_state input) log_dir = Ok u ->
  cache_hit (apply_update (initial_state input) u) <> Some true ->
  reply_json (rewrite_reply o) = Raise e ->
  agent log_dir o input = Raise e.
Proof.
  intros Hcheck Hmiss Hreply.
  destruct (check_cache_miss_state _ _ _ Hcheck Hmiss) as (q & hit & Hq & Hhit & Hst).
  rewrite (agent_miss_eq _ _ _ u q hit) by done. by rewrite Hreply.
Qed.

(** What the dispatcher sends after a rewrite that returned a list. *)
Lemma sends_after_rewrite (input : list Message) (q : json) (qs : list json)
    (hit : option bool) :
  send_all_queries (State input (Some q) (Some (JArr qs)) (Some []) None None hit)
  = Ok (flat_map (fun query => [MkSend retrieve_vector_node query;
                                MkSend retrieve_bm25_node query]) (qs ++ [q])).
Proof. reflexivity. Qed.

Lemma backend_calls_ok (queries : list json) :
  (forall query, query ∈ queries ->
     (exists ds, similarity_search query TOP_K_FINAL = Ok ds) /\
     (exists ds, lexical_search query TOP_K_FINAL = Ok ds)) ->
  exists dss,
    Forall2 (fun s ds => backend_call s TOP_K_FINAL = Ok ds)
      (flat_map (fun query => [MkSend retrieve_vector_node query;
                               MkSend retrieve_bm25_node query]) queries) dss.
Proof.
  induction queries as [|query queries IH]; intros Hall.
  - exists []. constructor.
  - destruct (Hall query) as [[ds1 H1] [ds2 H2]]; [by left|].
    destruct IH as [dss Hdss]; [intros x Hx; apply Hall; by right|].
    exists (ds1 :: ds2 :: dss). simpl. by repeat constructor.
Qed.

(** Once retrieval has returned, the run completes. *)
Lemma agent_after_retrieval (o : Oracles) (state2 : RAGState) (q : json) :
  question state2 = Some q ->
  exists state evs,
    (let state3 := apply_update state2 (fuse_docs state2) in
     let* u := rerank_docs state3 (rerank_response o) in
     let state4 := apply_update state3 u in
     let* (u, evs) := generate_answer (clock o) state4 (generate_reply o) in
     Ok (apply_update state4 u, evs)) = Ok (state, evs).
Proof.
  intros Hq. destruct (fuse_docs_length state2) as (fused & -> & _). cbn zeta.
  rewrite (rerank_docs_eq _ q fused); [|by destruct state2|by destruct state2].
  cbn [bind]. set (reranked := match rerank_attempt fused _ with Ok r => r | Raise _ => _ end).
  unfold generate_answer. destruct state2; simpl in *. rewrite Hq. simpl.
  destruct reranked; [by eexists _, _|].
  destruct (generate_attempt (generate_reply o)) as [[[m a] c]|e]; by eexists _, _.
Qed.

(** X10.  After a miss and a rewrite that returned a list of queries, the
    run completes exactly when both backends return for every query and
    for the question: no answer of the rerank or the generation model
    makes the run fail. *)
Theorem agent_completes_iff (log_dir : option LogDir) (o : Oracles) (input : list Message)
    (u : Update) (q : json) (fields : list (string * json)) (qs : list json) :
  check_cache (initial_state input) log_dir = Ok u ->
  cache_hit (apply_update (initial_state input) u) <> Some true ->
  last_question (initial_state input) = Ok q ->
  rewrite_reply o = Json (JObj fields) ->
  dict_get fields "queries" (JArr []) = JArr qs ->
  (exists state evs, agent log_dir o input = Ok (state, evs)) <->
  (forall query, query ∈ qs ++ [q] ->
     (exists ds, similarity_search query TOP_K_FINAL = Ok ds) /\
     (exists ds, lexical_search query TOP_K_FINAL = Ok ds)).
Proof.
  intros Hcheck Hmiss Hq Hreply Hqs.
  destruct (check_cache_miss_state _ _ _ Hcheck Hmiss) as (q' & hit & Hq' & Hhit & Hst).
  assert (q' = q) as -> by congruence.
  rewrite (agent_miss_eq _ _ _ u q hit) by done. rewrite Hreply. cbn [reply_json bind py_get].
  rewrite Hqs. cbn zeta. rewrite sends_after_rewrite. cbn [bind]. split.
  - intros (state & evs & Hrun) query Hquery.
    destruct (run_sends _ _) as [state2|] eqn:Hsends; [|done].
    destruct (run_sends_inv _ _ _ Hsends) as [dss Hall].
    assert (Hcall : forall s,
              s ∈ flat_map (fun query => [MkSend retrieve_vector_node query;
                                           MkSend retrieve_bm25_node query]) (qs ++ [q]) ->
              exists ds, backend_call s TOP_K_FINAL = Ok ds).
    { intros s Hs. apply list_elem_of_lookup in Hs as [i Hi].
      destruct (Forall2_lookup_l _ _ _ _ _ Hall Hi) as (ds & _ & Hds). by exists ds. }
    split.
    + apply (Hcall (MkSend retrieve_vector_node query)).
      apply elem_of_flat_map_pair. exists query. auto.
    + apply (Hcall (MkSend retrieve_bm25_node query)).
      apply elem_of_flat_map_pair. exists query. auto.
  - intros Hall. destruct (backend_calls_ok _ Hall) as [dss Hdss].
    rewrite (run_sends_ok _ [] _ dss) by done. cbn [bind].
    by apply (agent_after_retrieval o _ q).
Qed.

(** X11.  When no backend finds a chunk, the run answers ["I don't
    know."] whatever the models reply: nothing is fused or selected, the
    generation model is not invoked and no record is written. *)
Theorem agent_no_candidates (log_dir : option LogDir) (o : Oracles) (input : list Message)
    (u : Update) (fields : list (string * json)) (qs : list json) :
  check_cache (initial_state input) log_dir = Ok u ->
  cache_hit (apply_update (initial_state input) u) <> Some true ->
  rewrite_reply o = Json (JObj fields) ->
  dict_get fields "queries" (JArr []) = JArr qs ->
  (forall query, similarity_search query TOP_K_FINAL = Ok [] /\
                 lexical_search query TOP_K_FINAL = Ok []) ->
  exists state,
    agent log_dir o input = Ok (state, []) /\
    messages state = input ++ [Msg AI (JStr "I don't know.")] /\
    docs state = Some [] /\ context state = Some [] /\ reranked_context state = Some [].
Proof.
  intros Hcheck Hmiss Hreply Hqs Hempty.
  destruct (check_cache_miss_state _ _ _ Hcheck Hmiss) as (q & hit & Hq & Hhit & Hst).
  rewrite (agent_miss_eq _ _ _ u q hit) by done. rewrite Hreply. cbn [reply_json bind py_get].
  rewrite Hqs. cbn zeta. rewrite sends_after_rewrite. cbn [bind].
  set (sends := flat_map _ _).
  assert (Hall : Forall2 (fun s ds => backend_call s TOP_K_FINAL = Ok ds) sends
                   (replicate (length sends) [])).
  { induction sends as [|[[] query] sends IH]; simpl; constructor; try done;
      unfold backend_call; simpl; apply Hempty. }
  rewrite (run_sends_ok _ [] sends (replicate (length sends) [])) by done. cbn [bind].
  assert (Hnil : concat (replicate (length sends) ([] : list Document)) = []).
  { apply concat_replicate_nil. }
  rewrite Hnil. simpl.
  assert (Hr : match rerank_attempt [] (rerank_response o) with
               | Ok r => r | Raise _ => take TOP_K_FINAL [] end = []).
  { destruct (rerank_attempt [] (rerank_response o)) as [r|] eqn:Hatt; [|done].
    apply rerank_attempt_bound in Hatt as [_ Hsub]. destruct r as [|d r]; [done|].
    exfalso. apply (not_elem_of_nil d), Hsub. by left. }
  simpl in Hr. rewrite Hr. unfold generate_answer. simpl.
  eexists. split; [reflexivity|]. done.
Qed.

(** What a run writes: nothing, or the audit record of an answer the
    generation model gave, or an error record. *)
Lemma agent_events_cases (log_dir : option LogDir) (o : Oracles) (input : list Message)
    (state : RAGState) (evs : list Event) :
  agent log_dir o input = Ok (state, evs) ->
  evs = [] \/
  (exists p m a c record,
      generate_attempt (generate_reply o) = Ok (m, a, c) /\
      evs = [LlmInvoke p; LogWrite (log_file "qa_log" (today (clock o))) record]) \/
  (exists p record,
      evs = [LlmInvoke p; LogWrite (log_file "error_log" (today (clock o))) record]).
Proof.
  intros Hagent.
  destruct (check_cache (initial_state input) log_dir) as [u0|] eqn:Hcheck;
    [|unfold agent in Hagent; by rewrite Hcheck in Hagent].
  destruct (decide (cache_hit (apply_update (initial_state input) u0) = Some true))
    as [Hhit|Hmiss].
  - unfold agent in Hagent. rewrite Hcheck in Hagent. cbn [bind] in Hagent.
    unfold route_from_cache in Hagent. rewrite Hhit in Hagent. simpl in Hagent.
    injection Hagent as <- <-. by left.
  - destruct (check_cache_miss_state _ _ _ Hcheck Hmiss) as (q & hit & Hq & Hhit & Hst).
    rewrite (agent_miss_eq _ _ _ u0 q hit) in Hagent by done.
    destruct (reply_json (rewrite_reply o)) as [result|]; [|done]. cbn [bind] in Hagent.
    destruct (py_get result "queries" (JArr [])) as [queries|]; [|done].
    cbn [bind] in Hagent. cbn zeta in Hagent.
    destruct (send_all_queries _) as [sends|]; [|done]. cbn [bind] in Hagent.
    destruct (run_sends _ sends) as [state2|] eqn:Hrun; [|done]. cbn [bind] in Hagent.
    apply run_sends_question in Hrun. cbn [question] in Hrun.
    destruct (fuse_docs_length state2) as (fused & Hfuse & _). rewrite Hfuse in Hagent.
    rewrite (rerank_docs_eq _ q fused) in Hagent;
      [|by destruct state2|by destruct state2].
    cbn [bind] in Hagent.
    destruct (generate_answer _ _ _) as [[u evs']|] eqn:Hgen; [|done].
    cbn [bind] in Hagent. injection Hagent as <- <-.
    apply (generate_answer_events _ _ q) in Hgen; [|by destruct state2].
    destruct Hgen as [->|[(p & m & a & c & docs & Hatt & ->)|(p & e & ->)]].
    + by left.
    + right. left. by eexists p, m, a, c, _.
    + right. right. by eexists p, _.
Qed.

(** X12.  A run whose generation step failed leaves the partitions the
    lookup reads as they were: a failed answer is never served from the
    cache. *)
Theorem generation_failure_not_cached (dir : LogDir) (r : Request) (e : exn) :
  generate_attempt (generate_reply (req_oracles r)) = Raise e ->
  glob_qa_log (serve dir r) = glob_qa_log dir /\
  forall question, lookup_cache question (serve dir r) = lookup_cache question dir.
Proof.
  intros Hfail.
  assert (Hglob : glob_qa_log (serve dir r) = glob_qa_log dir).
  { unfold serve.
    destruct (agent (Some dir) (req_oracles r) (req_input r)) as [[state evs]|] eqn:Hagent;
      [|done].
    apply agent_events_cases in Hagent
      as [->|[(p & m & a & c & record & Hatt & ->)|(p & record & ->)]]; [done|congruence|].
    simpl. apply glob_append_other, error_log_file_not_globbed. }
  split; [done|]. intros question. unfold lookup_cache, partitions. by rewrite Hglob.
Qed.

End AgentFacts.

Lemma agent_full_run_state_witness :
  exists state evs,
    agent (env := ascii_env) (fp := Q_float) (index := sample_index) (Some sample_logs)
      (req_oracles sample_request_authors) (req_input sample_request_authors)
    = Ok (state, evs) /\
    exists q queries m raw fused reranked,
      last_question (env := ascii_env) (initial_state (req_input sample_request_authors))
      = Ok q /\
      question state = Some q /\
      rewritten_queries state = Some queries /\
      messages state = req_input sample_request_authors ++ [m] /\ role m = AI /\
      docs state = Some raw /\
      context state = Some fused /\
      reranked_context state = Some reranked /\
      fused ⊆ raw /\ reranked ⊆ fused /\
      (length fused <= 15)%nat /\ (length reranked <= 5)%nat.
Proof.
  eexists _, _. split; [vm_compute; reflexivity|].
  eapply (agent_full_run_state (env := ascii_env) (fp := Q_float) (index := sample_index)
            (Some sample_logs) (req_oracles sample_request_authors)
            (req_input sample_request_authors)).
  - vm_compute. reflexivity.
  - vm_compute. discriminate.
Defined.

Lemma run_sends_merges_witness :
  run_sends (index := sample_index) (rewritten_state (JStr "q") (JArr []))
    [MkSend retrieve_vector_node (JStr "q"); MkSend retrieve_bm25_node (JStr "q")]
  = Ok (State [] (Some (JStr "q")) (Some (JArr []))
              (Some (take 5 six_docs ++ take 5 (rev six_docs))) None None None) <->
  exists dss,
    Forall2 (fun s ds => backend_call (index := sample_index) s TOP_K_FINAL = Ok ds)
      [MkSend retrieve_vector_node (JStr "q"); MkSend retrieve_bm25_node (JStr "q")] dss /\
    State [] (Some (JStr "q")) (Some (JArr []))
          (Some (take 5 six_docs ++ take 5 (rev six_docs))) None None None
    = State [] (Some (JStr "q")) (Some (JArr [])) (Some ([] ++ concat dss)) None None None.
Proof.
  apply (run_sends_merges (index := sample_index) (rewritten_state (JStr "q") (JArr [])) []).
  reflexivity.
Defined.

Lemma agent_rewrite_failure_witness :
  agent (env := ascii_env) (fp := Q_float) (index := sample_index) (Some sample_logs)
    sample_oracles_rewrite_down [human "Who are the authors?"]
  = Raise (Exn "APIConnectionError" "Connection error.").
Proof.
  eapply (agent_rewrite_failure (env := ascii_env) (fp := Q_float) (index := sample_index)).
  - vm_compute. reflexivity.
  - vm_compute. discriminate.
  - reflexivity.
Defined.

Lemma agent_completes_iff_witness :
  (exists state evs,
      agent (env := ascii_env) (fp := Q_float) (index := sample_index) (Some sample_logs)
        sample_oracles_generation_down [human "Who are the authors?"] = Ok (state, evs)) <->
  (forall query, query ∈ [JStr "authors of the paper"] ++ [JStr "Who are the authors?"] ->
     (exists ds, similarity_search (Index := sample_index) query TOP_K_FINAL = Ok ds) /\
     (exists ds, lexical_search (Index := sample_index) query TOP_K_FINAL = Ok ds)).
Proof.
  eapply (agent_completes_iff (env := ascii_env) (fp := Q_float) (index := sample_index)
            (Some sample_logs) sample_oracles_generation_down [human "Who are the authors?"]).
  - vm_compute. reflexivity.
  - vm_compute. discriminate.
  - reflexivity.
  - reflexivity.
  - reflexivity.
Defined.

Lemma agent_no_candidates_witness :
  exists state,
    agent (env := ascii_env) (fp := Q_float) (index := empty_index) (Some sample_logs)
      sample_oracles_generation_down [human "Who are the authors?"] = Ok (state, []) /\
    messages state = [human "Who are the authors?"] ++ [Msg AI (JStr "I don't know.")] /\
    docs state = Some [] /\ context state = Some [] /\ reranked_context state = Some [].
Proof.
  eapply (agent_no_candidates (env := ascii_env) (fp := Q_float) (index := empty_index)
            (Some sample_logs) sample_oracles_generation_down [human "Who are the authors?"]).
  - vm_compute. reflexivity.
  - vm_compute. discriminate.
  - reflexivity.
  - reflexivity.
  - intros query. split; reflexivity.
Defined.

Lemma generation_failure_not_cached_witness :
  glob_qa_log
    (serve (env := ascii_env) (fp := Q_float) (index := sample_index) sample_logs
       (MkRequest [human "Who are the authors?"] sample_oracles_generation_down))
  = glob_qa_log sample_logs /\
  forall question,
    lookup_cache (env := ascii_env) question
      (serve (env := ascii_env) (fp := Q_float) (index := sample_index) sample_logs
         (MkRequest [human "Who are the authors?"] sample_oracles_generation_down))
    = lookup_cache (env := ascii_env) question sample_logs.
Proof.
  eapply (generation_failure_not_cached (env := ascii_env) (fp := Q_float)
            (index := sample_index) sample_logs
            (MkRequest [human "Who are the authors?"] sample_oracles_generation_down)).
  reflexivity.
Defined.

(** ** The size of the rerank prompt *)

Lemma pretty_small (i : nat) : (i < 100)%nat -> (String.length (pretty i) <= 2)%nat.
Proof.
  intros Hi.
  assert (Hall : forallb (fun j => String.length (pretty j) <=? 2)%nat (seq 0 100) = true)
    by (vm_compute; reflexivity).
  rewrite forallb_forall in Hall. apply Nat.leb_le, Hall, in_seq. lia.
Qed.

Section RerankPromptSize.
Context {env : PyEnv} {fp : PyFloat}.

Lemma chunk_preview_length (page_content : string) :
  (String.length (chunk_preview page_content) <= 1205)%nat.
Proof.
  pose proof (replace_newlines_length page_content) as Hlen.
  destruct (chunk_preview_cases page_content) as [[-> Hle]|(h & Hh & Hlong & ->)]; [lia|].
  rewrite !string_length_append, str_head_length, str_tail_length by lia.
  change (String.length " ... ") with 5%nat. lia.
Qed.

Lemma chunks_text_from_length (i : nat) (docs : list Document) :
  (i + length docs <= 100)%nat ->
  (String.length (chunks_text_from i docs) <= 1212 * length docs)%nat.
Proof.
  revert i. induction docs as [|doc docs IH]; intros i Hi; [simpl; lia|].
  cbn [chunks_text_from length] in *. rewrite !string_length_append.
  pose proof (pretty_small i) as Hp. pose proof (chunk_preview_length (page_content doc)) as Hc.
  specialize (IH (S i)).
  change (String.length "[") with 1%nat. change (String.length "] ") with 2%nat.
  change (String.length nl) with 1%nat. lia.
Qed.

(** X13.  The prompt the rerank node builds after fusion asks for the
    top 5, carries the question, and lists the chunks in at most 15 * 1212 = 18180
    characters, however many candidates were retrieved and however long
    they are. *)
Theorem rerank_prompt_after_fusion (state : RAGState) (q : json) :
  question state = Some q ->
  exists p,
    rerank_prompt (apply_update state (fuse_docs state)) = Ok p /\
    rerank_top_k p = 5%nat /\ rerank_question p = q /\
    (String.length (rerank_chunks p) <= 15 * 1212)%nat.
Proof.
  intros Hq. destruct (fuse_docs_length state) as (fused & -> & Hlen).
  unfold rerank_prompt. simpl. rewrite Hq. simpl. eexists. split; [done|]. simpl.
  split; [done|]. split; [done|].
  etrans; [apply chunks_text_from_length; lia|]. lia.
Qed.

End RerankPromptSize.

Lemma rerank_prompt_after_fusion_witness :
  exists p,
    rerank_prompt (env := ascii_env)
      (apply_update sample_fusion_state
         (fuse_docs (env := ascii_env) (fp := Q_float) sample_fusion_state)) = Ok p /\
    rerank_top_k p = 5%nat /\ rerank_question p = sample_question /\
    (String.length (rerank_chunks p) <= 15 * 1212)%nat.
Proof.
  apply (rerank_prompt_after_fusion (env := ascii_env) (fp := Q_float) sample_fusion_state).
  reflexivity.
Defined.

(** ** The cleanup script *)

Section CleanupFacts.
Context {env : PyEnv}.

Lemma rmtree_lookup (path p : Path) (fs : FS) :
  Cleanup.rmtree path fs !! p = if decide (path `prefix_of` p) then None else fs !! p.
Proof.
  unfold Cleanup.rmtree. destruct (decide (path `prefix_of` p)) as [Hp|Hp].
  - apply map_lookup_filter_None. right. intros k _. simpl. tauto.
  - destruct (fs !! p) as [k|] eqn:Hk.
    + by apply map_lookup_filter_Some.
    + apply map_lookup_filter_None. by left.
Qed.

Lemma remove_directory_lookup (path p : Path) (fs : FS) :
  (Cleanup.remove_directory path fs).1 !! p
  = if decide (fs !! path = Some IsDir /\ path `prefix_of` p) then None else fs !! p.
Proof.
  unfold Cleanup.remove_directory. destruct (fs !! path) as [[|]|] eqn:Hk; cbn [fst].
  - by rewrite decide_False by (by intros [? _]).
  - rewrite rmtree_lookup. destruct (decide (path `prefix_of` p)).
    + by rewrite decide_True.
    + by rewrite decide_False by tauto.
  - by rewrite decide_False by (by intros [? _]).
Qed.

Lemma remove_file_lookup (path p : Path) (fs : FS) :
  (Cleanup.remove_file path fs).1 !! p
  = if decide (fs !! path = Some IsFile /\ path = p) then None else fs !! p.
Proof.
  unfold Cleanup.remove_file, Cleanup.unlink. destruct (fs !! path) as [[|]|] eqn:Hk; cbn [fst].
  - destruct (decide (path = p)) as [->|Hp].
    + rewrite lookup_delete_eq. by rewrite decide_True.
    + rewrite lookup_delete_ne by done. by rewrite decide_False by tauto.
  - by rewrite decide_False by (by intros [? _]).
  - by rewrite decide_False by (by intros [? _]).
Qed.

Lemma remove_directory_removed (path : Path) (fs : FS) :
  (Cleanup.remove_directory path fs).2 = bool_decide (fs !! path = Some IsDir).
Proof. unfold Cleanup.remove_directory. by destruct (fs !! path) as [[|]|]. Qed.

Lemma remove_file_removed (path : Path) (fs : FS) :
  (Cleanup.remove_file path fs).2 = bool_decide (fs !! path = Some IsFile).
Proof. unfold Cleanup.remove_file. by destruct (fs !! path) as [[|]|]. Qed.

(** The script after a yes, step by step. *)
Lemma cleanup_main_yes (input : string) (fs : FS) :
  str_lower (str_strip input) ∈ ["y"; "yes"] ->
  Cleanup.main input fs =
  let r1 := Cleanup.remove_directory Cleanup.LOGS_DIR fs in
  let r2 := Cleanup.remove_directory CHROMA_STORE_DIR r1.1 in
  let r3 := Cleanup.remove_file Cleanup.BM25_FILE r2.1 in
  let r4 := Cleanup.remove_file Cleanup.BUILD_CACHE_FILE r3.1 in
  (r4.1, Cleanup.Done (length (filter (fun b => b = true) [r1.2; r2.2; r3.2; r4.2]))).
Proof.
  intros Hyes. unfold Cleanup.main. rewrite bool_decide_eq_true_2 by done. cbn zeta.
  destruct (Cleanup.remove_directory Cleanup.LOGS_DIR fs) as [fs1 b1]. cbn [fst snd].
  destruct (Cleanup.remove_directory CHROMA_STORE_DIR fs1) as [fs2 b2]. cbn [fst snd].
  destruct (Cleanup.remove_file Cleanup.BM25_FILE fs2) as [fs3 b3]. cbn [fst snd].
  destruct (Cleanup.remove_file Cleanup.BUILD_CACHE_FILE fs3) as [fs4 b4]. cbn [fst snd].
  destruct b1, b2, b3, b4; reflexivity.
Qed.

Lemma remove_directory_lookup_ne (path p : Path) (fs : FS) :
  ~ path `prefix_of` p -> (Cleanup.remove_directory path fs).1 !! p = fs !! p.
Proof. intros Hp. rewrite remove_directory_lookup. apply decide_False. tauto. Qed.

Lemma remove_file_lookup_ne (path p : Path) (fs : FS) :
  path <> p -> (Cleanup.remove_file path fs).1 !! p = fs !! p.
Proof. intros Hp. rewrite remove_file_lookup. apply decide_False. tauto. Qed.

(** No target lies below another. *)
Lemma targets_apart :
  ~ Cleanup.LOGS_DIR `prefix_of` CHROMA_STORE_DIR /\
  ~ Cleanup.LOGS_DIR `prefix_of` Cleanup.BM25_FILE /\
  ~ Cleanup.LOGS_DIR `prefix_of` Cleanup.BUILD_CACHE_FILE /\
  ~ CHROMA_STORE_DIR `prefix_of` Cleanup.BM25_FILE /\
  ~ CHROMA_STORE_DIR `prefix_of` Cleanup.BUILD_CACHE_FILE /\
  ~ CHROMA_STORE_DIR `prefix_of` Cleanup.LOGS_DIR /\
  Cleanup.BM25_FILE <> Cleanup.BUILD_CACHE_FILE.
Proof. repeat split; try (intros [k Hk]; discriminate Hk); discriminate. Qed.

(** What the file system holds at a path after the script ran on a yes. *)
Lemma cleanup_main_lookup (input : string) (fs : FS) (p : Path) :
  str_lower (str_strip input) ∈ ["y"; "yes"] ->
  (Cleanup.main input fs).1 !! p =
  if decide ((fs !! Cleanup.LOGS_DIR = Some IsDir /\ Cleanup.LOGS_DIR `prefix_of` p) \/
             (fs !! CHROMA_STORE_DIR = Some IsDir /\ CHROMA_STORE_DIR `prefix_of` p) \/
             (fs !! Cleanup.BM25_FILE = Some IsFile /\ Cleanup.BM25_FILE = p) \/
             (fs !! Cleanup.BUILD_CACHE_FILE = Some IsFile /\ Cleanup.BUILD_CACHE_FILE = p))
  then None else fs !! p.
Proof.
  intros Hyes. rewrite cleanup_main_yes by done. cbn zeta. cbn [fst].
  destruct targets_apart as (H12 & H13 & H14 & H23 & H24 & H21 & H34).
  set (fs1 := (Cleanup.remove_directory Cleanup.LOGS_DIR fs).1).
  set (fs2 := (Cleanup.remove_directory CHROMA_STORE_DIR fs1).1).
  set (fs3 := (Cleanup.remove_file Cleanup.BM25_FILE fs2).1).
  assert (E2 : fs1 !! CHROMA_STORE_DIR = fs !! CHROMA_STORE_DIR)
    by (by apply remove_directory_lookup_ne).
  assert (E3 : fs2 !! Cleanup.BM25_FILE = fs !! Cleanup.BM25_FILE).
  { unfold fs2, fs1. by rewrite !remove_directory_lookup_ne. }
  assert (E4 : fs3 !! Cleanup.BUILD_CACHE_FILE = fs !! Cleanup.BUILD_CACHE_FILE).
  { unfold fs3, fs2, fs1. rewrite remove_file_lookup_ne by done.
    by rewrite !remove_directory_lookup_ne. }
  rewrite remove_file_lookup, E4. unfold fs3. rewrite remove_file_lookup, E3.
  unfold fs2. rewrite remove_directory_lookup, E2. unfold fs1.
  rewrite remove_directory_lookup.
  repeat case_decide; try done; tauto.
Qed.

Lemma cleanup_main_count (input : string) (fs : FS) :
  str_lower (str_strip input) ∈ ["y"; "yes"] ->
  (Cleanup.main input fs).2
  = Cleanup.Done (length (filter (fun t => fs !! t.1 = Some t.2) Cleanup.targets)).
Proof.
  intros Hyes. rewrite cleanup_main_yes by done. cbn zeta. cbn [snd].
  destruct targets_apart as (H12 & H13 & H14 & H23 & H24 & H21 & H34).
  rewrite !remove_directory_removed, !remove_file_removed.
  rewrite remove_file_lookup_ne by done. rewrite !remove_directory_lookup_ne by done.
  unfold Cleanup.targets. rewrite !filter_cons, filter_nil. cbn [fst snd].
  repeat case_bool_decide; repeat case_decide; try done; reflexivity.
Qed.

(** X14.  Whatever is answered at the prompt, the script leaves every
    path alone that is not below [logs] or the Chroma directory and is
    neither the BM25 file nor the build cache: the PDFs and the sources
    are never removed. *)
Theorem cleanup_keeps_other_paths (input : string) (fs : FS) (p : Path) :
  ~ Cleanup.LOGS_DIR `prefix_of` p ->
  ~ CHROMA_STORE_DIR `prefix_of` p ->
  p <> Cleanup.BM25_FILE ->
  p <> Cleanup.BUILD_CACHE_FILE ->
  (Cleanup.main input fs).1 !! p = fs !! p.
Proof.
  intros Hlogs Hchroma Hbm25 Hcache.
  destruct (decide (str_lower (str_strip input) ∈ ["y"; "yes"])) as [Hyes|Hno].
  - rewrite cleanup_main_lookup by done. apply decide_False.
    intros [[_ ?]|[[_ ?]|[[_ ?]|[_ ?]]]]; done.
  - unfold Cleanup.main. by rewrite bool_decide_eq_false_2.
Qed.

(** X15.  After a yes, no target is left with the kind the script expects
    of it; a target directory that was there is gone with everything
    below it; a target that was missing, or was of the other kind, is as
    it was; and the count reported is the number of targets that were
    there with the expected kind. *)
Theorem cleanup_removes_targets (input : string) (fs : FS) :
  str_lower (str_strip input) ∈ ["y"; "yes"] ->
  (forall target kind, (target, kind) ∈ Cleanup.targets ->
     (Cleanup.main input fs).1 !! target <> Some kind) /\
  (forall target p, (target, IsDir) ∈ Cleanup.targets ->
     fs !! target = Some IsDir -> target `prefix_of` p ->
     (Cleanup.main input fs).1 !! p = None) /\
  (forall target kind, (target, kind) ∈ Cleanup.targets ->
     fs !! target <> Some kind ->
     (Cleanup.main input fs).1 !! target = fs !! target) /\
  (Cleanup.main input fs).2
  = Cleanup.Done (length (filter (fun t => fs !! t.1 = Some t.2) Cleanup.targets)).
Proof.
  intros Hyes. destruct targets_apart as (H12 & H13 & H14 & H23 & H24 & H21 & H34).
  assert (Hin : forall target kind, (target, kind) ∈ Cleanup.targets ->
            (target, kind) = (Cleanup.LOGS_DIR, IsDir) \/
            (target, kind) = (CHROMA_STORE_DIR, IsDir) \/
            (target, kind) = (Cleanup.BM25_FILE, IsFile) \/
            (target, kind) = (Cleanup.BUILD_CACHE_FILE, IsFile)).
  { intros target kind Ht. unfold Cleanup.targets in Ht.
    rewrite !elem_of_cons, elem_of_nil in Ht. tauto. }
  split; [|split; [|split]].
  - intros target kind Ht. rewrite cleanup_main_lookup by done.
    destruct (Hin _ _ Ht) as [[= -> ->]|[[= -> ->]|[[= -> ->]|[= -> ->]]]];
      case_decide as Hd; try done; intros Hk; apply Hd; auto.
  - intros target p Ht Hdir Hp. rewrite cleanup_main_lookup by done. apply decide_True.
    destruct (Hin _ _ Ht) as [[= ->]|[[= ->]|[[=]|[=]]]]; auto.
  - intros target kind Ht Hk. rewrite cleanup_main_lookup by done. apply decide_False.
    destruct (Hin _ _ Ht) as [[= -> ->]|[[= -> ->]|[[= -> ->]|[= -> ->]]]];
      intros [[? ?]|[[? ?]|[[? ?]|[? ?]]]]; try done.
  - by apply cleanup_main_count.
Qed.

(** X16.  Running the script again after a yes removes nothing and
    reports that nothing was left to remove. *)
Theorem cleanup_twice (input input' : string) (fs : FS) :
  str_lower (str_strip input) ∈ ["y"; "yes"] ->
  str_lower (str_strip input') ∈ ["y"; "yes"] ->
  Cleanup.main input' (Cleanup.main input fs).1
  = ((Cleanup.main input fs).1, Cleanup.Done 0).
Proof.
  intros Hyes Hyes'.
  destruct (cleanup_removes_targets input fs Hyes) as (Hgone & _ & _ & _).
  set (fs' := (Cleanup.main input fs).1) in *.
  assert (Hlogs : fs' !! Cleanup.LOGS_DIR <> Some IsDir)
    by (apply Hgone; unfold Cleanup.targets; repeat constructor).
  assert (Hchroma : fs' !! CHROMA_STORE_DIR <> Some IsDir)
    by (apply Hgone; unfold Cleanup.targets; repeat constructor).
  assert (Hbm25 : fs' !! Cleanup.BM25_FILE <> Some IsFile)
    by (apply Hgone; unfold Cleanup.targets; repeat constructor).
  assert (Hcache : fs' !! Cleanup.BUILD_CACHE_FILE <> Some IsFile)
    by (apply Hgone; unfold Cleanup.targets; repeat constructor).
  rewrite (surjective_pairing (Cleanup.main input' fs')). f_equal.
  - apply map_eq. intros p. rewrite cleanup_main_lookup by done. apply decide_False.
    intros [[? ?]|[[? ?]|[[? ?]|[? ?]]]]; tauto.
  - rewrite cleanup_main_count by done. f_equal.
    unfold Cleanup.targets. rewrite !filter_cons, filter_nil. cbn [fst snd].
    repeat case_decide; try reflexivity; tauto.
Qed.

End CleanupFacts.

Lemma cleanup_keeps_other_paths_witness :
  (Cleanup.main (env := ascii_env) " YES " sample_fs).1 !! ["data"; "raw"; "paper.pdf"]
  = sample_fs !! ["data"; "raw"; "paper.pdf"].
Proof.
  apply (cleanup_keeps_other_paths (env := ascii_env) " YES " sample_fs
           ["data"; "raw"; "paper.pdf"]).
  - intros [k Hk]. discriminate Hk.
  - intros [k Hk]. discriminate Hk.
  - discriminate.
  - discriminate.
Defined.

Lemma cleanup_removes_targets_witness :
  (forall target kind, (target, kind) ∈ Cleanup.targets ->
     (Cleanup.main (env := ascii_env) " YES " sample_fs).1 !! target <> Some kind) /\
  (forall target p, (target, IsDir) ∈ Cleanup.targets ->
     sample_fs !! target = Some IsDir -> target `prefix_of` p ->
     (Cleanup.main (env := ascii_env) " YES " sample_fs).1 !! p = None) /\
  (forall target kind, (target, kind) ∈ Cleanup.targets ->
     sample_fs !! target <> Some kind ->
     (Cleanup.main (env := ascii_env) " YES " sample_fs).1 !! target = sample_fs !! target) /\
  (Cleanup.main (env := ascii_env) " YES " sample_fs).2
  = Cleanup.Done (length (filter (fun t => sample_fs !! t.1 = Some t.2) Cleanup.targets)).
Proof.
  apply (cleanup_removes_targets (env := ascii_env) " YES " sample_fs).
  vm_compute. constructor 2. constructor 1.
Defined.

Lemma cleanup_twice_witness :
  Cleanup.main (env := ascii_env) "y" (Cleanup.main (env := ascii_env) " YES " sample_fs).1
  = ((Cleanup.main (env := ascii_env) " YES " sample_fs).1, Cleanup.Done 0).
Proof.
  apply (cleanup_twice (env := ascii_env) " YES " "y" sample_fs).
  - vm_compute. constructor 2. constructor 1.
  - vm_compute. constructor 1.
Defined.

(** ** Configuration and model factory *)

Section ConfigFacts.
Context {env : PyEnv}.


End ConfigFacts.


(** ** Embeddings and the BM25 file *)

Section EmbeddingFacts.
Context {env : PyEnv} {Vector : Type}.
Variable encode : list string -> list Vector.
Hypothesis encode_length : forall texts, length (encode texts) = length texts.

(** X18.  When the encoder returns one vector per text, [embed_documents]
    returns as many vectors as there are texts that are not blank: never
    more than the texts it was given, and one per text exactly when no
    text is blank. *)
Theorem embed_documents_count (texts : list string) :
  length (embed_documents encode texts)
  = length (List.filter (fun t => negb (String.eqb (str_strip t) "")) texts) /\
  (length (embed_documents encode texts) <= length texts)%nat /\
  (length (embed_documents encode texts) = length texts <->
   Forall (fun t => str_strip t <> "") texts).
Proof.
  unfold embed_documents. rewrite encode_length, length_map. cbn [truthy].
  split; [done|]. induction texts as [|t texts [IHle IHiff]]; simpl.
  - split; [lia|]. split; [constructor|done].
  - destruct (String.eqb (str_strip t) "") eqn:Ht; simpl.
    + split; [lia|]. split; [lia|].
      intros Hall. inversion Hall as [|? ? Hhd]; subst. apply String.eqb_eq in Ht. done.
    + apply String.eqb_neq in Ht. split; [lia|]. split.
      * intros Hlen. constructor; [done|]. apply IHiff. lia.
      * intros Hall. inversion Hall; subst. f_equal. by apply IHiff.
Qed.

End EmbeddingFacts.

Lemma embed_documents_count_witness :
  length (embed_documents (env := ascii_env) (map String.length) ["Abstract"; "  "; "1 Introduction"])
  = length (List.filter (fun t => negb (String.eqb (str_strip (PyEnv := ascii_env) t) ""))
              ["Abstract"; "  "; "1 Introduction"]) /\
  (length (embed_documents (env := ascii_env) (map String.length)
             ["Abstract"; "  "; "1 Introduction"])
   <= length ["Abstract"; "  "; "1 Introduction"])%nat /\
  (length (embed_documents (env := ascii_env) (map String.length)
             ["Abstract"; "  "; "1 Introduction"])
   = length ["Abstract"; "  "; "1 Introduction"] <->
   Forall (fun t => str_strip (PyEnv := ascii_env) t <> "")
     ["Abstract"; "  "; "1 Introduction"]).
Proof.
  apply (embed_documents_count (env := ascii_env) (map String.length)).
  intros texts. apply length_map.
Defined.

(** X19.  After a confirmed cleanup the BM25 retriever cannot be loaded
    any more: unless the path was a directory, [load_bm25_retriever]
    raises [FileNotFoundError], whatever the pickle held. *)
Theorem cleanup_then_load_bm25 {env : PyEnv} {Retriever : Type} (input : string) (fs : FS)
    (unpickle : result Retriever) :
  str_lower (str_strip input) ∈ ["y"; "yes"] ->
  fs !! Cleanup.BM25_FILE <> Some IsDir ->
  exists msg,
    load_bm25_retriever (Cleanup.main input fs).1 unpickle
    = Raise (Exn "FileNotFoundError" msg).
Proof.
  intros Hyes Hdir. unfold load_bm25_retriever. cbn zeta.
  change (VECTOR_STORE_DIR ++ ["bm25_retriever.pkl"]) with Cleanup.BM25_FILE.
  rewrite cleanup_main_lookup by done.
  destruct targets_apart as (H12 & H13 & H14 & H23 & H24 & H21 & H34).
  destruct (fs !! Cleanup.BM25_FILE) as [[|]|] eqn:Hk; [|done|].
  - rewrite decide_True by auto. by eexists.
  - rewrite decide_False; [by eexists|]. intros [[_ ?]|[[_ ?]|[[? _]|[_ ?]]]]; done.
Qed.

Lemma cleanup_then_load_bm25_witness :
  exists msg,
    load_bm25_retriever (Cleanup.main (env := ascii_env) "y" sample_fs).1
      (Ok sample_index)
    = Raise (Exn "FileNotFoundError" msg).
Proof.
  apply (cleanup_then_load_bm25 (env := ascii_env) "y" sample_fs (Ok sample_index)).
  - vm_compute. constructor 1.
  - vm_compute. discriminate.
Defined.

(** ** The ingestion script *)







Section LabelFacts.
Context {env : PyEnv}.
Variable path_name : string -> string.








End LabelFacts.

(** X21.  The cache a build saves makes the next run stop early exactly
    when the fingerprint of the PDFs is the one that was saved.  A cache
    that is missing, that raises [JSONDecodeError] (or [KeyError]) when
    loaded, or that holds an empty or null value never stops a run: the
    store is rebuilt.  The [UnicodeDecodeError] of a file that is not
    UTF-8 and the [PermissionError] of a file that may not be read are
    not handled and end the run. *)
Theorem build_cache_round_trip (names : list string) (current_fp : string) :
  List.filter (ends_with ".pdf") names <> [] ->
  (forall saved_fp created_at files total_pages total_chunks,
     BuildVectorstore.main (Some names) current_fp
       (BuildVectorstore.Loaded (BuildVectorstore.cache_data saved_fp created_at files
                                   total_pages total_chunks))
     = Ok (if String.eqb saved_fp current_fp
           then BuildVectorstore.ExitUnchanged else BuildVectorstore.Rebuild)) /\
  (forall cache_file,
     cache_file = BuildVectorstore.Missing \/
     (exists msg, cache_file = BuildVectorstore.LoadRaises (Exn "JSONDecodeError" msg)) \/
     (exists msg, cache_file = BuildVectorstore.LoadRaises (Exn "KeyError" msg)) \/
     (exists v, cache_file = BuildVectorstore.Loaded v /\ truthy v = false) ->
     BuildVectorstore.main (Some names) current_fp cache_file
     = Ok BuildVectorstore.Rebuild) /\
  (forall msg,
     BuildVectorstore.main (Some names) current_fp
       (BuildVectorstore.LoadRaises (Exn "UnicodeDecodeError" msg))
     = Raise (Exn "UnicodeDecodeError" msg) /\
     BuildVectorstore.main (Some names) current_fp
       (BuildVectorstore.LoadRaises (Exn "PermissionError" msg))
     = Raise (Exn "PermissionError" msg)).
Proof.
  intros Hpdf. unfold BuildVectorstore.main.
  destruct (List.filter (ends_with ".pdf") names) as [|pdf pdfs]; [done|].
  split; [|split].
  - intros saved_fp created_at files total_pages total_chunks. simpl.
    by destruct (String.eqb saved_fp current_fp).
  - intros cache_file [->|[[msg ->]|[[msg ->]|(v & -> & Hv)]]]; [done|done|done|].
    simpl. by rewrite Hv.
  - done.
Qed.

Lemma build_cache_round_trip_witness :
  (forall saved_fp created_at files total_pages total_chunks,
     BuildVectorstore.main (Some ["notes.txt"; "paper.pdf"]) "9e107d9d372bb6826bd81d3542a419d6"
       (BuildVectorstore.Loaded (BuildVectorstore.cache_data saved_fp created_at files
                                   total_pages total_chunks))
     = Ok (if String.eqb saved_fp "9e107d9d372bb6826bd81d3542a419d6"
           then BuildVectorstore.ExitUnchanged else BuildVectorstore.Rebuild)) /\
  (forall cache_file,
     cache_file = BuildVectorstore.Missing \/
     (exists msg, cache_file = BuildVectorstore.LoadRaises (Exn "JSONDecodeError" msg)) \/
     (exists msg, cache_file = BuildVectorstore.LoadRaises (Exn "KeyError" msg)) \/
     (exists v, cache_file = BuildVectorstore.Loaded v /\ truthy v = false) ->
     BuildVectorstore.main (Some ["notes.txt"; "paper.pdf"]) "9e107d9d372bb6826bd81d3542a419d6"
       cache_file
     = Ok BuildVectorstore.Rebuild) /\
  (forall msg,
     BuildVectorstore.main (Some ["notes.txt"; "paper.pdf"]) "9e107d9d372bb6826bd81d3542a419d6"
       (BuildVectorstore.LoadRaises (Exn "UnicodeDecodeError" msg))
     = Raise (Exn "UnicodeDecodeError" msg) /\
     BuildVectorstore.main (Some ["notes.txt"; "paper.pdf"]) "9e107d9d372bb6826bd81d3542a419d6"
       (BuildVectorstore.LoadRaises (Exn "PermissionError" msg))
     = Raise (Exn "PermissionError" msg)).
Proof.
  apply (build_cache_round_trip ["notes.txt"; "paper.pdf"] "9e107d9d372bb6826bd81d3542a419d6").
  vm_compute. discriminate.
Defined.

(** ** Logger setup *)

Section LoggerFacts.
Context {env : PyEnv}.

Lemma scan_files_empty_file (question : json) (files1 files2 : LogDir) (file : string) :
  scan_files question (files1 ++ (file, []) :: files2)
  = scan_files question (files1 ++ files2).
Proof. rewrite !scan_files_app. simpl. done. Qed.

(** A new file without lines changes no lookup. *)
Lemma lookup_open_append (question : json) (file : string) (dir : LogDir) :
  lookup_cache question (open_append file dir) = lookup_cache question dir.
Proof.
  unfold open_append. destruct (existsb _ dir); [done|].
  unfold lookup_cache, partitions. rewrite glob_qa_log_snoc.
  unfold glob_qa_log at 2. rewrite filter_cons, filter_nil.
  destruct (decide _); [|by rewrite app_nil_r].
  destruct (sorted_reverse_snoc String.ltb fst (file, []) (glob_qa_log dir))
    as (l1 & l2 & -> & ->).
  apply scan_files_empty_file.
Qed.

Lemma open_append_keeps (file : string) (dir : LogDir) (f : string * list LogLine) :
  f ∈ dir -> f ∈ open_append file dir.
Proof.
  unfold open_append. destruct (existsb _ dir); [done|]. intros Hf.
  apply elem_of_app. by left.
Qed.

Lemma open_append_exists (file : string) (dir : LogDir) :
  exists lines, (file, lines) ∈ open_append file dir.
Proof.
  unfold open_append. destruct (existsb _ dir) eqn:Hex.
  - by apply existsb_name_elem.
  - exists []. apply elem_of_app. right. by left.
Qed.

(** X22.  Setting a logger up twice on the same day is the same as
    setting it up once: the second call adds no handler and touches no
    file, so every record is written once. *)
Theorem setup_logger_twice (today name log_prefix : string) (level : nat) (w : LogWorld) :
  setup_logger today name log_prefix level (setup_logger today name log_prefix level w).1
  = setup_logger today name log_prefix level w /\
  exists file handlers,
    loggers (setup_logger today name log_prefix level w).1 !! (name +:+ "_" +:+ today)
    = Some (MkLogger level (file :: handlers)).
Proof.
  unfold setup_logger. cbn zeta. cbn [logger_handlers].
  set (logger_name := name +:+ "_" +:+ today).
  destruct (logger_handlers (getLogger logger_name (loggers w))) as [|h hs] eqn:Hh;
    cbn [fst loggers logs]; unfold getLogger; rewrite lookup_insert_eq;
    cbn [default id from_option logger_handlers].
  - split; [|by eexists _, _]. by rewrite insert_insert_eq.
  - split; [|by eexists _, _]. by rewrite insert_insert_eq.
Qed.

(** X23.  Importing the generator module in a fresh process creates
    the [logs] directory if it is missing and the two files of the day
    if they are missing, keeps every file that was there with its lines,
    and changes the result of no cache lookup. *)
Theorem init_loggers_logs (today : string) (dir : option LogDir) :
  exists dir',
    logs (init_loggers today (MkLogWorld ∅ dir)).1 = Some dir' /\
    (forall f, f ∈ default [] dir -> f ∈ dir') /\
    (exists lines, (log_file "qa_log" today, lines) ∈ dir') /\
    (exists lines, (log_file "error_log" today, lines) ∈ dir') /\
    (forall question, lookup_cache question dir' = lookup_cache question (default [] dir)).
Proof.
  unfold init_loggers, setup_logger. cbn zeta. cbn [logger_handlers loggers logs].
  unfold getLogger at 1. rewrite lookup_empty. cbn [default id from_option logger_handlers loggers logs].
  unfold getLogger. rewrite lookup_insert_ne by (by destruct today).
  rewrite lookup_empty. cbn [default id from_option logger_handlers loggers logs fst].
  eexists. split; [reflexivity|]. split; [|split; [|split]].
  - intros f Hf. apply open_append_keeps. apply open_append_keeps. exact Hf.
  - destruct (open_append_exists (log_file "qa_log" today) (default [] dir)) as [lines Hl].
    exists lines. by apply open_append_keeps.
  - apply open_append_exists.
  - intros question. by rewrite !lookup_open_append.
Qed.

End LoggerFacts.

(** ** One answer per question *)

Section OneAnswerFacts.
Context {env : PyEnv} {fp : PyFloat} {index : Index}.

Lemma append_line_names (file : string) (line : LogLine) (dir : LogDir) :
  NoDup (map fst dir) -> NoDup (map fst (append_line file line dir)).
Proof.
  intros Hnd. unfold append_line. destruct (existsb _ dir) eqn:Hex.
  - rewrite map_map.
    rewrite (map_ext _ fst); [done|]. intros f. by destruct (String.eqb _ _).
  - rewrite map_app. simpl. apply NoDup_app. split; [done|]. split; [|apply NoDup_singleton].
    intros name Hname ->%list_elem_of_singleton.
    apply list_elem_of_fmap in Hname as ([name lines] & -> & Hin).
    apply not_true_iff_false in Hex. apply Hex.
    apply existsb_exists. exists (name, lines). split; [by apply list_elem_of_In|].
    apply String.eqb_refl.
Qed.

(** The lines of the partitions after a line was written to one of them. *)
Lemma glob_lines_append (file : string) (line : LogLine) (dir : LogDir) :
  NoDup (map fst dir) ->
  glob_qa_log [(file, [])] = [(file, [])] ->
  concat (map snd (glob_qa_log (append_line file line dir)))
  ≡ₚ line :: concat (map snd (glob_qa_log dir)).
Proof.
  intros Hnd Hfile.
  assert (Hglob : Is_true (String.prefix "qa_log_" file && ends_with ".jsonl" file)).
  { unfold glob_qa_log in Hfile. rewrite filter_cons in Hfile. simpl in Hfile.
    by destruct (decide _). }
  unfold append_line. destruct (existsb _ dir) eqn:Hex.
  - induction dir as [|[name lines] dir IH]; [done|].
    simpl in Hex. simpl map in *. inversion Hnd as [|? ? Hnotin Hnd']; subst.
    destruct (String.eqb name file) eqn:Heq.
    + apply String.eqb_eq in Heq. subst name.
      assert (Hrest : map (fun f : string * list LogLine =>
                             if String.eqb (fst f) file then (fst f, snd f ++ [line]) else f)
                        dir = dir).
      { rewrite <- (map_id dir) at 2. apply map_ext_in. intros [name' lines'] Hin. simpl.
        destruct (String.eqb name' file) eqn:Heq'; [|done].
        apply String.eqb_eq in Heq'. subst. destruct Hnotin.
        apply list_elem_of_In, in_map_iff. by exists (file, lines'). }
      rewrite Hrest. unfold glob_qa_log. rewrite !filter_cons_True by done. simpl.
      rewrite <- app_assoc. simpl. symmetry. apply Permutation_middle.
    + simpl in Hex. unfold glob_qa_log in *. rewrite !filter_cons.
      destruct (decide _); simpl; rewrite IH by done; [|done].
      by rewrite Permutation_middle.
  - rewrite glob_qa_log_snoc. unfold glob_qa_log at 2. rewrite filter_cons_True by done.
    rewrite filter_nil, map_app, concat_app. simpl.
    by rewrite Permutation_app_comm.
Qed.

Lemma matches_append (q : string) (file : string) (line : LogLine) (dir : LogDir) :
  NoDup (map fst dir) ->
  glob_qa_log [(file, [])] = [(file, [])] ->
  length (matches q (append_line file line dir))
  = ((if logged_match q line then 1 else 0) + length (matches q dir))%nat.
Proof.
  intros Hnd Hfile. unfold matches.
  assert (Hperm : forall l1 l2 : list LogLine, l1 ≡ₚ l2 ->
            length (List.filter (logged_match q) l1) = length (List.filter (logged_match q) l2)).
  { induction 1 as [|x l1 l2 _ IH|x y l|l1 l2 l3 _ IH1 _ IH2]; simpl;
      repeat destruct (logged_match q _); simpl; congruence. }
  rewrite (Hperm _ _ (glob_lines_append file line dir Hnd Hfile)). simpl.
  by destruct (logged_match q line).
Qed.

(** A question whose lookup misses is answered by no record. *)
Lemma matches_none (q : string) (dir : LogDir) :
  well_formed dir -> lookup_cache (JStr q) dir = None -> matches q dir = [].
Proof.
  intros Hwf Hnone. unfold matches.
  pose proof (lookup_none_records q dir Hwf Hnone) as Hno.
  induction (glob_qa_log dir) as [|[name lines] files IH]; [done|].
  simpl. rewrite List.filter_app, IH by (intros file line Hf; apply Hno; by right).
  rewrite app_nil_r.
  assert (Hlines : forall line, line ∈ lines -> logged_match q line = false)
    by (intros line Hl; apply (Hno (name, lines)); [by left|done]).
  clear -Hlines. induction lines as [|line lines IH]; [done|]. simpl.
  rewrite (Hlines line) by (by left). apply IH. intros l Hl. apply Hlines. by right.
Qed.

Lemma serve_one_answer (dir : LogDir) (r : Request) :
  text_request r -> well_formed dir ->
  one_answer_per_question dir -> one_answer_per_question (serve dir r).
Proof.
  intros [[q Hq] Htyped] Hwf [Hnames Hone].
  destruct (serve_cases dir r q Hq Htyped)
    as [->|[(_ & day & record & ->)|(Hnone & fields & a & cs & -> & Hfq & Hfa & Hfc)]].
  - done.
  - split; [by apply append_line_names|]. intros q'. unfold matches.
    rewrite glob_append_other by apply error_log_file_not_globbed. apply Hone.
  - split; [by apply append_line_names|]. intros q'.
    rewrite matches_append; [|done|apply qa_log_file_globbed].
    destruct (logged_match q' (Parsed (JObj fields))) eqn:Hm; [|apply Hone].
    simpl in Hm. rewrite Hfq in Hm. apply String.eqb_eq in Hm.
    rewrite (matches_none q' dir); [simpl; lia|done|].
    by apply (lookup_none_norm q q').
Qed.

End OneAnswerFacts.

(** X24.  Serving requests keeps the cache single-valued: starting from
    logs in which no question has more than one audit record, after any
    sequence of requests (asked in text, answered with the types the
    prompt asks for) still no question has more than one, because a
    record is only written after a miss.  On such logs the order in which
    the lookup reads files and lines does not matter. *)
Theorem serve_all_one_answer {env : PyEnv} {fp : PyFloat} {index : Index}
    (dir : LogDir) (rs : list Request) :
  well_formed dir ->
  one_answer_per_question dir ->
  Forall text_request rs ->
  well_formed (serve_all dir rs) /\ one_answer_per_question (serve_all dir rs).
Proof.
  intros Hwf Hone Hrs. revert dir Hwf Hone.
  induction Hrs as [|r rs Hr Hrs IH]; intros dir Hwf Hone; [done|].
  simpl. apply IH; [by apply serve_well_formed|by apply serve_one_answer].
Qed.

Lemma serve_all_one_answer_witness :
  well_formed
    (serve_all (env := ascii_env) (fp := Q_float) (index := sample_index)
       sample_logs_no_citations [sample_request_authors; sample_request_gpus]) /\
  one_answer_per_question (env := ascii_env)
    (serve_all (env := ascii_env) (fp := Q_float) (index := sample_index)
       sample_logs_no_citations [sample_request_authors; sample_request_gpus]).
Proof.
  apply (serve_all_one_answer (env := ascii_env) (fp := Q_float) (index := sample_index)
           sample_logs_no_citations [sample_request_authors; sample_request_gpus]).
  - intros file Hf.
    change (file ∈ [("qa_log_20240227.jsonl",
                     [sample_record "Who wrote it?" "The authors." []])]) in Hf.
    apply list_elem_of_singleton in Hf as ->. simpl. repeat constructor; by eexists.
  - split; [repeat constructor; by intros ?%elem_of_nil|].
    intros q. unfold matches.
    change (glob_qa_log sample_logs_no_citations) with sample_logs_no_citations.
    unfold sample_logs_no_citations. cbn [concat map snd app List.filter].
    destruct (logged_match q _); simpl; lia.
  - repeat constructor; simpl; by eexists.
Defined.
